(** * newspaper-scraper: the site adapters for Welt, Handelsblatt and Zeit

    A shallow embedding of [newspaper_scraper/sites/welt.py],
    [handelsblatt.py] and [zeit.py].  Each adapter method is a monadic
    function over an explicit state (the outside world the method talks
    to, plus the records it hands to the logger), with Python exceptions
    as an error result.  The parts the adapters only call (the base
    class's [_request], the HTML parser, pandas' date parser, the
    browser) are interfaces. *)

From Stdlib Require Import ZArith String Ascii List Bool Lia DecimalString.
From stdpp Require Import gmap strings.
Import ListNotations.

Set Warnings "-register-all".

Local Open Scope Z_scope.

(** ** Python: exceptions, results, the state monad *)

Module Py.

(** The exception classes the three modules can meet. [except Exception]
    catches all of them; the others are caught by name. *)
Inductive exn : Type :=
| AttributeError
| TypeError
| KeyError
| NameError
| ValueError
| TimeoutException
| NoSuchElementException
| WebDriverException.

Definition exn_eqb (a b : exn) : bool :=
  match a, b with
  | AttributeError, AttributeError
  | TypeError, TypeError
  | KeyError, KeyError
  | NameError, NameError
  | ValueError, ValueError
  | TimeoutException, TimeoutException
  | NoSuchElementException, NoSuchElementException
  | WebDriverException, WebDriverException => true
  | _, _ => false
  end.

Inductive result (A : Type) : Type :=
| Ok (a : A)
| Raise (e : exn).
Arguments Ok {A} a.
Arguments Raise {A} e.

(** What a method emits: records for [log], lines for [print]. *)
Inductive level : Type := INFO | WARNING | ERROR.

Inductive output : Type :=
| Log (lvl : level) (msg : string)
| Stdout (msg : string).

(** The state threaded through a method: the world it talks to and the
    output emitted so far (oldest first). *)
Record State (E : Type) : Type := mkState { env : E; emitted : list output }.
Arguments mkState {E} env emitted.
Arguments env {E} s.
Arguments emitted {E} s.

Definition M (E A : Type) : Type := State E -> result A * State E.

Definition ret {E A} (a : A) : M E A := fun s => (Ok a, s).

Definition raise {E A} (e : exn) : M E A := fun s => (Raise e, s).

Definition bind {E A B} (m : M E A) (k : A -> M E B) : M E B :=
  fun s => match m s with
           | (Ok a, s') => k a s'
           | (Raise e, s') => (Raise e, s')
           end.

Definition lift {E A} (r : result A) : M E A := fun s => (r, s).

(** [try: body except <classes>: handler]. What the body did to the state
    before raising stays done. *)
Definition try_except {E A} (body : M E A) (catches : exn -> bool)
    (handler : M E A) : M E A :=
  fun s => match body s with
           | (Ok a, s') => (Ok a, s')
           | (Raise e, s') => if catches e then handler s' else (Raise e, s')
           end.

Definition emit {E} (o : output) : M E unit :=
  fun s => (Ok tt, mkState (env s) (emitted s ++ [o])).

Definition log_info {E} (msg : string) : M E unit := emit (Log INFO msg).
Definition log_warning {E} (msg : string) : M E unit := emit (Log WARNING msg).
Definition log_error {E} (msg : string) : M E unit := emit (Log ERROR msg).
Definition print {E} (msg : string) : M E unit := emit (Stdout msg).

Definition Exception (e : exn) : bool := true.
Definition only (c : exn) (e : exn) : bool := exn_eqb c e.

End Py.
Export Py.

Declare Scope py_scope.
Delimit Scope py_scope with py.
Notation "x <- c1 ;; c2" := (bind c1 (fun x => c2))
  (at level 100, c1 at next level, right associativity) : py_scope.
Notation "c1 ;; c2" := (bind c1 (fun _ => c2))
  (at level 100, right associativity) : py_scope.
Open Scope py_scope.

(** A for loop that appends to an accumulator and may raise. *)
Fixpoint for_each {E A B} (f : B -> A -> M E B) (xs : list A) (acc : B) : M E B :=
  match xs with
  | [] => ret acc
  | x :: xs' => acc' <- f acc x ;; for_each f xs' acc'
  end.

(** A list comprehension whose element expression may raise. *)
Fixpoint comprehension {E A B} (f : A -> M E B) (xs : list A) : M E (list B) :=
  match xs with
  | [] => ret []
  | x :: xs' => y <- f x ;; ys <- comprehension f xs' ;; ret (y :: ys)
  end.

(** ** Python [str] and [int] operations the adapters use *)

Module Str.

Definition dquote : string := String (ascii_of_nat 34) EmptyString.

Definition startswith (s p : string) : bool := String.prefix p s.

(** [sub in s] *)
Definition contains (sub s : string) : bool :=
  match String.index 0 sub s with Some _ => true | None => false end.

Definition is_empty (s : string) : bool :=
  match s with EmptyString => true | String _ _ => false end.

(** [c.isspace()] on the one-byte characters; the white space beyond
    them that Python knows (the no-break space and the like) is not
    modelled. *)
Definition isspace (c : ascii) : bool :=
  let n := nat_of_ascii c in
  ((9 <=? n)%nat && (n <=? 13)%nat) || ((28 <=? n)%nat && (n <=? 32)%nat).

Fixpoint lstrip (s : string) : string :=
  match s with
  | EmptyString => EmptyString
  | String c s' => if isspace c then lstrip s' else s
  end.

Fixpoint rstrip (s : string) : string :=
  match s with
  | EmptyString => EmptyString
  | String c s' =>
      match rstrip s' with
      | EmptyString => if isspace c then EmptyString else String c EmptyString
      | r => String c r
      end
  end.

Definition strip (s : string) : string := rstrip (lstrip s).

(** [s.replace(old, new)] for a non-empty [old]: occurrences are taken
    left to right and do not overlap. [skip] counts the characters of the
    occurrence just replaced that are still to be passed over. *)
Fixpoint replace_from (old new : string) (skip : nat) (s : string) : string :=
  match s with
  | EmptyString => EmptyString
  | String c s' =>
      match skip with
      | S k => replace_from old new k s'
      | O =>
          if String.prefix old s
          then new +:+ replace_from old new (String.length old - 1) s'
          else String c (replace_from old new 0 s')
      end
  end.

Definition replace (s old new : string) : string := replace_from old new 0 s.

(** [s.split()]: the maximal runs of non-space characters. *)
Fixpoint split_from (s : string) : string * list string :=
  match s with
  | EmptyString => (EmptyString, [])
  | String c s' =>
      let '(w, ws) := split_from s' in
      if isspace c
      then (EmptyString, if is_empty w then ws else w :: ws)
      else (String c w, ws)
  end.

Definition split (s : string) : list string :=
  let '(w, ws) := split_from s in if is_empty w then ws else w :: ws.

Definition join (sep : string) (parts : list string) : string :=
  String.concat sep parts.

(** [str(z)] *)
Definition str (z : Z) : string := NilEmpty.string_of_int (Z.to_int z).

(** [f'{z:02}']: sign-aware zero padding to width two. *)
Definition format_02 (z : Z) : string :=
  if z <? 0 then str z
  else if z <? 10 then "0" +:+ str z
  else str z.

End Str.

(** ** [datetime] *)

Module Datetime.

Record date : Type := mkDate { year : Z; month : Z; day : Z }.

Inductive timezone : Type := utc.

Record datetime : Type := mkDatetime {
  dt_date : date;
  dt_hour : Z; dt_minute : Z; dt_second : Z; dt_microsecond : Z;
  tzinfo : option timezone
}.

(** [dt.datetime.combine(day, dt.datetime.min.time(), tzinfo=tz)] *)
Definition combine_min_time (d : date) (tz : timezone) : datetime :=
  mkDatetime d 0 0 0 0 (Some tz).

(** [day.strftime(fmt)] for the three formats in use. *)
Definition strftime_dmy_dash (d : date) : string :=
  Str.format_02 (day d) +:+ "-" +:+ Str.format_02 (month d) +:+ "-" +:+ Str.str (year d).

Definition strftime_dmy_dot (d : date) : string :=
  Str.format_02 (day d) +:+ "." +:+ Str.format_02 (month d) +:+ "." +:+ Str.str (year d).

Definition strftime_ymd_dash (d : date) : string :=
  Str.str (year d) +:+ "-" +:+ Str.format_02 (month d) +:+ "-" +:+ Str.format_02 (day d).

End Datetime.

(** ** BeautifulSoup: the parse tree and its searches *)

Module Bs4.

Inductive Tag : Type :=
| NavigableString (s : string)
| Element (name : string) (attrs : list (string * string)) (contents : list Tag).

(** [tag.descendants]: everything below the tag, in document order. *)
Fixpoint descendants (t : Tag) : list Tag :=
  match t with
  | NavigableString _ => []
  | Element _ _ cs => flat_map (fun c => c :: descendants c) cs
  end.

Definition tag_name (t : Tag) : option string :=
  match t with NavigableString _ => None | Element n _ _ => Some n end.

Definition tag_attrs (t : Tag) : list (string * string) :=
  match t with NavigableString _ => [] | Element _ a _ => a end.

Fixpoint assoc (k : string) (l : list (string * string)) : option string :=
  match l with
  | [] => None
  | (k', v) :: l' => if String.eqb k k' then Some v else assoc k l'
  end.

(** [tag.get(key)], [tag.has_attr(key)] and [tag[key]] *)
Definition get (t : Tag) (key : string) : option string := assoc key (tag_attrs t).

Definition has_attr (t : Tag) (key : string) : bool :=
  match get t key with Some _ => true | None => false end.

Definition getitem {E} (t : Tag) (key : string) : M E string :=
  match get t key with Some v => ret v | None => raise KeyError end.

(** What one entry of a search's attribute dictionary asks for: a value,
    or ([href=True]) the mere presence of the attribute. *)
Inductive wanted : Type :=
| Value (v : string)
| Present.

(** [class] is multi-valued: a wanted value matches one of the classes, or
    the classes joined by single spaces. *)
Definition class_matches (q v : string) : bool :=
  existsb (String.eqb q) (Str.split v) || String.eqb q (Str.join " " (Str.split v)).

Definition attr_matches (attrs : list (string * string)) (f : string * wanted) : bool :=
  match assoc (fst f) attrs, snd f with
  | None, _ => false
  | Some _, Present => true
  | Some v, Value q =>
      if String.eqb (fst f) "class" then class_matches q v else String.eqb v q
  end.

Definition matches (name : string) (filters : list (string * wanted)) (t : Tag) : bool :=
  match t with
  | NavigableString _ => false
  | Element n attrs _ => String.eqb n name && forallb (attr_matches attrs) filters
  end.

Definition find_all (t : Tag) (name : string) (filters : list (string * wanted)) : list Tag :=
  List.filter (matches name filters) (descendants t).

Definition find (t : Tag) (name : string) (filters : list (string * wanted)) : option Tag :=
  head (find_all t name filters).

(** [None.find(...)]: the attribute lookup on [None] raises. *)
Definition find_on {E} (t : option Tag) (name : string) (filters : list (string * wanted))
    : M E (option Tag) :=
  match t with
  | None => raise AttributeError
  | Some t => ret (find t name filters)
  end.

(** [None[key]]: subscripting [None] raises. *)
Definition getitem_on {E} (t : option Tag) (key : string) : M E string :=
  match t with
  | None => raise TypeError
  | Some t => getitem t key
  end.

(** [soup.select('name.cls')]: the [name] elements that carry the class. *)
Definition select_name_class (t : Tag) (name cls : string) : list Tag :=
  List.filter (fun d => match d with
                   | NavigableString _ => false
                   | Element n attrs _ =>
                       String.eqb n name &&
                       match assoc "class" attrs with
                       | Some v => existsb (String.eqb cls) (Str.split v)
                       | None => false
                       end
                   end)
         (descendants t).

(** [tag.get_text(sep, strip=True)] *)
Definition stripped_strings (t : Tag) : list string :=
  List.filter (fun s => negb (Str.is_empty s))
         (flat_map (fun d => match d with
                             | NavigableString s => [Str.strip s]
                             | Element _ _ _ => []
                             end)
                   (descendants t)).

Definition get_text_strip (t : Tag) (sep : string) : string :=
  Str.join sep (stripped_strings t).

(** The parser behind [BeautifulSoup(markup, "html.parser")]: the tree of
    a document, or the exception the parser raises. *)
Class HtmlParser : Type := html_parser : string -> result Tag.

(** [BeautifulSoup(markup, "html.parser")]; markup [None] is a TypeError. *)
Definition BeautifulSoup {E} `{HtmlParser} (markup : option string) : M E Tag :=
  match markup with
  | None => raise TypeError
  | Some html => lift (html_parser html)
  end.

End Bs4.

(** ** pandas: timestamps and the one-column frame operations *)

Module Pandas.

(** A publication date as the adapters hand it on: a [datetime] object, a
    pandas [Timestamp] (an instant, with or without a time zone) or
    [pd.NaT], the missing value. *)
Inductive pub_date : Type :=
| PyDatetime (d : Datetime.datetime)
| Timestamp (value : Z) (tz : option Datetime.timezone)
| NaT.

Definition isna (p : pub_date) : bool :=
  match p with NaT => true | _ => false end.

Definition tz_aware (p : pub_date) : bool :=
  match p with
  | PyDatetime d => match Datetime.tzinfo d with Some _ => true | None => false end
  | Timestamp _ tz => match tz with Some _ => true | None => false end
  | NaT => false
  end.

(** pandas' string-to-instant parsers. [parse_coerce s] is the instant
    [pd.to_datetime(s, errors='coerce', utc=True)] finds, or nothing;
    [parse_format s fmt] is [pd.to_datetime(s, format=fmt, utc=True)],
    which raises when [s] does not fit [fmt]. *)
Class DateParser : Type := {
  parse_coerce : string -> option Z;
  parse_format : string -> string -> result (option Z)
}.

(** With [utc=True] an instant comes back localized to UTC. *)
Definition utc_or_nat (v : option Z) : pub_date :=
  match v with
  | Some t => Timestamp t (Some Datetime.utc)
  | None => NaT
  end.

Definition to_datetime_coerce_utc `{DateParser} (s : string) : pub_date :=
  utc_or_nat (parse_coerce s).

Definition to_datetime_format_utc `{DateParser} (s fmt : string) : result pub_date :=
  match parse_format s fmt with
  | Ok v => Ok (utc_or_nat v)
  | Raise e => Raise e
  end.

(** [pd.to_datetime(column, errors="coerce")] on a column that already
    holds timestamps and [NaT]: the values are kept. What pandas does to
    a column of other values, or of timestamps of several zones, is not
    modelled. *)
Definition to_datetime_column (col : list pub_date) : list pub_date := col.

(** [pd.DataFrame({"url": urls, "pub_date": pub_dates})]: the columns must
    have one length. *)
Definition DataFrame {E} (urls : list string) (pub_dates : list pub_date)
    : M E (list (string * pub_date)) :=
  if (length urls =? length pub_dates)%nat
  then ret (combine urls pub_dates)
  else raise ValueError.

(** [df.drop_duplicates(subset="url")]: the first row of each url stays. *)
Fixpoint drop_duplicates_from (seen : list string) (rows : list (string * pub_date))
    : list (string * pub_date) :=
  match rows with
  | [] => []
  | (u, d) :: rows' =>
      if existsb (String.eqb u) seen
      then drop_duplicates_from seen rows'
      else (u, d) :: drop_duplicates_from (u :: seen) rows'
  end.

Definition drop_duplicates (rows : list (string * pub_date)) : list (string * pub_date) :=
  drop_duplicates_from [] rows.

End Pandas.

(** ** The base class and what an indexing method returns *)

Module Scraper.

(** [NewspaperManager._request(url)]: the page's html or [None]. The method
    belongs to the base class; the adapters only call it. *)
Class NewspaperManager (W : Type) : Type := _request : string -> M W (option string).

(** The value an indexing method returns: a bare list of urls, or the
    tuple of the url list and the publication-date list. *)
Inductive returned : Type :=
| JustList (urls : list string)
| TwoLists (urls : list string) (pub_dates : list Pandas.pub_date).

(** [list(set(urls))] *)
Definition list_set (urls : list string) : list string :=
  elements (list_to_set urls : gset string).

(** Truth value of an optional tag: a tag is always true, [None] false. *)
Definition truthy (t : option Bs4.Tag) : bool :=
  match t with Some _ => true | None => false end.

(** Reading a module-level name: unbound names raise NameError. *)
Definition global {E A} (binding : option A) : M E A :=
  match binding with Some v => ret v | None => raise NameError end.

End Scraper.
Export Scraper.

(** ** Selenium: the browser session as the adapters drive it *)

Module Selenium.

Inductive By : Type := NAME | XPATH | CSS_SELECTOR.

Definition locator : Type := By * string.

Inductive WebElement : Type := element (id : nat).

(** [expected_conditions] *)
Inductive condition : Type :=
| presence_of_element_located (l : locator)
| element_to_be_clickable (l : locator).

(** What a [WebDriverWait] polls: the driver, or an element. *)
Inductive waits_on : Type :=
| the_driver
| the_element (e : WebElement).

(** The calls an adapter makes on the session. *)
Inductive call : Type :=
| Get (url : string)
| FindElement (l : locator)
| Until (on : waits_on) (timeout : nat) (c : condition)
| SendKeys (e : WebElement) (keys : string)
| Click (e : WebElement)
| SwitchToFrame (e : WebElement)
| SwitchToDefaultContent
| PageSource.

(** How the browser answers one call. *)
Inductive outcome : Type :=
| Done
| Found (e : WebElement)
| Source (html : string)
| Raises (e : exn).

(** The session: the answers the browser is going to give, in order, and
    the calls made so far (oldest first). *)
Record Browser : Type := mkBrowser { pending : list outcome; calls : list call }.

(** One call: it is recorded and takes the browser's next answer. A
    session with no answer left is dead: the call raises. *)
Definition perform (c : call) : M Browser outcome :=
  fun s =>
    let b := env s in
    match pending b with
    | [] => (Raise WebDriverException, mkState (mkBrowser [] (calls b ++ [c])) (emitted s))
    | Raises e :: rest => (Raise e, mkState (mkBrowser rest (calls b ++ [c])) (emitted s))
    | o :: rest => (Ok o, mkState (mkBrowser rest (calls b ++ [c])) (emitted s))
    end.

(** An answer of the wrong kind is a broken session too. *)
Definition returns_nothing (c : call) : M Browser unit :=
  o <- perform c ;; match o with Done => ret tt | _ => raise WebDriverException end.

Definition returns_element (c : call) : M Browser WebElement :=
  o <- perform c ;; match o with Found e => ret e | _ => raise WebDriverException end.

Definition returns_text (c : call) : M Browser string :=
  o <- perform c ;; match o with Source h => ret h | _ => raise WebDriverException end.

(** [driver.get(url)] *)
Definition get (url : string) : M Browser unit := returns_nothing (Get url).

(** [driver.find_element(by, value)] *)
Definition find_element (l : locator) : M Browser WebElement := returns_element (FindElement l).

(** [WebDriverWait(on, timeout).until(condition)] *)
Definition until (on : waits_on) (timeout : nat) (c : condition) : M Browser WebElement :=
  returns_element (Until on timeout c).

Definition send_keys (e : WebElement) (keys : string) : M Browser unit :=
  returns_nothing (SendKeys e keys).

Definition click (e : WebElement) : M Browser unit := returns_nothing (Click e).

(** [driver.switch_to.frame(e)] and [driver.switch_to.default_content()] *)
Definition switch_to_frame (e : WebElement) : M Browser unit :=
  returns_nothing (SwitchToFrame e).

Definition switch_to_default_content : M Browser unit :=
  returns_nothing SwitchToDefaultContent.

(** [driver.page_source] *)
Definition page_source : M Browser string := returns_text PageSource.

(** [time.sleep(seconds)]: no call on the session, nothing raised. *)
Definition sleep (seconds : nat) : M Browser unit := ret tt.

End Selenium.

(** ** welt.py *)

Module DeWelt.
Import Bs4 Pandas Datetime.

Section Soup.
Context {W : Type} `{NewspaperManager W} `{HtmlParser} `{DateParser}.

Definition formats : list string :=
  ["%d.%m.%Y | %H:%M"; "%d.%m.%Y %H:%M"; "%B %d %Y | %I:%M %p"; "%B %d %Y %I:%M %p"]%string.

(** The loop over the known formats: the first that parses ends the loop,
    a format that raises is skipped, and [parsed] starts as [NaT]. *)
Fixpoint try_formats (text : string) (fmts : list string) : pub_date :=
  match fmts with
  | [] => NaT
  | fmt :: rest =>
      match to_datetime_format_utc text fmt with
      | Ok parsed => parsed
      | Raise _ => try_formats text rest
      end
  end.

Definition parse_text (text : string) : pub_date :=
  if Str.is_empty text then NaT
  else
    let text := Str.strip (Str.replace (Str.replace text "Uhr" "") "," "") in
    let parsed := try_formats text formats in
    if isna parsed then to_datetime_coerce_utc text else parsed.

(** One round of the loop over [articles]: the date appended for [art]. *)
Definition pub_date_of (art : Tag) : pub_date :=
  match find art "span" [("class", Value "c-teaser__date")]%string with
  | Some time_tag =>
      match get time_tag "datetime" with
      | Some v => to_datetime_coerce_utc v
      | None => parse_text (get_text_strip time_tag "")
      end
  | None => parse_text (get_text_strip art " ")
  end.

Definition headline_url (a : Tag) : M W string :=
  href <- getitem a "href" ;;
  ret (if negb (Str.startswith href "http") then "https://www.welt.de" +:+ href else href).

Definition _get_articles_by_date (day : date) : M W returned :=
  let url := "https://www.welt.de/schlagzeilen/nachrichten-vom-"
             +:+ strftime_dmy_dash day +:+ ".html" in
  html <- _request url ;;
  soup <- BeautifulSoup html ;;
  let articles := find_all soup "article" [("class", Value "c-teaser c-teaser--archive")]%string in
  match articles with
  | [] =>
      print ("[INFO] No articles found for " +:+ strftime_dmy_dash day) ;;
      ret (TwoLists [] [])
  | _ :: _ =>
      urls <- comprehension headline_url (select_name_class soup "a" "c-teaser__headline-link") ;;
      let pub_dates := map pub_date_of articles in
      df <- DataFrame urls pub_dates ;;
      let df := drop_duplicates df in
      let dates := to_datetime_column (map snd df) in
      ret (TwoLists (map fst df) dates)
  end.

(** The lookup of the premium link inside the [try]: the page header,
    then the link in it. *)
Definition premium_icon_lookup (soup : Tag) : M W (option Tag) :=
  let header := find soup "header" [("class", Value "r-header r-header--default")]%string in
  find_on header "a" [("class", Value "is-link c-article-header__premium")]%string.

Definition _soup_get_html (url : string) : M W (option string * bool) :=
  html <- _request url ;;
  match html with
  | None | Some EmptyString => ret (None, false)
  | Some html =>
      soup <- BeautifulSoup (Some html) ;;
      try_except
        (premium_icon <- premium_icon_lookup soup ;;
         ret (Some html, negb (truthy premium_icon)))
        (only AttributeError)
        (log_warning ("Could not identify if article is premium: " +:+ url +:+ ".") ;;
         ret (None, false))
  end.

End Soup.

Section Browser.
Import Selenium.

(** # Login *)
Definition login_form (username password : string) : M Browser unit :=
  get "https://lo.la.welt.de/login" ;;
  until the_driver 10 (presence_of_element_located (NAME, "username")) ;;
  e <- find_element (NAME, "username") ;; send_keys e username ;;
  e <- find_element (NAME, "password") ;; send_keys e password ;;
  e <- find_element (CSS_SELECTOR, "button[type=" +:+ Str.dquote +:+ "submit" +:+ Str.dquote +:+ "]") ;;
  click e.

Definition accept_button : string :=
  "button[title=" +:+ Str.dquote +:+ "Alle akzeptieren" +:+ Str.dquote +:+ "]".

(** # Go to main page and accept cookies *)
Definition accept_cookies : M Browser unit :=
  get "https://www.welt.de/" ;;
  privacy_frame <- until the_driver 10
    (presence_of_element_located
       (XPATH, "//iframe[@title=" +:+ Str.dquote +:+ "SP Consent Message" +:+ Str.dquote +:+ "]")) ;;
  switch_to_frame privacy_frame ;;
  until the_driver 10 (presence_of_element_located (CSS_SELECTOR, accept_button)) ;;
  e <- find_element (CSS_SELECTOR, accept_button) ;;
  click e.

Definition home_component : string :=
  "div[data-component-name=" +:+ Str.dquote +:+ "home" +:+ Str.dquote +:+ "]".

(** # Check if login was successful *)
Definition check_login : M Browser bool :=
  try_except
    (get "https://www.welt.de/meinewelt/" ;;
     until the_driver 10 (presence_of_element_located (CSS_SELECTOR, home_component)) ;;
     _elem <- find_element (CSS_SELECTOR, home_component) ;;
     until (the_element _elem) 10
       (presence_of_element_located
          (CSS_SELECTOR, "div[name=" +:+ Str.dquote +:+ "greeting" +:+ Str.dquote +:+ "]")) ;;
     get "https://www.welt.de" ;;
     log_info "Logged in to Welt Plus." ;;
     ret true)
    (only NoSuchElementException)
    (log_warning "Login to Welt Plus failed." ;; ret false).

(** Everything [_selenium_login] does before its check, outside any [try]. *)
Definition before_check (username password : string) : M Browser unit :=
  login_form username password ;; accept_cookies.

Definition _selenium_login (username password : string) : M Browser bool :=
  before_check username password ;; check_login.

End Browser.
End DeWelt.

(** ** handelsblatt.py *)

Module DeHandelsblatt.
Import Bs4 Pandas Datetime.

Section Soup.
Context {W : Type} `{NewspaperManager W} `{HtmlParser}.

(** [_get_articles_by_date] reads the module-level name [base_url]. The
    module never binds it: [Some b] stands for an environment that does,
    [None] for the unbound name. *)
Variable base_url : option string.

Definition search_url (day : date) : string :=
  "https://archiv.handelsblatt.com/dosearch?explicitSearch=true&q=&x=0&y=0&dbShortcut=HBARCHIV_HANDELSBLATT_NAVIGATION&searchMask=7009&TI%2CUT%2CDZ%2CBT%2COT%2CSL=&KO%2CRU=&AU=&CO%2CC2%2CTA%2CKA%2CVA%2CZ1=&MM%2COW%2CUF%2CMF%2CAO%2CTP%2CVM%2CNN%2CNJ%2CKV%2CZ2%2CSAT-PERSONS.name=&CT=&CT%2CDE%2CZ4%2CKW=&BR%2CGW%2CN1%2CN2%2CNC%2CND%2CSC%2CWZ%2CZ5%2CAI%2CBC%2CKN%2CTN%2CVN%2CK0%2CB4%2CNW%2CVH=&Z3%2CCN%2CCE%2CKC%2CTC%2CVC=&timeFilterType=on&DT_from="
  +:+ strftime_dmy_dot day +:+ "&DT_to=" +:+ strftime_dmy_dot day.

(** The body of [for hit in hits]: one more url when the hit's first link
    is a path. *)
Definition append_hit (urls : list string) (hit : Tag) : M W (list string) :=
  match find hit "a" [("href", Present)]%string with
  | Some link_tag =>
      href <- getitem link_tag "href" ;;
      if Str.startswith href "/"
      then b <- global base_url ;; ret (urls ++ [b +:+ href])
      else ret urls
  | None => ret urls
  end.

(** The body of [for page_url in page_links]. *)
Definition append_page (urls : list string) (page_url : string) : M W (list string) :=
  html_page <- _request page_url ;;
  soup_page <- BeautifulSoup html_page ;;
  let hits_page := find_all soup_page "div" [("class", Value "hit")]%string in
  for_each append_hit hits_page urls.

Definition _get_articles_by_date (day : date) : M W returned :=
  html <- _request (search_url day) ;;
  match html with
  | None => ret (JustList [])
  | Some html =>
      soup <- BeautifulSoup (Some html) ;;
      let hits := find_all soup "div" [("class", Value "hit")]%string in
      urls <- for_each append_hit hits [] ;;
      let pagination := find soup "div" [("class", Value "pagination")]%string in
      urls <- match pagination with
              | Some pagination =>
                  hrefs <- comprehension (fun a => getitem a "href")
                             (find_all pagination "a" [("href", Present)]%string) ;;
                  let page_links := List.filter (Str.contains "dosearch") hrefs in
                  page_links <- comprehension
                                  (fun href => b <- global base_url ;; ret (b +:+ href))
                                  page_links ;;
                  for_each append_page page_links urls
              | None => ret urls
              end ;;
      let old_len := length urls in
      let urls := list_set urls in
      (if (length urls <? old_len)%nat
       then log_warning ("Removed " +:+ Str.str (Z.of_nat (old_len - length urls))
                         +:+ " duplicate urls for " +:+ strftime_ymd_dash day +:+ ".")
       else ret tt) ;;
      let pub_dates := repeat (PyDatetime (combine_min_time day utc)) (length urls) in
      ret (TwoLists urls pub_dates)
  end.

(** The method makes no request: every article is left to the browser. *)
Definition _soup_get_html (url : string) : M W (option string * bool) :=
  ret (None, false).

End Soup.

Section Browser.
Import Selenium.

Definition consent_frame : locator :=
  (XPATH, "//iframe[@title=" +:+ Str.dquote +:+ "Iframe title" +:+ Str.dquote +:+ "]").

Definition consent_button : locator :=
  (XPATH, "//button[contains(text(), 'ZUSTIMMEN')]").

(** # Accept cookies on Main Page *)
Definition accept_cookies_main : M Browser unit :=
  get "https://www.handelsblatt.com/ " ;;
  privacy_frame <- until the_driver 10 (presence_of_element_located consent_frame) ;;
  switch_to_frame privacy_frame ;;
  cookie_accept_button <- until the_driver 10 (element_to_be_clickable consent_button) ;;
  click cookie_accept_button.

(** # Go to Login Page *)
Definition go_to_login : M Browser unit :=
  login_button <- until the_driver 10
    (element_to_be_clickable (XPATH, "//a[contains(text(), 'Login')]")) ;;
  click login_button.

(** # Accept cookies on Login Page, if necessary (the same block runs
    again after the form is sent): a timeout is passed over. *)
Definition accept_cookies_if_necessary : M Browser unit :=
  try_except
    (sleep 1 ;;
     privacy_frame <- until the_driver 10 (presence_of_element_located consent_frame) ;;
     switch_to_frame privacy_frame ;;
     cookie_accept_button <- until the_driver 10 (element_to_be_clickable consent_button) ;;
     click cookie_accept_button)
    (only TimeoutException)
    (ret tt).

(** # Login *)
Definition login_form (username password : string) : M Browser unit :=
  sleep 1 ;;
  e <- find_element (XPATH, "//input[@type=" +:+ Str.dquote +:+ "email" +:+ Str.dquote +:+ "]") ;;
  send_keys e username ;;
  sleep 1 ;;
  e <- find_element (XPATH, "//input[@type=" +:+ Str.dquote +:+ "password" +:+ Str.dquote +:+ "]") ;;
  send_keys e password ;;
  sleep 1 ;;
  e <- find_element (XPATH, "//button[@type=" +:+ Str.dquote +:+ "submit" +:+ Str.dquote +:+ "]") ;;
  click e.

(** # Check if login was successful *)
Definition check_login (username : string) : M Browser bool :=
  try_except
    (until the_driver 10
       (presence_of_element_located
          (XPATH, "//span[contains(text(), '" +:+ username +:+ "')]")) ;;
     log_info "Logged in to Handelsblatt." ;;
     ret true)
    (only TimeoutException)
    (log_error "Login to Handelsblatt failed." ;; ret false).

(** Everything [_selenium_login] does before its check. *)
Definition before_check (username password : string) : M Browser unit :=
  accept_cookies_main ;;
  go_to_login ;;
  accept_cookies_if_necessary ;;
  login_form username password ;;
  accept_cookies_if_necessary.

Definition _selenium_login (username password : string) : M Browser bool :=
  before_check username password ;; check_login username.

End Browser.
End DeHandelsblatt.

(** ** zeit.py *)

Module DeZeit.
Import Bs4 Pandas Datetime.

Section Soup.
Context {W : Type} `{NewspaperManager W} `{HtmlParser}.

Definition first_link (article : Tag) : M W string :=
  getitem_on (find article "a" []) "href".

Definition _get_articles_by_editions (year edition : Z) : M W returned :=
  let url := "https://www.zeit.de/" +:+ Str.str year +:+ "/" +:+ Str.format_02 edition
             +:+ "/index" in
  html <- _request url ;;
  match html with
  | None => ret (JustList [])
  | Some html =>
      soup <- BeautifulSoup (Some html) ;;
      let articles := find_all soup "article" [] in
      urls <- comprehension first_link articles ;;
      let urls := List.filter (fun url => Str.startswith url "https://www.zeit.de/") urls in
      let old_len := length urls in
      let urls := list_set urls in
      log_warning ("Removed " +:+ Str.str (Z.of_nat (old_len - length urls))
                   +:+ " duplicate urls for " +:+ Str.str year +:+ "/"
                   +:+ Str.format_02 edition +:+ ".") ;;
      ret (JustList urls)
  end.

(** The lookup of the paywall box inside the inner [try]. *)
Definition premium_icon_lookup (soup : Tag) : M W (option Tag) :=
  ret (find soup "aside" [("id", Value "paywall")]%string).

(** The text [traceback.format_exc()] gives for an exception; only its
    presence on the output matters here. *)
Definition format_exc : string := "Traceback (most recent call last):".

(** [_soup_get_html] calls itself on the full-page variant of the url.
    [fuel] bounds the number of nested activations; [None] as a result
    means the bound was hit; Python's own limit on nested calls, and the
    RecursionError it raises, is not modelled. The name [info] in the
    parse handler is bound nowhere in the module, so that handler raises
    NameError before it can return. *)
Fixpoint _soup_get_html (fuel : nat) (url : string) : M W (option (option string * bool)) :=
  match fuel with
  | O => ret None
  | S fuel' =>
      try_except
        (html <- _request url ;;
         match html with
         | None =>
             log_warning ("Problem requesting: " +:+ url) ;;
             ret (Some (None, false))
         | Some html =>
             parsed <- try_except
                         (soup <- BeautifulSoup (Some html) ;; ret (inl soup))
                         Exception
                         (@global W unit None ;; ret (inr (None, false))) ;;
             match parsed with
             | inr early => ret (Some early)
             | inl soup =>
                 let komplettansicht_link :=
                   find soup "a" [("href"%string, Value (url +:+ "/komplettansicht"))] in
                 match komplettansicht_link with
                 | Some _ => _soup_get_html fuel' (url +:+ "/komplettansicht")
                 | None =>
                     try_except
                       (premium_icon <- premium_icon_lookup soup ;;
                        ret (Some (Some html, negb (truthy premium_icon))))
                       (only AttributeError)
                       (log_warning ("Could not identify if article is premium: "
                                     +:+ url +:+ ".") ;;
                        ret (Some (None, false)))
                 end
             end
         end)
        (only TypeError)
        (print format_exc ;; ret (Some (None, false)))
  end.

End Soup.

Section Browser.
Import Selenium.

(** # Login *)
Definition login_form (username password : string) : M Browser unit :=
  get "https://meine.zeit.de/anmelden" ;;
  e <- find_element (XPATH, "//input[@type=" +:+ Str.dquote +:+ "email" +:+ Str.dquote +:+ "]") ;;
  send_keys e username ;;
  e <- find_element (XPATH, "//input[@type=" +:+ Str.dquote +:+ "password" +:+ Str.dquote +:+ "]") ;;
  send_keys e password ;;
  e <- find_element (XPATH, "//input[@type=" +:+ Str.dquote +:+ "submit" +:+ Str.dquote +:+ "]") ;;
  click e ;;
  confirm <- until the_driver 60
    (element_to_be_clickable (XPATH, "//*[@id=" +:+ Str.dquote +:+ "kc-login" +:+ Str.dquote +:+ "]")) ;;
  click confirm ;;
  get "https://www.zeit.de/index".

(** # Accept cookies *)
Definition accept_cookies : M Browser unit :=
  privacy_frame <- until the_driver 20
    (presence_of_element_located
       (XPATH, "//iframe[@title=" +:+ Str.dquote +:+ "Consent Message" +:+ Str.dquote +:+ "]")) ;;
  switch_to_frame privacy_frame ;;
  cookie_accept_button <- until the_driver 20
    (element_to_be_clickable (XPATH, "//button[contains(text(), 'Agree and continue')]")) ;;
  click cookie_accept_button.

(** # Check if login was successful *)
Definition check_login : M Browser bool :=
  switch_to_default_content ;;
  try_except
    (until the_driver 10
       (presence_of_element_located
          (XPATH, "//div[@data-render=" +:+ Str.dquote +:+ "dashboard" +:+ Str.dquote +:+ "]")) ;;
     log_info "Logged in to Zeit Plus." ;;
     ret true)
    (only TimeoutException)
    (log_error "Login to Zeit Plus failed." ;; ret false).

(** Everything [_selenium_login] does before its check. *)
Definition before_check (username password : string) : M Browser unit :=
  login_form username password ;; accept_cookies.

Definition _selenium_login (username password : string) : M Browser bool :=
  before_check username password ;; check_login.

Definition full_view_link (url : string) : locator :=
  (XPATH, "//a[@href=" +:+ Str.dquote +:+ url +:+ "/komplettansicht" +:+ Str.dquote +:+ "]").

Definition _selenium_get_html (url : string) : M Browser string :=
  get url ;;
  try_except
    (find_element (full_view_link url) ;;
     get (url +:+ "/komplettansicht"))
    (only NoSuchElementException)
    (ret tt) ;;
  page_source.

End Browser.
End DeZeit.

(** ** What the claims speak about *)

Module Claims.
Import Bs4 Pandas Datetime.

Definition urls_of (r : returned) : list string :=
  match r with JustList urls => urls | TwoLists urls _ => urls end.

Definition pub_dates_of (r : returned) : list pub_date :=
  match r with JustList _ => [] | TwoLists _ pub_dates => pub_dates end.

(** A pair of two sequences of one length. *)
Definition pair_of_equal_length (r : returned) : bool :=
  match r with
  | JustList _ => false
  | TwoLists urls pub_dates => (length urls =? length pub_dates)%nat
  end.

Fixpoint skip (n : nat) (s : string) : string :=
  match n, s with
  | O, _ => s
  | S _, EmptyString => EmptyString
  | S n', String _ s' => skip n' s'
  end.

(** A host is there when something other than a path, query or fragment
    follows the scheme. *)
Definition host_present (rest : string) : bool :=
  match rest with
  | EmptyString => false
  | String c _ => negb (Ascii.eqb c "/" || Ascii.eqb c "?" || Ascii.eqb c "#")
  end.

(** An absolute url: scheme and host present. *)
Definition absolute_url (u : string) : bool :=
  (Str.startswith u "https://" && host_present (skip 8 u))
  || (Str.startswith u "http://" && host_present (skip 7 u)).

(** A url as Welt's comprehension builds it from the href of one headline
    link: prefixed with the site, or kept when it starts with [http]. *)
Definition welt_url_form (u : string) : Prop :=
  exists href,
    (Str.startswith href "http" = false /\ u = "https://www.welt.de" +:+ href)
    \/ (Str.startswith href "http" = true /\ u = href).

(** A url as Handelsblatt's loops build it from the href of one hit. *)
Definition handelsblatt_url_form (base_url : option string) (u : string) : Prop :=
  exists b href,
    base_url = Some b /\ Str.startswith href "/" = true /\ u = b +:+ href.

(** The premium marker of a Welt page: the premium link in the header. *)
Definition welt_marker (soup : Tag) : option Tag :=
  match find soup "header" [("class", Value "r-header r-header--default")]%string with
  | Some header => find header "a" [("class", Value "is-link c-article-header__premium")]%string
  | None => None
  end.

(** The paywall marker of a Zeit page: the aside with id [paywall]. *)
Definition zeit_marker (soup : Tag) : option Tag :=
  find soup "aside" [("id", Value "paywall")]%string.

End Claims.

(** ** Concrete worlds: a handful of pages and browser sessions *)

Module Fixtures.
Import Bs4 Pandas Datetime Selenium.

(** A world that is nothing but a table of pages. *)
Definition serve (pages : string -> option string) : NewspaperManager unit :=
  fun url s => (Ok (pages url), s).

Definition parse_with (trees : string -> Tag) : HtmlParser :=
  fun html => Ok (trees html).

Definition document (contents : list Tag) : Tag := Element "[document]" [] contents.

Definition start : State unit := mkState tt [].

(** Zeit: a paywalled article, a free one, one spread over pages with its
    full view, and the index of edition 2023/01. *)
Definition zeit_paywalled : string := "https://www.zeit.de/2023/01/energiekrise".
Definition zeit_free : string := "https://www.zeit.de/2023/01/wetter".
Definition zeit_paged : string := "https://www.zeit.de/2023/01/dossier".
Definition zeit_index : string := "https://www.zeit.de/2023/01/index".

Definition zeit_paywalled_tree : Tag :=
  document [Element "article" [] [NavigableString "Die ersten Zeilen"];
            Element "aside" [("id", "paywall")] [NavigableString "Jetzt abonnieren"]].

Definition zeit_free_tree : Tag :=
  document [Element "article" [] [NavigableString "Der ganze Text"]].

Definition zeit_paged_tree : Tag :=
  document [Element "article" [] [NavigableString "Seite 1"];
            Element "a" [("href", zeit_paged +:+ "/komplettansicht")]
                    [NavigableString "Auf einer Seite lesen"]].

Definition zeit_index_tree : Tag :=
  document [Element "article" [] [Element "a" [("href", zeit_paywalled)] []];
            Element "article" [] [Element "a" [("href", zeit_free)] []];
            Element "article" [] [Element "a" [("href", zeit_paywalled)] []];
            Element "article" [] [Element "a" [("href", "https://shop.zeit.de/abo")] []]].

(** Welt: an article with the premium link in its header, one with a
    header and no premium link, one without the header; the index of
    5 January 2023 and the index of 6 January 2023. *)
Definition welt_plus : string := "https://www.welt.de/politik/article1.html".
Definition welt_open : string := "https://www.welt.de/sport/article2.html".
Definition welt_bare : string := "https://www.welt.de/newsticker/article3.html".
Definition welt_index_5 : string :=
  "https://www.welt.de/schlagzeilen/nachrichten-vom-05-01-2023.html".
Definition welt_index_6 : string :=
  "https://www.welt.de/schlagzeilen/nachrichten-vom-06-01-2023.html".

Definition welt_plus_tree : Tag :=
  document [Element "header" [("class", "r-header r-header--default")]
              [Element "a" [("class", "is-link c-article-header__premium")] []];
            Element "p" [] [NavigableString "Anriss"]].

Definition welt_open_tree : Tag :=
  document [Element "header" [("class", "r-header r-header--default")] [];
            Element "p" [] [NavigableString "Der ganze Text"]].

Definition welt_bare_tree : Tag :=
  document [Element "p" [] [NavigableString "Meldung"]].

Definition teaser (contents : list Tag) : Tag :=
  Element "article" [("class", "c-teaser c-teaser--archive")] contents.

Definition headline (href : string) (title : string) : Tag :=
  Element "a" [("class", "is-link c-teaser__headline-link is-teaser-link"); ("href", href)]
          [NavigableString title].

Definition welt_index_5_tree : Tag :=
  document
    [teaser [headline "/politik/article1.html" "Haushalt";
             Element "span" [("class", "c-teaser__date"); ("datetime", "2023-01-05T10:00:00Z")] []];
     teaser [headline welt_open "Pokal";
             Element "span" [("class", "c-teaser__date")] [NavigableString " 05.01.2023 | 11:30 Uhr "]];
     teaser [headline "/politik/article1.html" "Haushalt";
             Element "span" [("class", "c-teaser__date"); ("datetime", "2023-01-05T10:00:00Z")] []]].

Definition welt_index_6_tree : Tag :=
  document [teaser [headline "https-verschluesselung.html" "Ratgeber"]].

(** Handelsblatt: the archive search for 5 January 2023. *)
Definition handelsblatt_base : string := "https://archiv.handelsblatt.com".

Definition jan_5 : date := mkDate 2023 1 5.
Definition jan_6 : date := mkDate 2023 1 6.

Definition hit (href : string) : Tag :=
  Element "div" [("class", "hit")] [Element "a" [("href", href)] []].

Definition handelsblatt_search_tree : Tag :=
  document [hit "/document/HB__1"; hit "/document/HB__2"; hit "/document/HB__1";
            hit "https://www.genios.de/"].

Definition pages (url : string) : option string :=
  if String.eqb url zeit_paywalled then Some "zeit paywalled"
  else if String.eqb url zeit_free then Some "zeit free"
  else if String.eqb url zeit_paged then Some "zeit paged"
  else if String.eqb url (zeit_paged +:+ "/komplettansicht") then Some "zeit free"
  else if String.eqb url zeit_index then Some "zeit index"
  else if String.eqb url welt_plus then Some "welt plus"
  else if String.eqb url welt_open then Some "welt open"
  else if String.eqb url welt_bare then Some "welt bare"
  else if String.eqb url welt_index_5 then Some "welt index 5"
  else if String.eqb url welt_index_6 then Some "welt index 6"
  else if String.eqb url (DeHandelsblatt.search_url jan_5) then Some "handelsblatt search"
  else None.

Definition trees (html : string) : Tag :=
  if String.eqb html "zeit paywalled" then zeit_paywalled_tree
  else if String.eqb html "zeit free" then zeit_free_tree
  else if String.eqb html "zeit paged" then zeit_paged_tree
  else if String.eqb html "zeit index" then zeit_index_tree
  else if String.eqb html "welt plus" then welt_plus_tree
  else if String.eqb html "welt open" then welt_open_tree
  else if String.eqb html "welt bare" then welt_bare_tree
  else if String.eqb html "welt index 5" then welt_index_5_tree
  else if String.eqb html "welt index 6" then welt_index_6_tree
  else if String.eqb html "handelsblatt search" then handelsblatt_search_tree
  else document [].

Definition web : NewspaperManager unit := serve pages.
Definition offline : NewspaperManager unit := serve (fun _ => None).
Definition parser : HtmlParser := parse_with trees.

(** A date parser that knows two spellings of two instants. *)
Definition dates : DateParser := {|
  parse_coerce s :=
    if String.eqb s "2023-01-05T10:00:00Z" then Some 1672912800 else None;
  parse_format s fmt :=
    if String.eqb s "05.01.2023 | 11:30" && String.eqb fmt "%d.%m.%Y | %H:%M"
    then Ok (Some 1672918200)
    else Raise ValueError
|}.

(** The three indexing methods on these pages, and what they return. *)
Definition welt_index day := @DeWelt._get_articles_by_date unit web parser dates day.
Definition handelsblatt_index day :=
  @DeHandelsblatt._get_articles_by_date unit web parser (Some handelsblatt_base) day.
Definition zeit_index_of nm year edition := @DeZeit._get_articles_by_editions unit nm parser year edition.

Definition welt_5 : returned :=
  TwoLists ["https://www.welt.de/politik/article1.html"; "https://www.welt.de/sport/article2.html"]
           [Timestamp 1672912800 (Some utc); Timestamp 1672918200 (Some utc)].

Definition handelsblatt_5 : returned :=
  TwoLists ["https://archiv.handelsblatt.com/document/HB__1";
            "https://archiv.handelsblatt.com/document/HB__2"]
           [PyDatetime (mkDatetime jan_5 0 0 0 0 (Some utc));
            PyDatetime (mkDatetime jan_5 0 0 0 0 (Some utc))].

Definition handelsblatt_5_log : State unit :=
  mkState tt [Log WARNING "Removed 1 duplicate urls for 2023-01-05."].

Definition zeit_2023_01 : returned :=
  JustList ["https://www.zeit.de/2023/01/wetter"; "https://www.zeit.de/2023/01/energiekrise"].

Definition zeit_2023_01_log : State unit :=
  mkState tt [Log WARNING "Removed 1 duplicate urls for 2023/01."].

(** The last character of a string. *)
Fixpoint last_char (s : string) : option ascii :=
  match s with
  | EmptyString => None
  | String c s' => match last_char s' with None => Some c | Some d => Some d end
  end.

(** The two classifying methods on these pages. *)
Definition welt_classify (url : string) : M unit (option string * bool) :=
  @DeWelt._soup_get_html unit web parser url.

Definition zeit_classify (fuel : nat) (url : string) : M unit (option (option string * bool)) :=
  @DeZeit._soup_get_html unit web parser fuel url.

(** A browser session that answers with the given outcomes. *)
Definition session (answers : list outcome) : State Browser :=
  mkState (mkBrowser answers []) [].

(** The answers of a browser in which every step of Zeit's login before
    the check goes through. *)
Definition zeit_steps : list outcome :=
  [Done; Found (element 1); Done; Found (element 2); Done; Found (element 3); Done;
   Found (element 4); Done; Done;
   Found (element 5); Done; Found (element 6); Done].

(** The same for Welt. *)
Definition welt_steps : list outcome :=
  [Done; Found (element 1); Found (element 1); Done; Found (element 2); Done;
   Found (element 3); Done;
   Done; Found (element 4); Done; Found (element 5); Found (element 5); Done].

(** The same for Handelsblatt, with no consent frame on the login page. *)
Definition handelsblatt_steps : list outcome :=
  [Done; Found (element 1); Done; Found (element 2); Done;
   Found (element 3); Done;
   Raises TimeoutException;
   Found (element 4); Done; Found (element 5); Done; Found (element 6); Done;
   Raises TimeoutException].

(** The credentials handed to the login. *)
Definition user : string := "leser@example.org".
Definition secret : string := "geheim".

End Fixtures.

(** ** Reading a page the way the adapters do *)

Module Reading.
Import Bs4 Pandas Datetime.

(** Zeit: the href of an article's first link, or what looking it up
    raises ([None['href']], a link without href). *)
Definition zeit_href (article : Tag) : result string :=
  match find article "a" [] with
  | None => Raise TypeError
  | Some a => match get a "href" with Some v => Ok v | None => Raise KeyError end
  end.

Definition zeit_index_url (year edition : Z) : string :=
  "https://www.zeit.de/" +:+ Str.str year +:+ "/" +:+ Str.format_02 edition +:+ "/index".

Definition zeit_removed (year edition : Z) (n : nat) : output :=
  Log WARNING ("Removed " +:+ Str.str (Z.of_nat n) +:+ " duplicate urls for "
               +:+ Str.str year +:+ "/" +:+ Str.format_02 edition +:+ ".").

Definition is_zeit_url (url : string) : bool := Str.startswith url "https://www.zeit.de/".

(** Welt: the teasers and the headline links of an index page, and the
    url made of one href. *)
Definition welt_index_url (day : date) : string :=
  "https://www.welt.de/schlagzeilen/nachrichten-vom-" +:+ strftime_dmy_dash day +:+ ".html".

Definition welt_teasers (soup : Tag) : list Tag :=
  find_all soup "article" [("class", Value "c-teaser c-teaser--archive")]%string.

Definition welt_links (soup : Tag) : list Tag :=
  select_name_class soup "a" "c-teaser__headline-link".

Definition welt_url (href : string) : string :=
  if negb (Str.startswith href "http") then "https://www.welt.de" +:+ href else href.

Definition welt_link_url (a : Tag) : result string :=
  match get a "href" with Some href => Ok (welt_url href) | None => Raise KeyError end.

(** Handelsblatt: the hits of a search page and the path a hit adds. *)
Definition handelsblatt_hits (soup : Tag) : list Tag :=
  find_all soup "div" [("class", Value "hit")]%string.

Definition hit_path (hit : Tag) : option string :=
  match find hit "a" [("href", Present)]%string with
  | Some link_tag =>
      match get link_tag "href" with
      | Some href => if Str.startswith href "/" then Some href else None
      | None => None
      end
  | None => None
  end.

Definition hit_paths (hits : list Tag) : list string :=
  flat_map (fun hit => match hit_path hit with Some p => [p] | None => [] end) hits.

(** The links of the pagination block that lead to further result pages. *)
Definition page_links (pagination : Tag) : list string :=
  List.filter (Str.contains "dosearch")
    (flat_map (fun a => match get a "href" with Some h => [h] | None => [] end)
              (find_all pagination "a" [("href", Present)]%string)).

Definition midnight_utc (day : date) : pub_date :=
  PyDatetime (mkDatetime day 0 0 0 0 (Some utc)).

Definition handelsblatt_removed (day : date) (n : nat) : output :=
  Log WARNING ("Removed " +:+ Str.str (Z.of_nat n) +:+ " duplicate urls for "
               +:+ strftime_ymd_dash day +:+ ".").

End Reading.

(** ** More pages: the corners of the three sites *)

Module Corners.
Import Bs4 Pandas Datetime Selenium Fixtures.

Definition jan_7 : date := mkDate 2023 1 7.
Definition jan_8 : date := mkDate 2023 1 8.
Definition jan_9 : date := mkDate 2023 1 9.

(** Zeit: the index of edition 2023/02 has an article without a link. *)
Definition zeit_index_2_tree : Tag :=
  document [Element "article" [] [Element "a" [("href", zeit_free)] []];
            Element "article" [] [NavigableString "Anzeige"]].

(** Welt: on 7 January two teasers and one headline link; on 8 January a
    headline link without href; on 9 January headline links and no
    teaser. *)
Definition welt_index_7_tree : Tag :=
  document [teaser [headline "/politik/article7.html" "Klausur"];
            teaser [NavigableString "Anzeige"]].

Definition welt_index_8_tree : Tag :=
  document [teaser [Element "a" [("class", "c-teaser__headline-link")]
                      [NavigableString "Ohne Ziel"]]].

Definition welt_index_9_tree : Tag :=
  document [Element "div" [] [headline "/politik/article9.html" "Lage"]].

(** Handelsblatt: the search for 6 January 2023 has a second result page;
    the search for 7 January 2023 points to a result page that is not
    served. *)
Definition pagination (hrefs : list string) : Tag :=
  Element "div" [("class", "pagination")]
          (map (fun h => Element "a" [("href", h)] []) hrefs).

Definition handelsblatt_search_6_tree : Tag :=
  document [hit "/document/HB__3"; hit "/document/HB__4";
            pagination ["/dosearch?page=2"; "/hilfe"]].

Definition handelsblatt_page_2_tree : Tag :=
  document [hit "/document/HB__5"; hit "/document/HB__3"].

Definition handelsblatt_search_7_tree : Tag :=
  document [hit "/document/HB__6"; pagination ["/dosearch?page=3"]].

Definition pages (url : string) : option string :=
  if String.eqb url "https://www.zeit.de/2023/02/index" then Some "zeit index 2"
  else if String.eqb url (DeHandelsblatt.search_url jan_6) then Some "handelsblatt search 6"
  else if String.eqb url (handelsblatt_base +:+ "/dosearch?page=2")
       then Some "handelsblatt page 2"
  else if String.eqb url (DeHandelsblatt.search_url jan_7) then Some "handelsblatt search 7"
  else if String.eqb url "https://www.zeit.de/2023/02/kaputt" then Some "broken"
  else if String.eqb url "https://www.welt.de/schlagzeilen/nachrichten-vom-07-01-2023.html"
       then Some "welt index 7"
  else if String.eqb url "https://www.welt.de/schlagzeilen/nachrichten-vom-08-01-2023.html"
       then Some "welt index 8"
  else if String.eqb url "https://www.welt.de/schlagzeilen/nachrichten-vom-09-01-2023.html"
       then Some "welt index 9"
  else Fixtures.pages url.

Definition trees (html : string) : Tag :=
  if String.eqb html "zeit index 2" then zeit_index_2_tree
  else if String.eqb html "handelsblatt search 6" then handelsblatt_search_6_tree
  else if String.eqb html "handelsblatt page 2" then handelsblatt_page_2_tree
  else if String.eqb html "handelsblatt search 7" then handelsblatt_search_7_tree
  else if String.eqb html "welt index 7" then welt_index_7_tree
  else if String.eqb html "welt index 8" then welt_index_8_tree
  else if String.eqb html "welt index 9" then welt_index_9_tree
  else Fixtures.trees html.

(** The web of these pages; a request for the url ending in [stumm]
    raises TypeError, one for the url ending in [getrennt] raises
    ValueError. *)
Definition web : NewspaperManager unit :=
  fun url s =>
    if String.eqb url "https://www.zeit.de/2023/02/stumm" then (Raise TypeError, s)
    else if String.eqb url "https://www.zeit.de/2023/02/getrennt" then (Raise ValueError, s)
    else (Ok (pages url), s).

(** The parser of these pages; it gives up on the document [broken]. *)
Definition parser : HtmlParser :=
  fun html => if String.eqb html "broken" then Raise ValueError else Ok (trees html).

End Corners.

(** ** What a computation does to the log and to the browser *)

Module Traces.
Import Selenium.

(** A computation that emits nothing. *)
Definition silent {E A} (m : M E A) : Prop :=
  forall s, emitted (snd (m s)) = emitted s.

(** A computation that emits the one record [o] when it returns, returns
    nothing but [v], and emits nothing when it raises. *)
Definition marks {E A} (o : output) (v : A) (m : M E A) : Prop :=
  forall s,
    match m s with
    | (Ok b, s') => b = v /\ emitted s' = emitted s ++ [o]
    | (Raise _, s') => emitted s' = emitted s
    end.

(** A boolean computation whose log tells how it ended: one record,
    [good] with true and [bad] with false, and none when it raises. *)
Definition reports {E} (good bad : output) (m : M E bool) : Prop :=
  forall s,
    match m s with
    | (Ok b, s') => emitted s' = emitted s ++ [if b then good else bad]
    | (Raise _, s') => emitted s' = emitted s
    end.

(** A computation that makes at most [n] calls on the browser, each taking
    at most one of the pending answers. *)
Definition within {A} (n : nat) (m : M Browser A) : Prop :=
  forall s,
    exists more,
      calls (env (snd (m s))) = calls (env s) ++ more /\ (length more <= n)%nat /\
      (length (pending (env s)) <= length (pending (env (snd (m s)))) + length more)%nat.

End Traces.

(** ** The calls of a login, one by one *)

Module Plans.
Import Selenium.

(** What a call gives back when it goes through: nothing, or an element. *)
Inductive answer_kind : Type := nothing | an_element.

Definition fits (k : answer_kind) (o : outcome) : bool :=
  match k, o with
  | nothing, Done => true
  | an_element, Found _ => true
  | _, _ => false
  end.

(** The answers with which every call of a plan goes through. *)
Fixpoint go_through (plan : list answer_kind) (answers : list outcome) : bool :=
  match plan, answers with
  | [], [] => true
  | k :: plan', o :: answers' => fits k o && go_through plan' answers'
  | _, _ => false
  end.

(** The answers of calls that went through so far, with calls of the plan
    still to come. *)
Fixpoint part_way (plan : list answer_kind) (answers : list outcome) : bool :=
  match plan, answers with
  | _ :: _, [] => true
  | k :: plan', o :: answers' => fits k o && part_way plan' answers'
  | [], _ => false
  end.

(** The answers with which a block inside [try ... except TimeoutException:
    pass] ends without raising: every call goes through, or the calls go
    through up to one that times out. *)
Fixpoint pass_over (plan : list answer_kind) (answers : list outcome) : bool :=
  match plan, answers with
  | [], [] => true
  | _ :: _, [Raises TimeoutException] => true
  | k :: plan', o :: answers' => fits k o && pass_over plan' answers'
  | _, _ => false
  end.

(** Welt, before the check: get, until, find, send_keys, find, send_keys,
    find, click; get, until, switch_to.frame, until, find, click. *)
Definition welt_plan : list answer_kind :=
  [nothing; an_element; an_element; nothing; an_element; nothing; an_element; nothing;
   nothing; an_element; nothing; an_element; an_element; nothing].

(** Zeit, before the check: get, find, send_keys, find, send_keys, find,
    click, until, click, get; until, switch_to.frame, until, click. *)
Definition zeit_plan : list answer_kind :=
  [nothing; an_element; nothing; an_element; nothing; an_element; nothing; an_element;
   nothing; nothing;
   an_element; nothing; an_element; nothing].

(** Handelsblatt: the main page (get, until, switch_to.frame, until,
    click) and the way to the login page (until, click); a consent block
    (until, switch_to.frame, until, click); the form (find, send_keys,
    find, send_keys, find, click). *)
Definition handelsblatt_opening : list answer_kind :=
  [nothing; an_element; nothing; an_element; nothing; an_element; nothing].

Definition consent_block : list answer_kind :=
  [an_element; nothing; an_element; nothing].

Definition handelsblatt_form : list answer_kind :=
  [an_element; nothing; an_element; nothing; an_element; nothing].

(** A session that has made the calls [cs], emitted [out], and is about
    to give [answers]. *)
Definition about_to (answers : list outcome) (cs : list call) (out : list output)
    : State Browser :=
  mkState (mkBrowser answers cs) out.

End Plans.

(** ** The scheduler's free-fetching step *)

Module Engine.






End Engine.

(** ** Laws of the monad *)

Section MonadLaws.
Context {E : Type}.

Lemma bind_Ok {A B} (m : M E A) (k : A -> M E B) s b s' :
  bind m k s = (Ok b, s') ->
  exists a s1, m s = (Ok a, s1) /\ k a s1 = (Ok b, s').
Proof.
  unfold bind. destruct (m s) as [[a|e] s1]; intros Hk.
  - exists a, s1. split; [reflexivity | exact Hk].
  - discriminate Hk.
Qed.

Lemma bind_step {A B} (m : M E A) (k : A -> M E B) s a s1 :
  m s = (Ok a, s1) -> bind m k s = k a s1.
Proof. intros Hm. unfold bind. rewrite Hm. reflexivity. Qed.

Lemma bind_raise {A B} (m : M E A) (k : A -> M E B) s e s1 :
  m s = (Raise e, s1) -> bind m k s = (Raise e, s1).
Proof. intros Hm. unfold bind. rewrite Hm. reflexivity. Qed.

Lemma try_except_Ok {A} (body handler : M E A) catches s a s1 :
  body s = (Ok a, s1) -> try_except body catches handler s = (Ok a, s1).
Proof. intros Hb. unfold try_except. rewrite Hb. reflexivity. Qed.

Lemma try_except_caught {A} (body handler : M E A) catches s e s1 :
  body s = (Raise e, s1) -> catches e = true ->
  try_except body catches handler s = handler s1.
Proof. intros Hb Hc. unfold try_except. rewrite Hb, Hc. reflexivity. Qed.

Lemma try_except_passed {A} (body handler : M E A) catches s e s1 :
  body s = (Raise e, s1) -> catches e = false ->
  try_except body catches handler s = (Raise e, s1).
Proof. intros Hb Hc. unfold try_except. rewrite Hb, Hc. reflexivity. Qed.

Lemma comprehension_Ok {A B} (f : A -> M E B) (P : B -> Prop) :
  (forall x s y s', f x s = (Ok y, s') -> P y) ->
  forall xs s ys s', comprehension f xs s = (Ok ys, s') -> Forall P ys.
Proof.
  intros Hf xs. induction xs as [|x xs IH]; intros s ys s' Hc; simpl in Hc.
  - inversion Hc. constructor.
  - apply bind_Ok in Hc as (y & s1 & Hy & Hc).
    apply bind_Ok in Hc as (ys' & s2 & Hys & Hc).
    inversion Hc; subst. constructor; [eapply Hf | eapply IH]; eassumption.
Qed.

Lemma comprehension_length {A B} (f : A -> M E B) :
  forall xs s ys s', comprehension f xs s = (Ok ys, s') -> length ys = length xs.
Proof.
  intros xs. induction xs as [|x xs IH]; intros s ys s' Hc; simpl in Hc.
  - inversion Hc. reflexivity.
  - apply bind_Ok in Hc as (y & s1 & Hy & Hc).
    apply bind_Ok in Hc as (ys' & s2 & Hys & Hc).
    inversion Hc; subst. simpl. f_equal. eapply IH; eassumption.
Qed.

Lemma for_each_Ok {A B} (f : B -> A -> M E B) (Inv : B -> Prop) :
  (forall acc x s acc' s', Inv acc -> f acc x s = (Ok acc', s') -> Inv acc') ->
  forall xs acc s acc' s',
    Inv acc -> for_each f xs acc s = (Ok acc', s') -> Inv acc'.
Proof.
  intros Hf xs. induction xs as [|x xs IH]; intros acc s acc' s' Hacc Hl; simpl in Hl.
  - inversion Hl; subst. exact Hacc.
  - apply bind_Ok in Hl as (acc1 & s1 & H1 & Hl).
    eapply IH; [| exact Hl]. eapply Hf; eassumption.
Qed.

End MonadLaws.

(** ** Facts about the library models *)

Section Library.
Import Bs4 Pandas Claims.

Lemma existsb_eqb_In (u : string) (seen : list string) :
  existsb (String.eqb u) seen = true <-> In u seen.
Proof.
  rewrite existsb_exists. split.
  - intros (x & Hin & Heq). apply String.eqb_eq in Heq. subst. exact Hin.
  - intros Hin. exists u. split; [exact Hin | apply String.eqb_refl].
Qed.

Lemma drop_duplicates_from_spec (rows : list (string * pub_date)) :
  forall seen,
    List.NoDup (map fst (drop_duplicates_from seen rows)) /\
    (forall u, In u (map fst (drop_duplicates_from seen rows)) -> ~ In u seen) /\
    (forall r, In r (drop_duplicates_from seen rows) -> In r rows).
Proof.
  induction rows as [|[u d] rows IH]; intros seen; simpl.
  - repeat split; [constructor | intros ? [] | intros ? []].
  - destruct (existsb (String.eqb u) seen) eqn:Hseen.
    + destruct (IH seen) as (Hnd & Hout & Hsub). repeat split; auto.
    + destruct (IH (u :: seen)) as (Hnd & Hout & Hsub). repeat split.
      * simpl. constructor; [| exact Hnd].
        intros Hin. apply (Hout u Hin). left. reflexivity.
      * simpl. intros v [Hv | Hv].
        -- subst v. intros Hin. apply existsb_eqb_In in Hin. congruence.
        -- intros Hin. apply (Hout v Hv). right. exact Hin.
      * intros r [Hr | Hr]; [left; exact Hr | right; apply Hsub; exact Hr].
Qed.

Lemma drop_duplicates_NoDup rows : List.NoDup (map fst (drop_duplicates rows)).
Proof. apply (drop_duplicates_from_spec rows []). Qed.

Lemma drop_duplicates_subset rows r : In r (drop_duplicates rows) -> In r rows.
Proof. apply (drop_duplicates_from_spec rows []). Qed.

Lemma list_set_NoDup urls : List.NoDup (list_set urls).
Proof. unfold list_set. apply NoDup_ListNoDup, NoDup_elements. Qed.

Lemma list_set_In urls u : In u (list_set urls) <-> In u urls.
Proof.
  unfold list_set. rewrite <- !list_elem_of_In, elem_of_elements, elem_of_list_to_set.
  reflexivity.
Qed.

End Library.

(** ** The shape of what the indexing methods return *)

Ltac run_bind H :=
  let a := fresh "a" in
  let s := fresh "s" in
  let Hrun := fresh "Hrun" in
  apply bind_Ok in H as (a & s & Hrun & H).

Ltac returned H := inversion H; subst; clear H.

Section Indexing.
Import Bs4 Pandas Datetime Claims.
Context {W : Type} {NM : NewspaperManager W} {HP : HtmlParser} {DP : DateParser}.
Variable base_url : option string.

Lemma welt_headline_url_form a (s : State W) u s' :
  DeWelt.headline_url a s = (Ok u, s') -> welt_url_form u.
Proof.
  unfold DeWelt.headline_url. intros Hu. run_bind Hu. returned Hu.
  exists a0. destruct (Str.startswith a0 "http"); simpl; auto.
Qed.

Lemma welt_index_shape day s r s' :
  DeWelt._get_articles_by_date day s = (Ok r, s') ->
  r = TwoLists [] [] \/
  exists soup urls,
    Forall welt_url_form urls /\
    r = TwoLists
          (map fst (drop_duplicates (combine urls (map DeWelt.pub_date_of
             (find_all soup "article" [("class", Value "c-teaser c-teaser--archive")]%string)))))
          (map snd (drop_duplicates (combine urls (map DeWelt.pub_date_of
             (find_all soup "article" [("class", Value "c-teaser c-teaser--archive")]%string))))).
Proof.
  unfold DeWelt._get_articles_by_date. intros Hr.
  run_bind Hr. run_bind Hr. rename a0 into soup.
  destruct (find_all soup "article" _) as [|art arts] eqn:Harts.
  - run_bind Hr. returned Hr. left. reflexivity.
  - run_bind Hr. rename a0 into urls. run_bind Hr. returned Hr.
    right. exists soup, urls. split.
    + eapply comprehension_Ok; [| exact Hrun1].
      intros ? ? ? ?. apply welt_headline_url_form.
    + unfold DataFrame in Hrun2.
      destruct (length urls =? length (map DeWelt.pub_date_of (art :: arts)))%nat;
        [| discriminate Hrun2].
      returned Hrun2. rewrite Harts. reflexivity.
Qed.

Lemma append_hit_form urls hit (s : State W) urls' s' :
  Forall (handelsblatt_url_form base_url) urls ->
  DeHandelsblatt.append_hit base_url urls hit s = (Ok urls', s') ->
  Forall (handelsblatt_url_form base_url) urls'.
Proof.
  unfold DeHandelsblatt.append_hit. intros Hurls Hh.
  destruct (find hit "a" _) as [link_tag|]; [| returned Hh; exact Hurls].
  run_bind Hh. rename a into href.
  destruct (Str.startswith href "/") eqn:Hslash; [| returned Hh; exact Hurls].
  run_bind Hh. returned Hh.
  apply Forall_app. split; [exact Hurls |]. constructor; [| constructor].
  exists a, href. unfold global in Hrun0. destruct base_url; returned Hrun0. auto.
Qed.

Lemma append_page_form urls page s urls' s' :
  Forall (handelsblatt_url_form base_url) urls ->
  DeHandelsblatt.append_page base_url urls page s = (Ok urls', s') ->
  Forall (handelsblatt_url_form base_url) urls'.
Proof.
  unfold DeHandelsblatt.append_page. intros Hurls Hp.
  run_bind Hp. run_bind Hp.
  eapply (for_each_Ok _ (Forall (handelsblatt_url_form base_url))); [| exact Hurls | exact Hp].
  intros ? ? ? ? ?. apply append_hit_form.
Qed.

Lemma handelsblatt_index_shape day s r s' :
  DeHandelsblatt._get_articles_by_date base_url day s = (Ok r, s') ->
  (exists s1, _request (DeHandelsblatt.search_url day) s = (Ok None, s1) /\ r = JustList [])
  \/
  (exists html s1 urls,
     _request (DeHandelsblatt.search_url day) s = (Ok (Some html), s1) /\
     Forall (handelsblatt_url_form base_url) urls /\
     r = TwoLists (list_set urls)
           (repeat (PyDatetime (combine_min_time day utc)) (length (list_set urls)))).
Proof.
  unfold DeHandelsblatt._get_articles_by_date. intros Hr.
  run_bind Hr. destruct a as [html|].
  - right. run_bind Hr. rename a into soup. run_bind Hr. rename a into urls0.
    run_bind Hr. rename a into urls. run_bind Hr. returned Hr.
    exists html, s0, urls. split; [exact Hrun | split; [| reflexivity]].
    assert (Forall (handelsblatt_url_form base_url) urls0) as H0.
    { eapply (for_each_Ok _ (Forall (handelsblatt_url_form base_url))); [| constructor | exact Hrun1].
      intros ? ? ? ? ?. apply append_hit_form. }
    destruct (find soup "div" [("class"%string, Value "pagination")]) as [pagination|].
    + run_bind Hrun2. run_bind Hrun2.
      eapply (for_each_Ok _ (Forall (handelsblatt_url_form base_url))); [| exact H0 | exact Hrun2].
      intros ? ? ? ? ?. apply append_page_form.
    + returned Hrun2. exact H0.
  - left. returned Hr. exists s'. split; [exact Hrun | reflexivity].
Qed.

Lemma zeit_index_shape year edition s r s' :
  DeZeit._get_articles_by_editions year edition s = (Ok r, s') ->
  exists urls,
    r = JustList (list_set
          (List.filter (fun url => Str.startswith url "https://www.zeit.de/") urls)).
Proof.
  unfold DeZeit._get_articles_by_editions. intros Hr.
  run_bind Hr. destruct a as [html|].
  - run_bind Hr. run_bind Hr. run_bind Hr. returned Hr. exists a0. reflexivity.
  - returned Hr. exists []. reflexivity.
Qed.



Lemma welt_prefixed_absolute href : absolute_url ("https://www.welt.de" +:+ href) = true.
Proof. reflexivity. Qed.

Lemma try_formats_cases text fmts :
  DeWelt.try_formats text fmts = NaT \/
  exists v, DeWelt.try_formats text fmts = Timestamp v (Some utc).
Proof.
  induction fmts as [|fmt fmts IH]; simpl; [left; reflexivity |].
  unfold to_datetime_format_utc. destruct (parse_format text fmt) as [[v|]|e]; simpl; eauto.
Qed.

Lemma to_datetime_coerce_utc_cases text :
  to_datetime_coerce_utc text = NaT \/
  exists v, to_datetime_coerce_utc text = Timestamp v (Some utc).
Proof.
  unfold to_datetime_coerce_utc. destruct (parse_coerce text); simpl; eauto.
Qed.

Lemma parse_text_cases text :
  DeWelt.parse_text text = NaT \/ exists v, DeWelt.parse_text text = Timestamp v (Some utc).
Proof.
  unfold DeWelt.parse_text. destruct (Str.is_empty text); [left; reflexivity |].
  destruct (isna (DeWelt.try_formats _ DeWelt.formats)).
  - apply to_datetime_coerce_utc_cases.
  - apply try_formats_cases.
Qed.

Lemma pub_date_of_cases art :
  DeWelt.pub_date_of art = NaT \/ exists v, DeWelt.pub_date_of art = Timestamp v (Some utc).
Proof.
  unfold DeWelt.pub_date_of.
  destruct (find art "span" _) as [time_tag|]; [| apply parse_text_cases].
  destruct (get time_tag "datetime");
    [apply to_datetime_coerce_utc_cases | apply parse_text_cases].
Qed.

(** C2 (as the code has it): Welt's indexing returns the tuple of two lists
    of one length; so does Handelsblatt's once the search page came back
    with html; Zeit's indexing returns one bare list of urls and no
    publication dates, the empty list when the index request gave no
    html. *)
Theorem C2_index_return_shapes :
  (forall day s r s',
      DeWelt._get_articles_by_date day s = (Ok r, s') ->
      pair_of_equal_length r = true) /\
  (forall day s html s1 r s',
      _request (DeHandelsblatt.search_url day) s = (Ok (Some html), s1) ->
      DeHandelsblatt._get_articles_by_date base_url day s = (Ok r, s') ->
      pair_of_equal_length r = true) /\
  (forall year edition s r s',
      DeZeit._get_articles_by_editions year edition s = (Ok r, s') ->
      exists urls, r = JustList urls) /\
  (forall year edition s s1,
      _request ("https://www.zeit.de/" +:+ Str.str year +:+ "/" +:+ Str.format_02 edition
                +:+ "/index") s = (Ok None, s1) ->
      DeZeit._get_articles_by_editions year edition s = (Ok (JustList []), s1)).
Proof.
  repeat split.
  - intros day s r s' Hr. apply welt_index_shape in Hr as [-> | (soup & urls & _ & ->)].
    + reflexivity.
    + simpl. rewrite !length_map. apply Nat.eqb_refl.
  - intros day s html s1 r s' Hreq Hr.
    apply handelsblatt_index_shape in Hr
      as [(s2 & Hnone & _) | (html' & s2 & urls & _ & _ & ->)].
    + rewrite Hreq in Hnone. discriminate Hnone.
    + simpl. rewrite repeat_length. apply Nat.eqb_refl.
  - intros year edition s r s' Hr. apply zeit_index_shape in Hr as [urls ->]. eauto.
  - intros year edition s s1 Hreq. unfold DeZeit._get_articles_by_editions.
    erewrite bind_step by exact Hreq. reflexivity.
Qed.

(** C5: for every day or edition, the list of urls an indexing pass
    returns holds no url twice. *)
Theorem C5_index_urls_without_duplicates :
  (forall day s r s',
      DeWelt._get_articles_by_date day s = (Ok r, s') -> List.NoDup (urls_of r)) /\
  (forall day s r s',
      DeHandelsblatt._get_articles_by_date base_url day s = (Ok r, s') ->
      List.NoDup (urls_of r)) /\
  (forall year edition s r s',
      DeZeit._get_articles_by_editions year edition s = (Ok r, s') ->
      List.NoDup (urls_of r)).
Proof.
  repeat split.
  - intros day s r s' Hr. apply welt_index_shape in Hr as [-> | (soup & urls & _ & ->)]; simpl.
    + constructor.
    + apply drop_duplicates_NoDup.
  - intros day s r s' Hr.
    apply handelsblatt_index_shape in Hr
      as [(s1 & _ & ->) | (html & s1 & urls & _ & _ & ->)]; simpl.
    + constructor.
    + apply list_set_NoDup.
  - intros year edition s r s' Hr. apply zeit_index_shape in Hr as [urls ->]. simpl.
    apply list_set_NoDup.
Qed.

(** C7 (as the code has it): every publication date Handelsblatt's
    indexing returns is midnight UTC of the indexed day, a timezone-aware
    value; every publication date Welt's indexing returns is either a
    timestamp in UTC or [NaT], the missing value, and never a timestamp
    without a time zone. *)
Theorem C7_index_pub_dates :
  (forall day s r s' d,
      DeHandelsblatt._get_articles_by_date base_url day s = (Ok r, s') ->
      In d (pub_dates_of r) ->
      d = PyDatetime (mkDatetime day 0 0 0 0 (Some utc)) /\ tz_aware d = true) /\
  (forall day s r s' d,
      DeWelt._get_articles_by_date day s = (Ok r, s') ->
      In d (pub_dates_of r) ->
      d = NaT \/ exists v, d = Timestamp v (Some utc)).
Proof.
  split.
  - intros day s r s' d Hr Hd.
    apply handelsblatt_index_shape in Hr
      as [(s1 & _ & ->) | (html & s1 & urls & _ & _ & ->)]; simpl in Hd.
    + destruct Hd.
    + apply repeat_spec in Hd. subst d. split; reflexivity.
  - intros day s r s' d Hr Hd.
    apply welt_index_shape in Hr as [-> | (soup & urls & _ & ->)]; simpl in Hd.
    + destruct Hd.
    + apply in_map_iff in Hd as ([u d'] & <- & Hrow). simpl.
      apply drop_duplicates_subset, in_combine_r in Hrow.
      apply in_map_iff in Hrow as (art & <- & _). apply pub_date_of_cases.
Qed.

End Indexing.

Section IndexingOnThePages.
Import Bs4 Pandas Datetime Claims Fixtures.

Lemma welt_index_5_run : welt_index jan_5 start = (Ok welt_5, start).
Proof. vm_compute. reflexivity. Qed.

Lemma welt_index_6_run :
  welt_index jan_6 start = (Ok (TwoLists ["https-verschluesselung.html"] [NaT]), start).
Proof. vm_compute. reflexivity. Qed.

Lemma handelsblatt_index_5_run :
  handelsblatt_index jan_5 start = (Ok handelsblatt_5, handelsblatt_5_log).
Proof. vm_compute. reflexivity. Qed.

Lemma zeit_index_run : zeit_index_of web 2023 1 start = (Ok zeit_2023_01, zeit_2023_01_log).
Proof. vm_compute. reflexivity. Qed.

(** C2, on the pages: the four parts at Welt's and Handelsblatt's index of
    5 January 2023 and at Zeit's edition 2023/01, online and offline. *)
Lemma C2_index_return_shapes_witness :
  (welt_index jan_5 start = (Ok welt_5, start) /\ pair_of_equal_length welt_5 = true) /\
  (handelsblatt_index jan_5 start = (Ok handelsblatt_5, handelsblatt_5_log)
   /\ pair_of_equal_length handelsblatt_5 = true) /\
  (zeit_index_of web 2023 1 start = (Ok zeit_2023_01, zeit_2023_01_log)
   /\ exists urls, zeit_2023_01 = JustList urls) /\
  zeit_index_of offline 2023 1 start = (Ok (JustList []), start).
Proof.
  pose proof (@C2_index_return_shapes unit web parser dates (Some handelsblatt_base))
    as (Hwelt & Hhandelsblatt & Hzeit & _).
  pose proof (@C2_index_return_shapes unit offline parser dates None) as (_ & _ & _ & Hoff).
  split; [| split; [| split]].
  - split; [exact welt_index_5_run | exact (Hwelt jan_5 start welt_5 start welt_index_5_run)].
  - split; [exact handelsblatt_index_5_run |].
    exact (Hhandelsblatt jan_5 start "handelsblatt search" start handelsblatt_5
             handelsblatt_5_log eq_refl handelsblatt_index_5_run).
  - split; [exact zeit_index_run | exact (Hzeit 2023 1 start _ _ zeit_index_run)].
  - exact (Hoff 2023 1 start start eq_refl).
Defined.

(** C2 fails as stated: Zeit's indexing of edition 2023/01 returns a bare
    list of urls, with html and without, not a pair of two sequences. *)
Lemma C2_zeit_returns_no_pair :
  (zeit_index_of web 2023 1 start = (Ok zeit_2023_01, zeit_2023_01_log)
   /\ pair_of_equal_length zeit_2023_01 = false) /\
  (zeit_index_of offline 2023 1 start = (Ok (JustList []), start)
   /\ pair_of_equal_length (JustList []) = false).
Proof.
  split; split; [exact zeit_index_run | reflexivity | reflexivity | reflexivity].
Qed.

(** C5, on the pages: the three indexes, each fed a url twice. *)
Lemma C5_index_urls_without_duplicates_witness :
  (welt_index jan_5 start = (Ok welt_5, start) /\ List.NoDup (urls_of welt_5)) /\
  (handelsblatt_index jan_5 start = (Ok handelsblatt_5, handelsblatt_5_log)
   /\ List.NoDup (urls_of handelsblatt_5)) /\
  (zeit_index_of web 2023 1 start = (Ok zeit_2023_01, zeit_2023_01_log)
   /\ List.NoDup (urls_of zeit_2023_01)).
Proof.
  pose proof (@C5_index_urls_without_duplicates unit web parser dates (Some handelsblatt_base))
    as (Hwelt & Hhandelsblatt & Hzeit).
  split; [| split].
  - split; [exact welt_index_5_run | exact (Hwelt jan_5 start _ _ welt_index_5_run)].
  - split; [exact handelsblatt_index_5_run |
            exact (Hhandelsblatt jan_5 start _ _ handelsblatt_index_5_run)].
  - split; [exact zeit_index_run | exact (Hzeit 2023 1 start _ _ zeit_index_run)].
Defined.


(** C7, on the pages: a date of Handelsblatt's index and one of Welt's. *)
Lemma C7_index_pub_dates_witness :
  (handelsblatt_index jan_5 start = (Ok handelsblatt_5, handelsblatt_5_log)
   /\ In (PyDatetime (mkDatetime jan_5 0 0 0 0 (Some utc))) (pub_dates_of handelsblatt_5)
   /\ PyDatetime (mkDatetime jan_5 0 0 0 0 (Some utc))
      = PyDatetime (mkDatetime jan_5 0 0 0 0 (Some utc))
   /\ tz_aware (PyDatetime (mkDatetime jan_5 0 0 0 0 (Some utc))) = true) /\
  (welt_index jan_5 start = (Ok welt_5, start)
   /\ In (Timestamp 1672918200 (Some utc)) (pub_dates_of welt_5)
   /\ (Timestamp 1672918200 (Some utc) = NaT
       \/ exists v, Timestamp 1672918200 (Some utc) = Timestamp v (Some utc))).
Proof.
  pose proof (@C7_index_pub_dates unit web parser dates (Some handelsblatt_base))
    as (Hhandelsblatt & Hwelt).
  assert (In (PyDatetime (mkDatetime jan_5 0 0 0 0 (Some utc))) (pub_dates_of handelsblatt_5))
    as Hh by (simpl; auto).
  assert (In (Timestamp 1672918200 (Some utc)) (pub_dates_of welt_5)) as Hw
    by (simpl; auto).
  split.
  - split; [exact handelsblatt_index_5_run | split; [exact Hh |]].
    exact (Hhandelsblatt jan_5 start _ _ _ handelsblatt_index_5_run Hh).
  - split; [exact welt_index_5_run | split; [exact Hw |]].
    exact (Hwelt jan_5 start _ _ _ welt_index_5_run Hw).
Defined.

(** C7 fails as stated: the teaser on Welt's index of 6 January 2023
    carries no date, and the publication date returned for it is [NaT],
    a missing value and not a timezone-aware timestamp. *)
Lemma C7_welt_returns_missing_date :
  welt_index jan_6 start = (Ok (TwoLists ["https-verschluesselung.html"] [NaT]), start)
  /\ In NaT (pub_dates_of (TwoLists ["https-verschluesselung.html"] [NaT]))
  /\ tz_aware NaT = false.
Proof.
  split; [exact welt_index_6_run | split; [left; reflexivity | reflexivity]].
Qed.

End IndexingOnThePages.

(** ** Classification: [_soup_get_html] *)

Section Classification.
Import Bs4 Claims.
Context {W : Type} {NM : NewspaperManager W} {HP : HtmlParser}.

Lemma try_except_Ok_inv {A} (body handler : M W A) catches s a s' :
  try_except body catches handler s = (Ok a, s') ->
  body s = (Ok a, s') \/
  exists e s1, body s = (Raise e, s1) /\ catches e = true /\ handler s1 = (Ok a, s').
Proof.
  unfold try_except. destruct (body s) as [[b|e] s1]; intros Hr.
  - left. exact Hr.
  - right. exists e, s1. destruct (catches e); [auto | discriminate Hr].
Qed.

Lemma BeautifulSoup_Ok html (s : State W) soup s' :
  BeautifulSoup (Some html) s = (Ok soup, s') -> html_parser html = Ok soup /\ s' = s.
Proof. unfold BeautifulSoup, lift. intros Hr. inversion Hr. auto. Qed.

Lemma BeautifulSoup_parsed html (s : State W) soup :
  html_parser html = Ok soup -> BeautifulSoup (Some html) s = (Ok soup, s).
Proof. unfold BeautifulSoup, lift. intros ->. reflexivity. Qed.

Lemma welt_lookup_Ok soup (s : State W) icon s' :
  DeWelt.premium_icon_lookup soup s = (Ok icon, s') -> icon = welt_marker soup.
Proof.
  unfold DeWelt.premium_icon_lookup, welt_marker, find_on.
  destruct (find soup "header" _); intros Hr; inversion Hr. reflexivity.
Qed.

Lemma welt_classified url s html flag s' :
  DeWelt._soup_get_html url s = (Ok (Some html, flag), s') ->
  exists soup, html_parser html = Ok soup /\ flag = negb (truthy (welt_marker soup)).
Proof.
  unfold DeWelt._soup_get_html. intros Hr. run_bind Hr.
  destruct a as [[|c h]|]; try (returned Hr; fail).
  run_bind Hr. apply BeautifulSoup_Ok in Hrun0 as [Hsoup ->].
  apply try_except_Ok_inv in Hr as [Hr | (e & s2 & _ & _ & Hr)].
  - run_bind Hr. returned Hr. apply welt_lookup_Ok in Hrun0 as ->. eauto.
  - run_bind Hr. returned Hr.
Qed.

Lemma zeit_classified fuel : forall url s html flag s',
  DeZeit._soup_get_html fuel url s = (Ok (Some (Some html, flag)), s') ->
  exists soup, html_parser html = Ok soup /\ flag = negb (truthy (zeit_marker soup)).
Proof.
  induction fuel as [|fuel IH]; intros url s html flag s' Hr; simpl in Hr.
  - returned Hr.
  - apply try_except_Ok_inv in Hr as [Hr | (e & s2 & _ & _ & Hr)].
    2:{ run_bind Hr. returned Hr. }
    run_bind Hr. destruct a as [h|].
    2:{ run_bind Hr. returned Hr. }
    run_bind Hr.
    apply try_except_Ok_inv in Hrun0 as [Hp | (e & s2 & _ & _ & Hp)].
    2:{ run_bind Hp. discriminate Hrun0. }
    run_bind Hp. returned Hp. apply BeautifulSoup_Ok in Hrun0 as [Hsoup ->].
    destruct (find a0 "a" _) as [link|].
    + eapply IH. exact Hr.
    + apply try_except_Ok_inv in Hr as [Hr | (e & s2 & _ & _ & Hr)].
      * run_bind Hr. returned Hr. returned Hrun0. exists a0. auto.
      * run_bind Hr. returned Hr.
Qed.

(** C1 (as the code has it): whenever a page's html is fetched, parsed and
    returned, the flag returned with it is the negation of the marker's
    presence: false when the page carries the site's premium marker
    (Welt's premium link in the header, Zeit's aside with id paywall) and
    true when it does not. A Welt page with its header, and a Zeit page
    with no link to a full view, is returned with that flag. *)
Theorem C1_flag_negates_marker :
  (forall url s html flag s',
      DeWelt._soup_get_html url s = (Ok (Some html, flag), s') ->
      exists soup, html_parser html = Ok soup /\ flag = negb (truthy (welt_marker soup))) /\
  (forall fuel url s html flag s',
      DeZeit._soup_get_html fuel url s = (Ok (Some (Some html, flag)), s') ->
      exists soup, html_parser html = Ok soup /\ flag = negb (truthy (zeit_marker soup))) /\
  (forall url s html s1 soup header,
      _request url s = (Ok (Some html), s1) ->
      Str.is_empty html = false ->
      html_parser html = Ok soup ->
      find soup "header" [("class", Value "r-header r-header--default")]%string = Some header ->
      DeWelt._soup_get_html url s = (Ok (Some html, negb (truthy (welt_marker soup))), s1)) /\
  (forall fuel url s html s1 soup,
      _request url s = (Ok (Some html), s1) ->
      html_parser html = Ok soup ->
      find soup "a" [("href"%string, Value (url +:+ "/komplettansicht"))] = None ->
      DeZeit._soup_get_html (S fuel) url s
      = (Ok (Some (Some html, negb (truthy (zeit_marker soup)))), s1)).
Proof.
  split; [exact welt_classified | split; [exact zeit_classified | split]].
  - intros url s html s1 soup header Hreq Hne Hsoup Hheader.
    unfold DeWelt._soup_get_html. erewrite bind_step by exact Hreq.
    destruct html as [|c h]; [discriminate Hne |].
    erewrite bind_step by (apply BeautifulSoup_parsed; exact Hsoup).
    unfold try_except, bind, DeWelt.premium_icon_lookup, welt_marker, find_on.
    rewrite Hheader. reflexivity.
  - intros fuel url s html s1 soup Hreq Hsoup Hlink. simpl.
    unfold try_except at 1. erewrite bind_step by exact Hreq.
    unfold bind at 1. unfold try_except at 1.
    erewrite bind_step by (apply BeautifulSoup_parsed; exact Hsoup).
    unfold ret at 1. rewrite Hlink. reflexivity.
Qed.

End Classification.

(** ** Zeit's recursion on the full view *)

Section FullView.
Import Bs4 Claims.
Context {W : Type} {NM : NewspaperManager W} {HP : HtmlParser}.

(** One activation that finds no link to a full view gives its result
    whatever the fuel left below it. *)
Lemma zeit_last_activation url (s : State W) :
  (forall h s1 soup,
      _request url s = (Ok (Some h), s1) ->
      html_parser h = Ok soup ->
      find soup "a" [("href"%string, Value (url +:+ "/komplettansicht"))] = None) ->
  exists r s', r <> Ok None /\ forall fuel, DeZeit._soup_get_html (S fuel) url s = (r, s').
Proof.
  intros Hnolink. simpl. unfold try_except at 1. unfold bind at 1.
  destruct (_request url s) as [[[h|]|e] s1] eqn:Hreq.
  - unfold bind at 1. unfold try_except at 1. unfold bind at 1.
    unfold BeautifulSoup, lift.
    destruct (html_parser h) as [soup|e] eqn:Hsoup.
    + unfold ret at 1. rewrite (Hnolink h s1 soup eq_refl Hsoup).
      eexists; eexists; split; [| intros fuel; reflexivity]. discriminate.
    + simpl. eexists; eexists; split; [| intros fuel; reflexivity]. discriminate.
  - eexists; eexists; split; [| intros fuel; reflexivity]. discriminate.
  - destruct (only TypeError e);
      (eexists; eexists; split; [| intros fuel; reflexivity]); discriminate.
Qed.

(** One activation either settles the result by itself or hands over to
    the activation for the full view, under its own [except TypeError]. *)
Lemma zeit_activation url (s : State W) :
  (exists r s', r <> Ok None /\ forall fuel, DeZeit._soup_get_html (S fuel) url s = (r, s'))
  \/
  (exists s1,
      forall fuel,
        DeZeit._soup_get_html (S fuel) url s
        = try_except (DeZeit._soup_get_html fuel (url +:+ "/komplettansicht"))
            (only TypeError)
            (print DeZeit.format_exc ;; ret (Some (None, false))) s1).
Proof.
  destruct (_request url s) as [[[h|]|e] s1] eqn:Hreq.
  - destruct (html_parser h) as [soup|e] eqn:Hsoup.
    + destruct (find soup "a" [("href"%string, Value (url +:+ "/komplettansicht"))])
        as [link|] eqn:Hlink.
      * right. exists s1. intros fuel. simpl.
        unfold try_except at 1. unfold bind at 1. rewrite Hreq.
        unfold bind at 1. unfold try_except at 1. unfold bind at 1.
        unfold BeautifulSoup, lift. rewrite Hsoup. unfold ret at 1. rewrite Hlink.
        reflexivity.
      * left. apply zeit_last_activation. intros h' s1' soup' Hreq' Hsoup'.
        rewrite Hreq in Hreq'. inversion Hreq'; subst.
        rewrite Hsoup in Hsoup'. inversion Hsoup'; subst. exact Hlink.
    + left. simpl. unfold try_except at 1. unfold bind at 1. rewrite Hreq.
      unfold bind at 1. unfold try_except at 1. unfold bind at 1.
      unfold BeautifulSoup, lift. rewrite Hsoup. simpl.
      eexists; eexists; split; [| intros fuel; reflexivity]. discriminate.
  - left. apply zeit_last_activation. intros h' s1' soup' Hreq'.
    rewrite Hreq in Hreq'. discriminate Hreq'.
  - left. apply zeit_last_activation. intros h' s1' soup' Hreq'.
    rewrite Hreq in Hreq'. discriminate Hreq'.
Qed.

(** C10: when no fetched full-view page links to a further full view of
    its own url, [_soup_get_html] comes to a result on every url within
    two nested activations, one recursive call, and more fuel does not
    change the result. *)
Theorem C10_zeit_recursion_two_activations :
  (forall u s h s1 soup,
      _request (u +:+ "/komplettansicht") s = (Ok (Some h), s1) ->
      html_parser h = Ok soup ->
      find soup "a"
        [("href"%string, Value ((u +:+ "/komplettansicht") +:+ "/komplettansicht"))] = None) ->
  forall url s,
    exists r s',
      DeZeit._soup_get_html 2 url s = (r, s') /\
      r <> Ok None /\
      forall fuel, (2 <= fuel)%nat -> DeZeit._soup_get_html fuel url s = (r, s').
Proof.
  intros Hpre url s.
  assert (exists r s', r <> Ok None /\
            forall fuel, DeZeit._soup_get_html (S (S fuel)) url s = (r, s'))
    as (r & s' & Hr & Hrun).
  { destruct (zeit_activation url s) as [(r & s' & Hr & Hrun) | (s1 & Hrun)].
    - exists r, s'. split; [exact Hr | intros fuel; apply Hrun].
    - destruct (zeit_last_activation (url +:+ "/komplettansicht") s1)
        as (r1 & s1' & Hr1 & Hrun1).
      { intros h s2 soup. apply Hpre. }
      destruct r1 as [[v|]|e].
      + exists (Ok (Some v)), s1'. split; [discriminate |].
        intros fuel. rewrite Hrun. unfold try_except. rewrite Hrun1. reflexivity.
      + contradiction Hr1. reflexivity.
      + destruct (only TypeError e) eqn:Hcatch.
        * eexists; eexists; split;
            [| intros fuel; rewrite Hrun; unfold try_except; rewrite Hrun1, Hcatch;
               reflexivity].
          discriminate.
        * exists (Raise e), s1'. split; [discriminate |].
          intros fuel. rewrite Hrun. unfold try_except. rewrite Hrun1, Hcatch. reflexivity. }
  exists r, s'. split; [apply (Hrun 0%nat) | split; [exact Hr |]].
  intros fuel Hfuel. destruct fuel as [|[|fuel]]; [lia | lia | apply Hrun].
Qed.

End FullView.

Section ClassificationOnThePages.
Import Bs4 Claims Fixtures.

Lemma last_char_append u c k : last_char (u +:+ String c k) = last_char (String c k).
Proof.
  induction u as [|d u IH]; [reflexivity |].
  simpl in *. rewrite IH. destruct (last_char k); reflexivity.
Qed.

Ltac other_ending H :=
  apply String.eqb_eq in H; apply (f_equal last_char) in H;
  rewrite last_char_append in H; vm_compute in H; discriminate H.

(** On the pages, whatever is served under a full-view url has no link. *)
Lemma web_full_views_are_final :
  forall u (s : State unit) h s1 soup,
    @_request unit web (u +:+ "/komplettansicht") s = (Ok (Some h), s1) ->
    @html_parser parser h = Ok soup ->
    find soup "a"
      [("href"%string, Value ((u +:+ "/komplettansicht") +:+ "/komplettansicht"))] = None.
Proof.
  intros u s h s1 soup Hreq Hsoup.
  cbv [_request web serve] in Hreq. cbv [html_parser parser parse_with] in Hsoup.
  inversion Hreq as [[Hpage Hs]]. clear Hreq Hs. inversion Hsoup as [Htree]. clear Hsoup Htree.
  unfold pages in Hpage.
  repeat match type of Hpage with
         | (if String.eqb ?a ?b then _ else _) = _ =>
             let E := fresh "E" in
             destruct (String.eqb a b) eqn:E; [try (exfalso; other_ending E) |]
         end; try discriminate Hpage.
  inversion Hpage. reflexivity.
Qed.

(** C1, on the pages: a free Welt article and a free Zeit article come
    back with their html and the flag true. *)
Lemma C1_flag_negates_marker_witness :
  (welt_classify welt_open start = (Ok (Some "welt open", true), start) /\
   exists soup, @html_parser parser "welt open" = Ok soup
                /\ true = negb (truthy (welt_marker soup))) /\
  (zeit_classify 2 zeit_paged start = (Ok (Some (Some "zeit free", true)), start) /\
   exists soup, @html_parser parser "zeit free" = Ok soup
                /\ true = negb (truthy (zeit_marker soup))) /\
  welt_classify welt_plus start
  = (Ok (Some "welt plus", negb (truthy (welt_marker welt_plus_tree))), start) /\
  zeit_classify 1 zeit_paywalled start
  = (Ok (Some (Some "zeit paywalled", negb (truthy (zeit_marker zeit_paywalled_tree)))), start).
Proof.
  pose proof (@C1_flag_negates_marker unit web parser) as (Hwelt & Hzeit & Hwelt' & Hzeit').
  assert (welt_classify welt_open start = (Ok (Some "welt open", true), start)) as Hopen
    by (vm_compute; reflexivity).
  assert (zeit_classify 2 zeit_paged start = (Ok (Some (Some "zeit free", true)), start))
    as Hpaged by (vm_compute; reflexivity).
  split; [| split; [| split]].
  - split; [exact Hopen | exact (Hwelt welt_open start _ _ _ Hopen)].
  - split; [exact Hpaged | exact (Hzeit 2%nat zeit_paged start _ _ _ Hpaged)].
  - refine (Hwelt' welt_plus start "welt plus" start welt_plus_tree
              (Element "header" [("class", "r-header r-header--default")]
                 [Element "a" [("class", "is-link c-article-header__premium")] []])
              eq_refl eq_refl eq_refl _).
    vm_compute. reflexivity.
  - refine (Hzeit' 0%nat zeit_paywalled start "zeit paywalled" start zeit_paywalled_tree
              eq_refl eq_refl _).
    vm_compute. reflexivity.
Defined.

(** C1 fails as stated: the Zeit article with the paywall aside and the
    Welt article with the premium link both come back with the flag false,
    and the Welt article without the premium link with the flag true. *)
Lemma C1_flag_false_on_marked_pages :
  (zeit_classify 1 zeit_paywalled start = (Ok (Some (Some "zeit paywalled", false)), start)
   /\ @html_parser parser "zeit paywalled" = Ok zeit_paywalled_tree
   /\ truthy (zeit_marker zeit_paywalled_tree) = true) /\
  (welt_classify welt_plus start = (Ok (Some "welt plus", false), start)
   /\ @html_parser parser "welt plus" = Ok welt_plus_tree
   /\ truthy (welt_marker welt_plus_tree) = true) /\
  (welt_classify welt_open start = (Ok (Some "welt open", true), start)
   /\ @html_parser parser "welt open" = Ok welt_open_tree
   /\ truthy (welt_marker welt_open_tree) = false).
Proof.
  repeat split; vm_compute; reflexivity.
Qed.

(** C10, on the pages: the article spread over pages is settled by its
    full view, in two activations. *)
Lemma C10_zeit_recursion_two_activations_witness :
  (forall u (s : State unit) h s1 soup,
      @_request unit web (u +:+ "/komplettansicht") s = (Ok (Some h), s1) ->
      @html_parser parser h = Ok soup ->
      find soup "a"
        [("href"%string, Value ((u +:+ "/komplettansicht") +:+ "/komplettansicht"))] = None) /\
  exists r s',
    zeit_classify 2 zeit_paged start = (r, s') /\
    r <> Ok None /\
    forall fuel, (2 <= fuel)%nat -> zeit_classify fuel zeit_paged start = (r, s').
Proof.
  split; [exact web_full_views_are_final |].
  exact (@C10_zeit_recursion_two_activations unit web parser web_full_views_are_final
           zeit_paged start).
Defined.

End ClassificationOnThePages.

(** ** The browser session: login and premium fetch *)

Section Sessions.
Import Selenium Fixtures.

Lemma login_checks (before : M Browser unit) (check : M Browser bool) s s1 :
  before s = (Ok tt, s1) -> (before ;; check) s = check s1.
Proof. intros Hb. apply (bind_step before (fun _ => check) s tt s1 Hb). Qed.

End Sessions.

Section SessionsOnTheScripts.
Import Selenium Fixtures.

(** C4 fails as stated: when Zeit's login page lacks the e-mail field,
    looking for it raises NoSuchElementException and the login raises it
    to its caller instead of returning a boolean. *)
Lemma C4_zeit_login_raises :
  DeZeit._selenium_login user secret (session [Done; Raises NoSuchElementException])
  = (Raise NoSuchElementException,
     mkState (mkBrowser []
                [Get "https://meine.zeit.de/anmelden";
                 FindElement (XPATH, "//input[@type=" +:+ Str.dquote +:+ "email"
                                     +:+ Str.dquote +:+ "]")]) [])
  /\ ~ exists b s',
         DeZeit._selenium_login user secret (session [Done; Raises NoSuchElementException])
         = (Ok b, s').
Proof.
  split; [vm_compute; reflexivity |].
  intros (b & s' & Hrun). vm_compute in Hrun. discriminate Hrun.
Qed.

(** C8 fails as stated: when the navigation to the url times out, the
    premium fetch raises TimeoutException to its caller; it returns
    nothing and logs nothing. *)
Lemma C8_navigation_timeout_raises :
  DeZeit._selenium_get_html zeit_paged (session [Raises TimeoutException])
  = (Raise TimeoutException, mkState (mkBrowser [] [Get zeit_paged]) [])
  /\ ~ exists html s',
         DeZeit._selenium_get_html zeit_paged (session [Raises TimeoutException])
         = (Ok html, s').
Proof.
  split; [vm_compute; reflexivity |].
  intros (html & s' & Hrun). vm_compute in Hrun. discriminate Hrun.
Qed.

End SessionsOnTheScripts.

(** ** More on the monad: steps that leave the state alone *)

Section PureSteps.
Context {E : Type}.

Lemma comprehension_pure_inv {A B} (f : A -> M E B) (g : A -> result B) :
  (forall x s, f x s = (g x, s)) ->
  forall xs s ys s',
    comprehension f xs s = (Ok ys, s') ->
    s' = s /\ Forall2 (fun x y => g x = Ok y) xs ys.
Proof.
  intros Hf xs. induction xs as [|x xs IH]; intros s ys s' Hc; simpl in Hc.
  - inversion Hc. split; [reflexivity | constructor].
  - apply bind_Ok in Hc as (y & s1 & Hy & Hc).
    apply bind_Ok in Hc as (ys' & s2 & Hys & Hc).
    rewrite Hf in Hy. inversion Hy; subst. inversion Hc; subst.
    destruct (IH _ _ _ Hys) as [-> Hall]. split; [reflexivity |].
    constructor; assumption.
Qed.

Lemma comprehension_pure_Ok {A B} (f : A -> M E B) (g : A -> result B) :
  (forall x s, f x s = (g x, s)) ->
  forall xs ys s,
    Forall2 (fun x y => g x = Ok y) xs ys ->
    comprehension f xs s = (Ok ys, s).
Proof.
  intros Hf xs ys s Hall. induction Hall as [|x y xs ys Hxy Hall IH]; simpl.
  - reflexivity.
  - unfold bind at 1. rewrite Hf, Hxy. unfold bind at 1. rewrite IH. reflexivity.
Qed.

Lemma comprehension_pure_Raise {A B} (f : A -> M E B) (g : A -> result B) :
  (forall x s, f x s = (g x, s)) ->
  forall xs s x e,
    In x xs -> g x = Raise e ->
    exists x' e', In x' xs /\ g x' = Raise e' /\ comprehension f xs s = (Raise e', s).
Proof.
  intros Hf xs s x e Hin Hx. induction xs as [|x0 xs IH]; [destruct Hin |].
  simpl. unfold bind at 1. rewrite Hf. destruct (g x0) as [y0|e0] eqn:H0.
  - destruct Hin as [-> | Hin]; [congruence |].
    destruct (IH Hin) as (x' & e' & Hin' & Hx' & Hrun).
    exists x', e'. split; [right; exact Hin' | split; [exact Hx' |]].
    unfold bind at 1. rewrite Hrun. reflexivity.
  - exists x0, e0. split; [left; reflexivity | split; [exact H0 | reflexivity]].
Qed.

End PureSteps.

(** ** Zeit: the index of an edition *)

Section ZeitIndex.
Import Bs4 Claims Reading.
Context {W : Type} {NM : NewspaperManager W} {HP : HtmlParser}.

Lemma first_link_run article (s : State W) :
  DeZeit.first_link article s = (zeit_href article, s).
Proof.
  unfold DeZeit.first_link, zeit_href, getitem_on, getitem, raise, ret.
  destruct (find article "a" []) as [a|]; [| reflexivity].
  destruct (get a "href"); reflexivity.
Qed.

(** What a successful indexing of a fetched index page comes to. *)
Lemma zeit_index_fetched year edition s html s1 soup r s' :
  _request (zeit_index_url year edition) s = (Ok (Some html), s1) ->
  html_parser html = Ok soup ->
  DeZeit._get_articles_by_editions year edition s = (Ok r, s') ->
  exists hrefs,
    Forall2 (fun article href => zeit_href article = Ok href)
            (find_all soup "article" []) hrefs /\
    r = JustList (list_set (List.filter is_zeit_url hrefs)) /\
    s' = mkState (env s1)
           (emitted s1 ++ [zeit_removed year edition
                             (length (List.filter is_zeit_url hrefs)
                              - length (list_set (List.filter is_zeit_url hrefs)))]).
Proof.
  intros Hreq Hsoup Hr. unfold DeZeit._get_articles_by_editions in Hr.
  fold (zeit_index_url year edition) in Hr.
  rewrite (bind_step _ _ _ _ _ Hreq) in Hr.
  rewrite (bind_step _ _ _ _ _ (BeautifulSoup_parsed html s1 soup Hsoup)) in Hr.
  run_bind Hr. rename a into hrefs.
  apply (comprehension_pure_inv _ zeit_href first_link_run) in Hrun as [-> Hall].
  exists hrefs. split; [exact Hall |].
  unfold bind, log_warning, emit, ret in Hr. inversion Hr. split; reflexivity.
Qed.

End ZeitIndex.

Section ZeitIndexProperties.
Import Bs4 Claims Reading.
Context {W : Type} {NM : NewspaperManager W} {HP : HtmlParser}.

Lemma Forall2_Ok_In {A B} (g : A -> result B) xs ys :
  Forall2 (fun x y => g x = Ok y) xs ys ->
  forall y, In y ys <-> exists x, In x xs /\ g x = Ok y.
Proof.
  intros Hall. induction Hall as [|x y xs ys Hxy Hall IH]; intros y0; simpl.
  - split; [intros [] | intros (x & [] & _)].
  - rewrite IH. split.
    + intros [<- | (x' & Hin & Hx')]; [exists x; auto | exists x'; auto].
    + intros (x' & [<- | Hin] & Hx'); [left; congruence | right; exists x'; auto].
Qed.

Lemma list_set_length_NoDup urls : List.NoDup urls -> length (list_set urls) = length urls.
Proof.
  intros Hnd. unfold list_set. apply NoDup_ListNoDup in Hnd.
  apply Permutation_length, elements_list_to_set, Hnd.
Qed.

(** X1: the urls Zeit's indexing returns for a fetched index page are
    exactly the hrefs of the first links of the page's article elements
    that start with https://www.zeit.de/: none is lost, none is added. *)
Theorem X1_zeit_index_url_set year edition s html s1 soup r s' :
  _request (zeit_index_url year edition) s = (Ok (Some html), s1) ->
  html_parser html = Ok soup ->
  DeZeit._get_articles_by_editions year edition s = (Ok r, s') ->
  forall u,
    In u (urls_of r) <->
    is_zeit_url u = true /\
    exists article, In article (find_all soup "article" []) /\ zeit_href article = Ok u.
Proof.
  intros Hreq Hsoup Hr u.
  destruct (zeit_index_fetched _ _ _ _ _ _ _ _ Hreq Hsoup Hr) as (hrefs & Hall & -> & _).
  simpl. rewrite list_set_In, filter_In, (Forall2_Ok_In _ _ _ Hall). tauto.
Qed.

(** X2: a successful indexing of a fetched Zeit index page leaves the
    world as the request left it and logs exactly one warning, Removed n
    duplicate urls, where n is the number of urls dropped as duplicates;
    the warning is logged also when nothing was dropped (n = 0). *)
Theorem X2_zeit_index_always_warns year edition s html s1 soup r s' :
  _request (zeit_index_url year edition) s = (Ok (Some html), s1) ->
  html_parser html = Ok soup ->
  DeZeit._get_articles_by_editions year edition s = (Ok r, s') ->
  exists hrefs,
    Forall2 (fun article href => zeit_href article = Ok href)
            (find_all soup "article" []) hrefs /\
    s' = mkState (env s1)
           (emitted s1 ++ [zeit_removed year edition
                             (length (List.filter is_zeit_url hrefs) - length (urls_of r))]) /\
    (List.NoDup (List.filter is_zeit_url hrefs) ->
     s' = mkState (env s1) (emitted s1 ++ [zeit_removed year edition 0])).
Proof.
  intros Hreq Hsoup Hr.
  destruct (zeit_index_fetched _ _ _ _ _ _ _ _ Hreq Hsoup Hr) as (hrefs & Hall & -> & ->).
  exists hrefs. split; [exact Hall | split; [reflexivity |]].
  intros Hnd. rewrite (list_set_length_NoDup _ Hnd), Nat.sub_diag. reflexivity.
Qed.

(** X3: one article element without a link, or with a first link without
    href, makes Zeit's indexing of the fetched page raise TypeError or
    KeyError: no url of the edition is returned. *)
Theorem X3_zeit_index_article_without_link year edition s html s1 soup article e :
  _request (zeit_index_url year edition) s = (Ok (Some html), s1) ->
  html_parser html = Ok soup ->
  In article (find_all soup "article" []) ->
  zeit_href article = Raise e ->
  exists e',
    (e' = TypeError \/ e' = KeyError) /\
    DeZeit._get_articles_by_editions year edition s = (Raise e', s1).
Proof.
  intros Hreq Hsoup Hin Hraise.
  destruct (comprehension_pure_Raise _ zeit_href first_link_run _ s1 _ _ Hin Hraise)
    as (article' & e' & _ & Hraise' & Hrun).
  exists e'. split.
  - unfold zeit_href in Hraise'. destruct (find article' "a" []) as [a|].
    + destruct (get a "href"); inversion Hraise'. right. reflexivity.
    + inversion Hraise'. left. reflexivity.
  - unfold DeZeit._get_articles_by_editions. fold (zeit_index_url year edition).
    rewrite (bind_step _ _ _ _ _ Hreq).
    rewrite (bind_step _ _ _ _ _ (BeautifulSoup_parsed html s1 soup Hsoup)).
    apply bind_raise. exact Hrun.
Qed.

End ZeitIndexProperties.

Section ZeitIndexOnThePages.
Import Bs4 Claims Reading Fixtures.

(** X1, on the pages: the free article's url is among those of edition
    2023/01, being the first link of the second article. *)
Lemma X1_zeit_index_url_set_witness :
  In zeit_free (urls_of zeit_2023_01) <->
  is_zeit_url zeit_free = true /\
  exists article, In article (find_all zeit_index_tree "article" [])
                  /\ zeit_href article = Ok zeit_free.
Proof.
  exact (@X1_zeit_index_url_set unit web parser 2023 1 start "zeit index" start
           zeit_index_tree zeit_2023_01 zeit_2023_01_log eq_refl eq_refl zeit_index_run
           zeit_free).
Defined.

(** X2, on the pages: edition 2023/01, where one url came twice. *)
Lemma X2_zeit_index_always_warns_witness :
  exists hrefs,
    Forall2 (fun article href => zeit_href article = Ok href)
            (find_all zeit_index_tree "article" []) hrefs /\
    zeit_2023_01_log
    = mkState tt ([] ++ [zeit_removed 2023 1
                           (length (List.filter is_zeit_url hrefs)
                            - length (urls_of zeit_2023_01))]) /\
    (List.NoDup (List.filter is_zeit_url hrefs) ->
     zeit_2023_01_log = mkState tt ([] ++ [zeit_removed 2023 1 0])).
Proof.
  exact (@X2_zeit_index_always_warns unit web parser 2023 1 start "zeit index" start
           zeit_index_tree zeit_2023_01 zeit_2023_01_log eq_refl eq_refl zeit_index_run).
Defined.

(** X3, on the pages: edition 2023/02, whose second article is an
    advertisement without a link. *)
Lemma X3_zeit_index_article_without_link_witness :
  exists e',
    (e' = TypeError \/ e' = KeyError) /\
    @DeZeit._get_articles_by_editions unit Corners.web Corners.parser 2023 2 start
    = (Raise e', start).
Proof.
  refine (@X3_zeit_index_article_without_link unit Corners.web Corners.parser 2023 2 start
            "zeit index 2" start Corners.zeit_index_2_tree
            (Element "article" [] [NavigableString "Anzeige"]) TypeError
            eq_refl eq_refl _ eq_refl).
  simpl. auto.
Defined.

End ZeitIndexOnThePages.

(** ** Welt: the index of a day *)

Section WeltIndex.
Import Bs4 Pandas Datetime Claims Reading.
Context {W : Type} {NM : NewspaperManager W} {HP : HtmlParser} {DP : DateParser}.

Lemma headline_url_run a (s : State W) :
  DeWelt.headline_url a s = (welt_link_url a, s).
Proof.
  unfold DeWelt.headline_url, welt_link_url, welt_url, getitem, bind, ret, raise.
  destruct (get a "href"); reflexivity.
Qed.

Lemma welt_index_parsed day s html s1 soup :
  _request (welt_index_url day) s = (Ok (Some html), s1) ->
  html_parser html = Ok soup ->
  DeWelt._get_articles_by_date day s
  = match welt_teasers soup with
    | [] =>
        (print ("[INFO] No articles found for " +:+ strftime_dmy_dash day) ;;
         ret (TwoLists [] [])) s1
    | _ :: _ =>
        (urls <- comprehension DeWelt.headline_url (welt_links soup) ;;
         df <- DataFrame urls (map DeWelt.pub_date_of (welt_teasers soup)) ;;
         ret (TwoLists (map fst (drop_duplicates df))
                       (to_datetime_column (map snd (drop_duplicates df))))) s1
    end.
Proof.
  intros Hreq Hsoup. unfold DeWelt._get_articles_by_date.
  fold (welt_index_url day). rewrite (bind_step _ _ _ _ _ Hreq).
  unfold BeautifulSoup. unfold bind at 1. unfold lift. rewrite Hsoup.
  fold (welt_teasers soup). fold (welt_links soup).
  destruct (welt_teasers soup); reflexivity.
Qed.

(** X4: when the request for Welt's index page yields no html, the
    indexing raises TypeError (the parser is handed None): nothing is
    returned for the day. *)
Theorem X4_welt_index_without_html_raises day s s1 :
  _request (welt_index_url day) s = (Ok None, s1) ->
  DeWelt._get_articles_by_date day s = (Raise TypeError, s1).
Proof.
  intros Hreq. unfold DeWelt._get_articles_by_date. fold (welt_index_url day).
  rewrite (bind_step _ _ _ _ _ Hreq). reflexivity.
Qed.

(** X5: a fetched Welt index page without teaser articles gives two empty
    lists and one printed line, No articles found, whatever headline
    links the page carries. *)
Theorem X5_welt_index_without_teasers day s html s1 soup :
  _request (welt_index_url day) s = (Ok (Some html), s1) ->
  html_parser html = Ok soup ->
  welt_teasers soup = [] ->
  DeWelt._get_articles_by_date day s
  = (Ok (TwoLists [] []),
     mkState (env s1)
       (emitted s1 ++ [Stdout ("[INFO] No articles found for " +:+ strftime_dmy_dash day)])).
Proof.
  intros Hreq Hsoup Hnone. rewrite (welt_index_parsed _ _ _ _ _ Hreq Hsoup), Hnone.
  reflexivity.
Qed.

(** X6: when a fetched Welt index page has teasers and its headline links
    all carry an href, but there are not as many links as teasers, the
    indexing raises ValueError: no url of the day is returned. *)
Theorem X6_welt_index_count_mismatch_raises day s html s1 soup urls :
  _request (welt_index_url day) s = (Ok (Some html), s1) ->
  html_parser html = Ok soup ->
  welt_teasers soup <> [] ->
  Forall2 (fun a url => welt_link_url a = Ok url) (welt_links soup) urls ->
  length (welt_links soup) <> length (welt_teasers soup) ->
  DeWelt._get_articles_by_date day s = (Raise ValueError, s1).
Proof.
  intros Hreq Hsoup Hsome Hurls Hlen.
  rewrite (welt_index_parsed _ _ _ _ _ Hreq Hsoup).
  destruct (welt_teasers soup) as [|t ts] eqn:Hts; [contradiction Hsome; reflexivity |].
  rewrite (bind_step _ _ _ _ _
             (comprehension_pure_Ok _ welt_link_url headline_url_run _ _ s1 Hurls)).
  unfold DataFrame. rewrite length_map.
  apply Forall2_length in Hurls. rewrite <- Hurls.
  destruct (Nat.eqb_spec (length (welt_links soup)) (length (t :: ts))) as [Heq|_];
    [contradiction (Hlen Heq) | reflexivity].
Qed.

(** X7: when a fetched Welt index page has teasers and one of its
    headline links carries no href, the indexing raises KeyError. *)
Theorem X7_welt_index_link_without_href_raises day s html s1 soup a :
  _request (welt_index_url day) s = (Ok (Some html), s1) ->
  html_parser html = Ok soup ->
  welt_teasers soup <> [] ->
  In a (welt_links soup) ->
  get a "href" = None ->
  DeWelt._get_articles_by_date day s = (Raise KeyError, s1).
Proof.
  intros Hreq Hsoup Hsome Hin Hnone.
  rewrite (welt_index_parsed _ _ _ _ _ Hreq Hsoup).
  destruct (welt_teasers soup) as [|t ts] eqn:Hts; [contradiction Hsome; reflexivity |].
  assert (welt_link_url a = Raise KeyError) as Hraise
    by (unfold welt_link_url; rewrite Hnone; reflexivity).
  destruct (comprehension_pure_Raise _ welt_link_url headline_url_run _ s1 _ _ Hin Hraise)
    as (a' & e' & _ & Hraise' & Hrun).
  assert (e' = KeyError) as ->.
  { unfold welt_link_url in Hraise'. destruct (get a' "href"); inversion Hraise'. reflexivity. }
  apply bind_raise. exact Hrun.
Qed.

(** What a successful indexing of a fetched page with teasers comes to. *)
Lemma welt_index_fetched day s html s1 soup r s' :
  _request (welt_index_url day) s = (Ok (Some html), s1) ->
  html_parser html = Ok soup ->
  welt_teasers soup <> [] ->
  DeWelt._get_articles_by_date day s = (Ok r, s') ->
  exists urls,
    Forall2 (fun a url => welt_link_url a = Ok url) (welt_links soup) urls /\
    length urls = length (welt_teasers soup) /\
    r = TwoLists
          (map fst (drop_duplicates
                      (combine urls (map DeWelt.pub_date_of (welt_teasers soup)))))
          (map snd (drop_duplicates
                      (combine urls (map DeWelt.pub_date_of (welt_teasers soup))))) /\
    s' = s1.
Proof.
  intros Hreq Hsoup Hsome Hr.
  rewrite (welt_index_parsed _ _ _ _ _ Hreq Hsoup) in Hr.
  destruct (welt_teasers soup) as [|t ts] eqn:Hts; [contradiction Hsome; reflexivity |].
  run_bind Hr. rename a into urls.
  apply (comprehension_pure_inv _ welt_link_url headline_url_run) in Hrun as [-> Hall].
  run_bind Hr. returned Hr. unfold DataFrame in Hrun.
  destruct (Nat.eqb_spec (length urls) (length (map DeWelt.pub_date_of (t :: ts))))
    as [Heq|_]; [| discriminate Hrun].
  returned Hrun. exists urls. rewrite length_map in Heq. auto.
Qed.

End WeltIndex.

Section WeltIndexRows.
Import Bs4 Pandas Datetime Claims Reading.
Context {W : Type} {NM : NewspaperManager W} {HP : HtmlParser} {DP : DateParser}.

Lemma drop_duplicates_from_keeps rows : forall seen u,
  In u (map fst rows) -> In u seen \/ In u (map fst (drop_duplicates_from seen rows)).
Proof.
  induction rows as [|[u0 d0] rows IH]; intros seen u Hin; simpl in *; [destruct Hin |].
  destruct (existsb (String.eqb u0) seen) eqn:Hseen.
  - destruct Hin as [<- | Hin]; [left; apply existsb_eqb_In; exact Hseen | apply IH, Hin].
  - destruct Hin as [<- | Hin]; [right; left; reflexivity |].
    destruct (IH (u0 :: seen) u Hin) as [[<- | Hs] | Hk]; simpl; auto.
Qed.

Lemma map_fst_combine {A B} (xs : list A) (ys : list B) :
  length xs = length ys -> map fst (combine xs ys) = xs.
Proof.
  revert ys. induction xs as [|x xs IH]; intros [|y ys] Hlen; simpl in *;
    try discriminate; [reflexivity |]. rewrite IH by lia. reflexivity.
Qed.

(** X8: the urls Welt's indexing returns for a fetched page with teasers
    are exactly the urls made of the page's headline links: removing the
    duplicates loses no url and adds none, and the indexing leaves the
    world as the request left it. *)
Theorem X8_welt_index_url_set day s html s1 soup r s' :
  _request (welt_index_url day) s = (Ok (Some html), s1) ->
  html_parser html = Ok soup ->
  welt_teasers soup <> [] ->
  DeWelt._get_articles_by_date day s = (Ok r, s') ->
  s' = s1 /\
  forall u,
    In u (urls_of r) <-> exists a, In a (welt_links soup) /\ welt_link_url a = Ok u.
Proof.
  intros Hreq Hsoup Hsome Hr.
  destruct (welt_index_fetched _ _ _ _ _ _ _ Hreq Hsoup Hsome Hr)
    as (urls & Hall & Hlen & -> & ->).
  split; [reflexivity |]. intros u. simpl.
  rewrite <- (Forall2_Ok_In _ _ _ Hall). split.
  - intros Hin. apply in_map_iff in Hin as ([u' d] & <- & Hrow). simpl.
    apply drop_duplicates_subset, in_combine_l in Hrow. exact Hrow.
  - intros Hin.
    destruct (drop_duplicates_from_keeps
                (combine urls (map DeWelt.pub_date_of (welt_teasers soup))) [] u)
      as [[] | Hkept]; [| exact Hkept].
    rewrite map_fst_combine by (rewrite length_map; exact Hlen). exact Hin.
Qed.

End WeltIndexRows.

Section WeltIndexOnThePages.
Import Bs4 Pandas Datetime Claims Reading Fixtures.

(** X4, on the pages: Welt's index of 5 January 2023 while offline. *)
Lemma X4_welt_index_without_html_raises_witness :
  @_request unit offline (welt_index_url jan_5) start = (Ok None, start) /\
  @DeWelt._get_articles_by_date unit offline parser dates jan_5 start
  = (Raise TypeError, start).
Proof.
  split; [reflexivity |].
  exact (@X4_welt_index_without_html_raises unit offline parser dates jan_5 start start
           eq_refl).
Defined.

(** X5, on the pages: the index of 9 January 2023 has a headline link and
    no teaser. *)
Lemma X5_welt_index_without_teasers_witness :
  welt_teasers Corners.welt_index_9_tree = [] /\
  welt_links Corners.welt_index_9_tree <> [] /\
  @DeWelt._get_articles_by_date unit Corners.web Corners.parser dates Corners.jan_9 start
  = (Ok (TwoLists [] []),
     mkState tt ([] ++ [Stdout ("[INFO] No articles found for "
                                +:+ strftime_dmy_dash Corners.jan_9)])).
Proof.
  split; [reflexivity | split; [discriminate |]].
  exact (@X5_welt_index_without_teasers unit Corners.web Corners.parser dates Corners.jan_9
           start "welt index 9" start Corners.welt_index_9_tree eq_refl eq_refl eq_refl).
Defined.

(** X6, on the pages: the index of 7 January 2023 has two teasers and one
    headline link. *)
Lemma X6_welt_index_count_mismatch_raises_witness :
  length (welt_links Corners.welt_index_7_tree) = 1%nat /\
  length (welt_teasers Corners.welt_index_7_tree) = 2%nat /\
  @DeWelt._get_articles_by_date unit Corners.web Corners.parser dates Corners.jan_7 start
  = (Raise ValueError, start).
Proof.
  split; [reflexivity | split; [reflexivity |]].
  refine (@X6_welt_index_count_mismatch_raises unit Corners.web Corners.parser dates
            Corners.jan_7 start "welt index 7" start Corners.welt_index_7_tree
            ["https://www.welt.de/politik/article7.html"] eq_refl eq_refl _ _ _).
  - discriminate.
  - repeat constructor.
  - discriminate.
Defined.

(** X7, on the pages: the index of 8 January 2023 has a headline link
    without href. *)
Lemma X7_welt_index_link_without_href_raises_witness :
  @DeWelt._get_articles_by_date unit Corners.web Corners.parser dates Corners.jan_8 start
  = (Raise KeyError, start).
Proof.
  refine (@X7_welt_index_link_without_href_raises unit Corners.web Corners.parser dates
            Corners.jan_8 start "welt index 8" start Corners.welt_index_8_tree
            (Element "a" [("class", "c-teaser__headline-link")] [NavigableString "Ohne Ziel"])
            eq_refl eq_refl _ _ eq_refl).
  - discriminate.
  - left. reflexivity.
Defined.

(** X8, on the pages: the index of 5 January 2023. *)
Lemma X8_welt_index_url_set_witness :
  welt_index jan_5 start = (Ok welt_5, start) /\
  start = start /\
  forall u,
    In u (urls_of welt_5) <->
    exists a, In a (welt_links welt_index_5_tree) /\ welt_link_url a = Ok u.
Proof.
  split; [exact welt_index_5_run |].
  refine (@X8_welt_index_url_set unit web parser dates jan_5 start "welt index 5" start
            welt_index_5_tree welt_5 start eq_refl eq_refl _ welt_index_5_run).
  discriminate.
Defined.

End WeltIndexOnThePages.

(** ** Handelsblatt: the archive search of a day *)

Section HandelsblattIndex.
Import Bs4 Pandas Datetime Claims Reading.
Context {W : Type} {NM : NewspaperManager W} {HP : HtmlParser}.

(** A tag found by a search that asks for an attribute carries it. *)
Lemma find_all_present t name key a :
  In a (find_all t name [(key, Present)]) -> exists v, get a key = Some v.
Proof.
  unfold find_all. intros Hin. apply filter_In in Hin as [_ Hm].
  destruct a as [txt|n attrs cs]; simpl in Hm; [discriminate Hm |].
  apply andb_true_iff in Hm as [_ Hm]. rewrite andb_true_r in Hm.
  unfold attr_matches in Hm. simpl in Hm. unfold get. simpl.
  destruct (assoc key attrs) as [v|]; [eauto | discriminate Hm].
Qed.

Lemma find_present t name key a :
  find t name [(key, Present)] = Some a -> exists v, get a key = Some v.
Proof.
  unfold find. intros Hfind. apply (find_all_present t name key).
  destruct (find_all t name [(key, Present)]) as [|a0 rest]; [discriminate Hfind |].
  inversion Hfind; subst. left. reflexivity.
Qed.

Lemma append_hit_bound b urls hit (s : State W) :
  DeHandelsblatt.append_hit (Some b) urls hit s
  = (Ok (urls ++ match hit_path hit with Some p => [b +:+ p] | None => [] end), s).
Proof.
  unfold DeHandelsblatt.append_hit, hit_path.
  destruct (find hit "a" [("href"%string, Present)]) as [link_tag|] eqn:Hfind;
    [| rewrite app_nil_r; reflexivity].
  destruct (find_present _ _ _ _ Hfind) as [href Hhref].
  unfold getitem, bind. rewrite Hhref. unfold ret at 1.
  destruct (Str.startswith href "/"); [reflexivity | rewrite app_nil_r; reflexivity].
Qed.

Lemma append_hit_unbound urls hit (s : State W) :
  DeHandelsblatt.append_hit None urls hit s
  = (match hit_path hit with Some _ => Raise NameError | None => Ok urls end, s).
Proof.
  unfold DeHandelsblatt.append_hit, hit_path.
  destruct (find hit "a" [("href"%string, Present)]) as [link_tag|] eqn:Hfind;
    [| reflexivity].
  destruct (find_present _ _ _ _ Hfind) as [href Hhref].
  unfold getitem, bind. rewrite Hhref. unfold ret at 1.
  destruct (Str.startswith href "/"); reflexivity.
Qed.

Lemma hits_loop_bound b hits : forall urls (s : State W),
  for_each (DeHandelsblatt.append_hit (Some b)) hits urls s
  = (Ok (urls ++ map (String.append b) (hit_paths hits)), s).
Proof.
  induction hits as [|hit hits IH]; intros urls s; simpl.
  - rewrite app_nil_r. reflexivity.
  - unfold bind. rewrite append_hit_bound, IH. rewrite map_app, <- app_assoc.
    destruct (hit_path hit); reflexivity.
Qed.

Lemma hits_loop_unbound hits : forall urls (s : State W),
  for_each (DeHandelsblatt.append_hit None) hits urls s
  = (match hit_paths hits with [] => Ok urls | _ :: _ => Raise NameError end, s).
Proof.
  induction hits as [|hit hits IH]; intros urls s; simpl; [reflexivity |].
  unfold bind. rewrite append_hit_unbound.
  destruct (hit_path hit); simpl; [reflexivity | apply IH].
Qed.

Lemma handelsblatt_index_parsed base_url day s html s1 soup :
  _request (DeHandelsblatt.search_url day) s = (Ok (Some html), s1) ->
  html_parser html = Ok soup ->
  DeHandelsblatt._get_articles_by_date base_url day s
  = (urls <- for_each (DeHandelsblatt.append_hit base_url) (handelsblatt_hits soup) [] ;;
     urls <- match find soup "div" [("class", Value "pagination")]%string with
             | Some pagination =>
                 hrefs <- comprehension (fun a => getitem a "href")
                            (find_all pagination "a" [("href", Present)]%string) ;;
                 page_links <- comprehension
                                 (fun href => b <- global base_url ;; ret (b +:+ href))
                                 (List.filter (Str.contains "dosearch") hrefs) ;;
                 for_each (DeHandelsblatt.append_page base_url) page_links urls
             | None => ret urls
             end ;;
     (if (length (list_set urls) <? length urls)%nat
      then log_warning ("Removed " +:+ Str.str (Z.of_nat (length urls - length (list_set urls)))
                        +:+ " duplicate urls for " +:+ strftime_ymd_dash day +:+ ".")
      else ret tt) ;;
     ret (TwoLists (list_set urls)
            (repeat (PyDatetime (combine_min_time day utc)) (length (list_set urls))))) s1.
Proof.
  intros Hreq Hsoup. unfold DeHandelsblatt._get_articles_by_date.
  rewrite (bind_step _ _ _ _ _ Hreq).
  rewrite (bind_step _ _ _ _ _ (BeautifulSoup_parsed html s1 soup Hsoup)).
  reflexivity.
Qed.

(** X10: when the request for Handelsblatt's search page yields no html,
    the indexing returns one bare empty list, not a pair of lists, and
    logs nothing. *)
Theorem X10_handelsblatt_index_without_html base_url day s s1 :
  _request (DeHandelsblatt.search_url day) s = (Ok None, s1) ->
  DeHandelsblatt._get_articles_by_date base_url day s = (Ok (JustList []), s1).
Proof.
  intros Hreq. unfold DeHandelsblatt._get_articles_by_date.
  rewrite (bind_step _ _ _ _ _ Hreq). reflexivity.
Qed.

(** X11: with the module-level name base_url unbound, Handelsblatt's
    indexing never returns a url, and it raises NameError on every fetched
    search page that has a hit whose first link is a path. *)
Theorem X11_handelsblatt_index_unbound_base_url :
  (forall day s r s',
      DeHandelsblatt._get_articles_by_date None day s = (Ok r, s') -> urls_of r = []) /\
  (forall day s html s1 soup,
      _request (DeHandelsblatt.search_url day) s = (Ok (Some html), s1) ->
      html_parser html = Ok soup ->
      hit_paths (handelsblatt_hits soup) <> [] ->
      DeHandelsblatt._get_articles_by_date None day s = (Raise NameError, s1)).
Proof.
  split.
  - intros day s r s' Hr.
    apply handelsblatt_index_shape in Hr
      as [(s1 & _ & ->) | (html & s1 & urls & _ & Hform & ->)]; [reflexivity |].
    simpl. destruct urls as [|u urls]; [reflexivity |].
    inversion Hform as [|? ? (b & href & Hb & _) _]. discriminate Hb.
  - intros day s html s1 soup Hreq Hsoup Hpaths.
    rewrite (handelsblatt_index_parsed _ _ _ _ _ _ Hreq Hsoup).
    apply bind_raise. rewrite hits_loop_unbound.
    destruct (hit_paths (handelsblatt_hits soup)); [contradiction Hpaths |]; reflexivity.
Qed.

(** X12: with base_url bound to b, a fetched search page without a
    pagination block is indexed without a further request: the urls are
    the distinct paths of its hits behind b, each with midnight UTC of the
    day, and a warning is logged exactly when a url came more than once. *)
Theorem X12_handelsblatt_index_single_page b day s html s1 soup :
  _request (DeHandelsblatt.search_url day) s = (Ok (Some html), s1) ->
  html_parser html = Ok soup ->
  find soup "div" [("class", Value "pagination")]%string = None ->
  let raw := map (String.append b) (hit_paths (handelsblatt_hits soup)) in
  DeHandelsblatt._get_articles_by_date (Some b) day s
  = (Ok (TwoLists (list_set raw) (repeat (midnight_utc day) (length (list_set raw)))),
     mkState (env s1)
       (emitted s1 ++
        if (length (list_set raw) <? length raw)%nat
        then [handelsblatt_removed day (length raw - length (list_set raw))]
        else [])).
Proof.
  intros Hreq Hsoup Hnone raw.
  rewrite (handelsblatt_index_parsed _ _ _ _ _ _ Hreq Hsoup).
  unfold bind at 1. rewrite hits_loop_bound. simpl app. fold raw.
  rewrite Hnone. unfold bind at 1. unfold ret at 1.
  destruct (length (list_set raw) <? length raw)%nat.
  - reflexivity.
  - destruct s1 as [e out]. simpl. rewrite app_nil_r. reflexivity.
Qed.

Lemma append_page_extends b urls page (s : State W) urls' s' :
  DeHandelsblatt.append_page (Some b) urls page s = (Ok urls', s') ->
  exists extra, urls' = urls ++ extra.
Proof.
  unfold DeHandelsblatt.append_page. intros Hp. run_bind Hp. run_bind Hp.
  rewrite hits_loop_bound in Hp. inversion Hp. eauto.
Qed.

(** X13: with base_url bound to b, whenever Handelsblatt's indexing of a
    fetched search page returns, pagination or not, every path hit of that
    first page is among the urls returned, behind b. *)
Theorem X13_handelsblatt_index_keeps_first_page b day s html s1 soup r s' p :
  _request (DeHandelsblatt.search_url day) s = (Ok (Some html), s1) ->
  html_parser html = Ok soup ->
  DeHandelsblatt._get_articles_by_date (Some b) day s = (Ok r, s') ->
  In p (hit_paths (handelsblatt_hits soup)) ->
  In (b +:+ p) (urls_of r).
Proof.
  intros Hreq Hsoup Hr Hp.
  rewrite (handelsblatt_index_parsed _ _ _ _ _ _ Hreq Hsoup) in Hr.
  run_bind Hr. rewrite hits_loop_bound in Hrun. inversion Hrun; subst. clear Hrun.
  run_bind Hr. rename a into urls. run_bind Hr. returned Hr. simpl.
  apply list_set_In.
  assert (exists extra,
             urls = map (String.append b) (hit_paths (handelsblatt_hits soup)) ++ extra)
    as [extra ->].
  { destruct (find soup "div" [("class"%string, Value "pagination")]) as [pg|].
    - run_bind Hrun. run_bind Hrun.
      eapply (for_each_Ok _ (fun acc => exists extra,
                acc = map (String.append b) (hit_paths (handelsblatt_hits soup)) ++ extra));
        [| exists []; rewrite app_nil_r; reflexivity | exact Hrun].
      intros acc x s5 acc' s6 [extra ->] Hpage.
      apply append_page_extends in Hpage as [extra' ->].
      exists (extra ++ extra'). rewrite app_assoc. reflexivity.
    - returned Hrun. exists []. rewrite app_nil_r. reflexivity. }
  apply in_or_app. left. apply in_map. exact Hp.
Qed.

End HandelsblattIndex.

Section HandelsblattPagination.
Import Bs4 Pandas Datetime Claims Reading.
Context {W : Type} {NM : NewspaperManager W} {HP : HtmlParser}.

Lemma hrefs_of_found (found : list Tag) :
  (forall a, In a found -> exists v, get a "href" = Some v) ->
  Forall2 (fun a h => match get a "href" with Some v => Ok v | None => Raise KeyError end
                      = Ok h)
          found
          (flat_map (fun a => match get a "href" with Some h => [h] | None => [] end) found).
Proof.
  induction found as [|a found IH]; intros Hall; simpl; [constructor |].
  destruct (Hall a (or_introl eq_refl)) as [v Hv]. rewrite Hv. simpl.
  constructor; [rewrite Hv; reflexivity |]. apply IH. intros a' Hin. apply Hall. right. exact Hin.
Qed.

Lemma getitem_run (a : Tag) key (s : State W) :
  getitem a key s
  = (match get a key with Some v => Ok v | None => Raise KeyError end, s).
Proof. unfold getitem. destruct (get a key); reflexivity. Qed.

Lemma prefixed_run b href (s : State W) :
  (x <- global (Some b) ;; ret (x +:+ href)) s = (Ok (b +:+ href), s).
Proof. reflexivity. Qed.

(** X14: with base_url bound to b, when the fetched search page has a
    pagination block and the request for its first further result page
    yields no html, the indexing raises TypeError: the hits of the first
    page are not returned either. *)
Theorem X14_handelsblatt_index_missing_result_page b day s html s1 soup pagination p rest s2 :
  _request (DeHandelsblatt.search_url day) s = (Ok (Some html), s1) ->
  html_parser html = Ok soup ->
  find soup "div" [("class", Value "pagination")]%string = Some pagination ->
  page_links pagination = p :: rest ->
  _request (b +:+ p) s1 = (Ok None, s2) ->
  DeHandelsblatt._get_articles_by_date (Some b) day s = (Raise TypeError, s2).
Proof.
  intros Hreq Hsoup Hpg Hlinks Hpage.
  rewrite (handelsblatt_index_parsed _ _ _ _ _ _ Hreq Hsoup).
  unfold bind at 1. rewrite hits_loop_bound. rewrite Hpg.
  apply bind_raise.
  erewrite bind_step.
  2:{ apply (comprehension_pure_Ok _ _ (fun a s => getitem_run a "href" s)).
      apply hrefs_of_found. intros a. apply find_all_present. }
  fold (page_links pagination). rewrite Hlinks.
  erewrite bind_step.
  2:{ apply (comprehension_pure_Ok _ (fun href => Ok (b +:+ href)) (prefixed_run b)
               (p :: rest) (map (String.append b) (p :: rest))).
      clear. induction (p :: rest); constructor; auto. }
  simpl. apply bind_raise. unfold DeHandelsblatt.append_page.
  rewrite (bind_step _ _ _ _ _ Hpage). reflexivity.
Qed.

End HandelsblattPagination.

Section HandelsblattIndexOnThePages.
Import Bs4 Pandas Datetime Claims Reading Fixtures.

(** X10, on the pages: the search for 5 January 2023 while offline. *)
Lemma X10_handelsblatt_index_without_html_witness :
  @_request unit offline (DeHandelsblatt.search_url jan_5) start = (Ok None, start) /\
  @DeHandelsblatt._get_articles_by_date unit offline parser (Some handelsblatt_base) jan_5 start
  = (Ok (JustList []), start).
Proof.
  split; [reflexivity |].
  exact (@X10_handelsblatt_index_without_html unit offline parser (Some handelsblatt_base)
           jan_5 start start eq_refl).
Defined.

(** X11, on the pages: with the name unbound, the search for 6 January
    2023, which is not served, and the search for 5 January 2023. *)
Lemma X11_handelsblatt_index_unbound_base_url_witness :
  (@DeHandelsblatt._get_articles_by_date unit web parser None jan_6 start
   = (Ok (JustList []), start) /\ urls_of (JustList []) = []) /\
  (hit_paths (handelsblatt_hits handelsblatt_search_tree) <> [] /\
   @DeHandelsblatt._get_articles_by_date unit web parser None jan_5 start
   = (Raise NameError, start)).
Proof.
  pose proof (@X11_handelsblatt_index_unbound_base_url unit web parser) as [Hnone Hraise].
  assert (@DeHandelsblatt._get_articles_by_date unit web parser None jan_6 start
          = (Ok (JustList []), start)) as Hrun by (vm_compute; reflexivity).
  assert (hit_paths (handelsblatt_hits handelsblatt_search_tree) <> []) as Hpaths
    by (vm_compute; discriminate).
  split; [split; [exact Hrun | exact (Hnone jan_6 start _ _ Hrun)] |].
  split; [exact Hpaths |].
  exact (Hraise jan_5 start "handelsblatt search" start handelsblatt_search_tree
           eq_refl eq_refl Hpaths).
Defined.

(** X12, on the pages: the search for 5 January 2023, where one hit comes
    twice. *)
Lemma X12_handelsblatt_index_single_page_witness :
  find handelsblatt_search_tree "div" [("class", Value "pagination")]%string = None /\
  let raw := map (String.append handelsblatt_base)
                 (hit_paths (handelsblatt_hits handelsblatt_search_tree)) in
  handelsblatt_index jan_5 start
  = (Ok (TwoLists (list_set raw) (repeat (midnight_utc jan_5) (length (list_set raw)))),
     mkState tt
       ([] ++
        if (length (list_set raw) <? length raw)%nat
        then [handelsblatt_removed jan_5 (length raw - length (list_set raw))]
        else [])).
Proof.
  split; [reflexivity |].
  exact (@X12_handelsblatt_index_single_page unit web parser handelsblatt_base jan_5 start
           "handelsblatt search" start handelsblatt_search_tree eq_refl eq_refl eq_refl).
Defined.

(** X13, on the pages: the search for 6 January 2023 goes on to a second
    result page; the hits of the first page are still there. *)
Lemma X13_handelsblatt_index_keeps_first_page_witness :
  exists r s',
    @DeHandelsblatt._get_articles_by_date unit Corners.web Corners.parser
      (Some handelsblatt_base) jan_6 start = (Ok r, s') /\
    In "/document/HB__4" (hit_paths (handelsblatt_hits Corners.handelsblatt_search_6_tree)) /\
    In "https://archiv.handelsblatt.com/document/HB__5" (urls_of r) /\
    In (handelsblatt_base +:+ "/document/HB__4") (urls_of r).
Proof.
  assert (exists r s',
             @DeHandelsblatt._get_articles_by_date unit Corners.web Corners.parser
               (Some handelsblatt_base) jan_6 start = (Ok r, s')
             /\ In "https://archiv.handelsblatt.com/document/HB__5" (urls_of r))
    as (r & s' & Hrun & Hsecond).
  { eexists. eexists. split; [vm_compute; reflexivity |]. simpl. auto. }
  assert (In "/document/HB__4"
             (hit_paths (handelsblatt_hits Corners.handelsblatt_search_6_tree))) as Hp
    by (vm_compute; auto).
  exists r, s'. split; [exact Hrun | split; [exact Hp | split; [exact Hsecond |]]].
  exact (@X13_handelsblatt_index_keeps_first_page unit Corners.web Corners.parser
           handelsblatt_base jan_6 start "handelsblatt search 6" start
           Corners.handelsblatt_search_6_tree r s' "/document/HB__4"
           eq_refl eq_refl Hrun Hp).
Defined.

(** X14, on the pages: the search for 7 January 2023 points to a third
    result page that is not served. *)
Lemma X14_handelsblatt_index_missing_result_page_witness :
  @DeHandelsblatt._get_articles_by_date unit Corners.web Corners.parser
    (Some handelsblatt_base) Corners.jan_7 start = (Raise TypeError, start).
Proof.
  exact (@X14_handelsblatt_index_missing_result_page unit Corners.web Corners.parser
           handelsblatt_base Corners.jan_7 start "handelsblatt search 7" start
           Corners.handelsblatt_search_7_tree
           (Corners.pagination ["/dosearch?page=3"]) "/dosearch?page=3" []
           start eq_refl eq_refl eq_refl eq_refl eq_refl).
Defined.

End HandelsblattIndexOnThePages.

(** ** Classification: the corners of [_soup_get_html] *)

Section ClassificationCorners.
Import Bs4 Claims Reading.
Context {W : Type} {NM : NewspaperManager W} {HP : HtmlParser}.

(** X15: Welt's classification answers a request without html, and one
    with empty html, with no html and the flag false, and says nothing:
    the world is as the request left it. *)
Theorem X15_welt_soup_get_html_without_html url s s1 html :
  _request url s = (Ok html, s1) ->
  html = None \/ html = Some EmptyString ->
  DeWelt._soup_get_html url s = (Ok (None, false), s1).
Proof.
  intros Hreq Hempty. unfold DeWelt._soup_get_html. rewrite (bind_step _ _ _ _ _ Hreq).
  destruct Hempty as [-> | ->]; reflexivity.
Qed.

(** X16: what Welt's classification returns as html is what the request
    gave, and the world is then as the request left it; an exception of
    the request or of the parser is raised to the caller as it is. *)
Theorem X16_welt_soup_get_html_passes_through :
  (forall url s html flag s',
      DeWelt._soup_get_html url s = (Ok (Some html, flag), s') ->
      _request url s = (Ok (Some html), s')) /\
  (forall url s e s1,
      _request url s = (Raise e, s1) ->
      DeWelt._soup_get_html url s = (Raise e, s1)) /\
  (forall url s html s1 e,
      _request url s = (Ok (Some html), s1) ->
      Str.is_empty html = false ->
      html_parser html = Raise e ->
      DeWelt._soup_get_html url s = (Raise e, s1)).
Proof.
  repeat apply conj.
  - intros url s html flag s' Hr. unfold DeWelt._soup_get_html in Hr. run_bind Hr.
    destruct a as [[|c h]|]; try (returned Hr; fail).
    run_bind Hr. rename a into soup. apply BeautifulSoup_Ok in Hrun0 as [_ ->].
    apply try_except_Ok_inv in Hr as [Hr | (e & s2 & _ & _ & Hr)].
    + run_bind Hr. returned Hr.
      unfold DeWelt.premium_icon_lookup, find_on in Hrun0.
      destruct (find soup "header" _); inversion Hrun0; subst. exact Hrun.
    + run_bind Hr. returned Hr.
  - intros url s e s1 Hreq. unfold DeWelt._soup_get_html. apply bind_raise. exact Hreq.
  - intros url s html s1 e Hreq Hne Hparse. unfold DeWelt._soup_get_html.
    rewrite (bind_step _ _ _ _ _ Hreq). destruct html as [|c h]; [discriminate Hne |].
    apply bind_raise. unfold BeautifulSoup, lift. rewrite Hparse. reflexivity.
Qed.

(** X17: Zeit's classification answers a request without html with no
    html and the flag false, and logs the warning Problem requesting. *)
Theorem X17_zeit_soup_get_html_without_html fuel url s s1 :
  _request url s = (Ok None, s1) ->
  DeZeit._soup_get_html (S fuel) url s
  = (Ok (Some (None, false)),
     mkState (env s1) (emitted s1 ++ [Log WARNING ("Problem requesting: " +:+ url)])).
Proof.
  intros Hreq. simpl. unfold try_except at 1. rewrite (bind_step _ _ _ _ _ Hreq).
  reflexivity.
Qed.

(** X18: when the parser raises on the html of a fetched Zeit page,
    whatever it raises, the classification raises NameError to its
    caller: the handler of the parse error reads a name the module does
    not bind, and neither logs nor returns. *)
Theorem X18_zeit_soup_get_html_parse_error fuel url s html s1 e :
  _request url s = (Ok (Some html), s1) ->
  html_parser html = Raise e ->
  DeZeit._soup_get_html (S fuel) url s = (Raise NameError, s1).
Proof.
  intros Hreq Hparse. simpl. unfold try_except at 1. rewrite (bind_step _ _ _ _ _ Hreq).
  unfold bind at 1. unfold try_except at 1. unfold bind at 1.
  unfold BeautifulSoup, lift. rewrite Hparse. reflexivity.
Qed.

(** X19: a TypeError raised by the request is caught by Zeit's
    classification: it prints the traceback and returns no html and the
    flag false; any other exception of the request is raised to the
    caller. *)
Theorem X19_zeit_soup_get_html_request_error fuel url s e s1 :
  _request url s = (Raise e, s1) ->
  DeZeit._soup_get_html (S fuel) url s
  = if exn_eqb TypeError e
    then (Ok (Some (None, false)),
          mkState (env s1) (emitted s1 ++ [Stdout DeZeit.format_exc]))
    else (Raise e, s1).
Proof.
  intros Hreq. simpl. unfold try_except at 1. rewrite (bind_raise _ _ _ _ _ Hreq).
  destruct e; reflexivity.
Qed.

Lemma zeit_follows_link url (s : State W) html s1 soup link :
  _request url s = (Ok (Some html), s1) ->
  html_parser html = Ok soup ->
  find soup "a" [("href"%string, Value (url +:+ "/komplettansicht"))] = Some link ->
  forall fuel,
    DeZeit._soup_get_html (S fuel) url s
    = try_except (DeZeit._soup_get_html fuel (url +:+ "/komplettansicht"))
        (only TypeError)
        (print DeZeit.format_exc ;; ret (Some (None, false))) s1.
Proof.
  intros Hreq Hsoup Hlink fuel. simpl.
  unfold try_except at 1. unfold bind at 1. rewrite Hreq.
  unfold bind at 1. unfold try_except at 1. unfold bind at 1.
  unfold BeautifulSoup, lift. rewrite Hsoup. unfold ret at 1. rewrite Hlink.
  reflexivity.
Qed.

Lemma zeit_settles_without_link fuel url (s : State W) html s1 soup :
  _request url s = (Ok (Some html), s1) ->
  html_parser html = Ok soup ->
  find soup "a" [("href"%string, Value (url +:+ "/komplettansicht"))] = None ->
  DeZeit._soup_get_html (S fuel) url s
  = (Ok (Some (Some html, negb (truthy (zeit_marker soup)))), s1).
Proof.
  intros Hreq Hsoup Hlink. simpl.
  unfold try_except at 1. erewrite bind_step by exact Hreq.
  unfold bind at 1. unfold try_except at 1.
  erewrite bind_step by (apply BeautifulSoup_parsed; exact Hsoup).
  unfold ret at 1. rewrite Hlink. reflexivity.
Qed.

(** X20: when a fetched Zeit page links to its full view, and the full
    view is fetched and links to no further full view, the html returned
    is that of the full view and the flag is read off the full view; the
    first page's html is dropped. *)
Theorem X20_zeit_soup_get_html_returns_full_view
    fuel url s html s1 soup link html' s2 soup' :
  _request url s = (Ok (Some html), s1) ->
  html_parser html = Ok soup ->
  find soup "a" [("href"%string, Value (url +:+ "/komplettansicht"))] = Some link ->
  _request (url +:+ "/komplettansicht") s1 = (Ok (Some html'), s2) ->
  html_parser html' = Ok soup' ->
  find soup' "a"
    [("href"%string, Value ((url +:+ "/komplettansicht") +:+ "/komplettansicht"))] = None ->
  DeZeit._soup_get_html (S (S fuel)) url s
  = (Ok (Some (Some html', negb (truthy (zeit_marker soup')))), s2).
Proof.
  intros Hreq Hsoup Hlink Hreq' Hsoup' Hnone.
  rewrite (zeit_follows_link _ _ _ _ _ _ Hreq Hsoup Hlink).
  apply try_except_Ok.
  exact (zeit_settles_without_link fuel _ s1 html' s2 soup' Hreq' Hsoup' Hnone).
Qed.

End ClassificationCorners.

Section ClassificationCornersOnThePages.
Import Bs4 Claims Reading Fixtures.

(** X15, on the pages: a Welt article that is not served. *)
Lemma X15_welt_soup_get_html_without_html_witness :
  @_request unit web "https://www.welt.de/vermischtes/article404.html" start
  = (Ok None, start) /\
  welt_classify "https://www.welt.de/vermischtes/article404.html" start
  = (Ok (None, false), start).
Proof.
  split; [reflexivity |].
  exact (@X15_welt_soup_get_html_without_html unit web parser
           "https://www.welt.de/vermischtes/article404.html" start start None
           eq_refl (or_introl eq_refl)).
Defined.

(** X16, on the pages: the free Welt article; a request that raises; a
    document the parser gives up on. *)
Lemma X16_welt_soup_get_html_passes_through_witness :
  (welt_classify welt_open start = (Ok (Some "welt open", true), start) /\
   @_request unit web welt_open start = (Ok (Some "welt open"), start)) /\
  (@_request unit Corners.web "https://www.zeit.de/2023/02/getrennt" start
   = (Raise ValueError, start) /\
   @DeWelt._soup_get_html unit Corners.web Corners.parser
     "https://www.zeit.de/2023/02/getrennt" start = (Raise ValueError, start)) /\
  (@html_parser Corners.parser "broken" = Raise ValueError /\
   @DeWelt._soup_get_html unit Corners.web Corners.parser
     "https://www.zeit.de/2023/02/kaputt" start = (Raise ValueError, start)).
Proof.
  pose proof (@X16_welt_soup_get_html_passes_through unit web parser) as (Hhtml & _ & _).
  pose proof (@X16_welt_soup_get_html_passes_through unit Corners.web Corners.parser)
    as (_ & Hrequest & Hparser).
  assert (welt_classify welt_open start = (Ok (Some "welt open", true), start)) as Hrun
    by (vm_compute; reflexivity).
  split; [| split].
  - split; [exact Hrun | exact (Hhtml welt_open start _ _ _ Hrun)].
  - split; [reflexivity |].
    exact (Hrequest "https://www.zeit.de/2023/02/getrennt" start ValueError start eq_refl).
  - split; [reflexivity |].
    exact (Hparser "https://www.zeit.de/2023/02/kaputt" start "broken" start ValueError
             eq_refl eq_refl eq_refl).
Defined.

(** X17, on the pages: a Zeit article that is not served. *)
Lemma X17_zeit_soup_get_html_without_html_witness :
  @_request unit web "https://www.zeit.de/2023/01/fehlt" start = (Ok None, start) /\
  zeit_classify 1 "https://www.zeit.de/2023/01/fehlt" start
  = (Ok (Some (None, false)),
     mkState tt ([] ++ [Log WARNING ("Problem requesting: "
                                     +:+ "https://www.zeit.de/2023/01/fehlt")])).
Proof.
  split; [reflexivity |].
  exact (@X17_zeit_soup_get_html_without_html unit web parser 0
           "https://www.zeit.de/2023/01/fehlt" start start eq_refl).
Defined.

(** X18, on the pages: a Zeit article whose document the parser gives up
    on with ValueError. *)
Lemma X18_zeit_soup_get_html_parse_error_witness :
  @html_parser Corners.parser "broken" = Raise ValueError /\
  @DeZeit._soup_get_html unit Corners.web Corners.parser 1
    "https://www.zeit.de/2023/02/kaputt" start = (Raise NameError, start).
Proof.
  split; [reflexivity |].
  exact (@X18_zeit_soup_get_html_parse_error unit Corners.web Corners.parser 0
           "https://www.zeit.de/2023/02/kaputt" start "broken" start ValueError
           eq_refl eq_refl).
Defined.

(** X19, on the pages: a request that raises TypeError and one that
    raises ValueError. *)
Lemma X19_zeit_soup_get_html_request_error_witness :
  @DeZeit._soup_get_html unit Corners.web Corners.parser 1
    "https://www.zeit.de/2023/02/stumm" start
  = (Ok (Some (None, false)), mkState tt ([] ++ [Stdout DeZeit.format_exc])) /\
  @DeZeit._soup_get_html unit Corners.web Corners.parser 1
    "https://www.zeit.de/2023/02/getrennt" start
  = (Raise ValueError, start).
Proof.
  split.
  - exact (@X19_zeit_soup_get_html_request_error unit Corners.web Corners.parser 0
             "https://www.zeit.de/2023/02/stumm" start TypeError start eq_refl).
  - exact (@X19_zeit_soup_get_html_request_error unit Corners.web Corners.parser 0
             "https://www.zeit.de/2023/02/getrennt" start ValueError start eq_refl).
Defined.

(** X20, on the pages: the Zeit article spread over pages. *)
Lemma X20_zeit_soup_get_html_returns_full_view_witness :
  zeit_classify 2 zeit_paged start
  = (Ok (Some (Some "zeit free", negb (truthy (zeit_marker zeit_free_tree)))), start).
Proof.
  exact (@X20_zeit_soup_get_html_returns_full_view unit web parser 0 zeit_paged start
           "zeit paged" start zeit_paged_tree
           (Element "a" [("href", zeit_paged +:+ "/komplettansicht")]
                    [NavigableString "Auf einer Seite lesen"])
           "zeit free" start zeit_free_tree
           eq_refl eq_refl eq_refl eq_refl eq_refl eq_refl).
Defined.

End ClassificationCornersOnThePages.

(** ** The browser session: what is logged and how many calls are made *)

Section SilentSteps.
Import Selenium Traces.

Lemma silent_ret {E A} (a : A) : silent (@ret E A a).
Proof. intros s. reflexivity. Qed.

Lemma silent_raise {E A} e : silent (@raise E A e).
Proof. intros s. reflexivity. Qed.

Lemma silent_bind {E A B} (m : M E A) (k : A -> M E B) :
  silent m -> (forall a, silent (k a)) -> silent (bind m k).
Proof.
  intros Hm Hk s. unfold bind. specialize (Hm s).
  destruct (m s) as [[a|e] s1]; simpl in *; [| exact Hm].
  rewrite Hk. exact Hm.
Qed.

Lemma silent_try {E A} (body handler : M E A) catches :
  silent body -> silent handler -> silent (try_except body catches handler).
Proof.
  intros Hb Hh s. unfold try_except. specialize (Hb s).
  destruct (body s) as [[a|e] s1]; simpl in *; [exact Hb |].
  destruct (catches e); simpl; [rewrite Hh |]; exact Hb.
Qed.

Lemma silent_perform c : silent (perform c).
Proof.
  intros s. unfold perform. destruct (pending (env s)) as [|[| | |] rest]; reflexivity.
Qed.

Lemma silent_returns_nothing c : silent (returns_nothing c).
Proof.
  apply silent_bind; [apply silent_perform |].
  intros [| | |]; first [apply silent_ret | apply silent_raise].
Qed.

Lemma silent_returns_element c : silent (returns_element c).
Proof.
  apply silent_bind; [apply silent_perform |].
  intros [| | |]; first [apply silent_ret | apply silent_raise].
Qed.

Lemma silent_returns_text c : silent (returns_text c).
Proof.
  apply silent_bind; [apply silent_perform |].
  intros [| | |]; first [apply silent_ret | apply silent_raise].
Qed.

Lemma marks_emit {E A} o (v : A) : marks o v (@emit E o ;; ret v).
Proof. intros s. simpl. auto. Qed.

Lemma marks_bind {E A B} o (v : B) (m : M E A) (k : A -> M E B) :
  silent m -> (forall a, marks o v (k a)) -> marks o v (bind m k).
Proof.
  intros Hm Hk s. unfold bind. specialize (Hm s).
  destruct (m s) as [[a|e] s1]; simpl in *; [| exact Hm].
  specialize (Hk a s1). destruct (k a s1) as [[b|e] s2]; rewrite <- Hm; exact Hk.
Qed.

Lemma within_ret {A} (a : A) : within 0 (@ret Browser A a).
Proof. intros s. exists []. simpl. rewrite app_nil_r. split; [reflexivity | split; lia]. Qed.

Lemma within_raise {A} e : within 0 (@raise Browser A e).
Proof. intros s. exists []. simpl. rewrite app_nil_r. split; [reflexivity | split; lia]. Qed.

Lemma within_emit o : within 0 (@emit Browser o).
Proof. intros s. exists []. simpl. rewrite app_nil_r. split; [reflexivity | split; lia]. Qed.

Lemma within_more {A} n n' (m : M Browser A) : (n <= n')%nat -> within n m -> within n' m.
Proof.
  intros Hle Hm s. destruct (Hm s) as (more & Hc & Hn & Hp).
  exists more. split; [exact Hc | split; [lia | exact Hp]].
Qed.

Lemma within_bind {A B} n n' (m : M Browser A) (k : A -> M Browser B) :
  within n m -> (forall a, within n' (k a)) -> within (n + n') (bind m k).
Proof.
  intros Hm Hk s. unfold bind. destruct (Hm s) as (more & Hc & Hn & Hp).
  destruct (m s) as [[a|e] s1]; simpl in *.
  - destruct (Hk a s1) as (more' & Hc' & Hn' & Hp').
    exists (more ++ more'). rewrite Hc', Hc, <- app_assoc, length_app.
    split; [reflexivity | split; lia].
  - exists more. split; [exact Hc | split; [lia | exact Hp]].
Qed.

Lemma within_try {A} n n' (body handler : M Browser A) catches :
  within n body -> within n' handler -> within (n + n') (try_except body catches handler).
Proof.
  intros Hb Hh s. unfold try_except. destruct (Hb s) as (more & Hc & Hn & Hp).
  destruct (body s) as [[a|e] s1]; simpl in *.
  - exists more. split; [exact Hc | split; [lia | exact Hp]].
  - destruct (catches e); simpl.
    + destruct (Hh s1) as (more' & Hc' & Hn' & Hp').
      exists (more ++ more'). rewrite Hc', Hc, <- app_assoc, length_app.
      split; [reflexivity | split; lia].
    + exists more. split; [exact Hc | split; [lia | exact Hp]].
Qed.

Lemma within_perform c : within 1 (perform c).
Proof.
  intros s. exists [c]. unfold perform.
  destruct (pending (env s)) as [|[| | |] rest]; simpl; (split; [reflexivity | split; lia]).
Qed.

Lemma within_returns_nothing c : within 1 (returns_nothing c).
Proof.
  apply (within_bind 1 0); [apply within_perform |].
  intros [| | |]; first [apply within_ret | apply within_raise].
Qed.

Lemma within_returns_element c : within 1 (returns_element c).
Proof.
  apply (within_bind 1 0); [apply within_perform |].
  intros [| | |]; first [apply within_ret | apply within_raise].
Qed.

Lemma within_returns_text c : within 1 (returns_text c).
Proof.
  apply (within_bind 1 0); [apply within_perform |].
  intros [| | |]; first [apply within_ret | apply within_raise].
Qed.

End SilentSteps.

Section LoginTraces.
Import Selenium Traces.

Lemma reports_bind {E A} good bad (m : M E A) (k : A -> M E bool) :
  silent m -> (forall a, reports good bad (k a)) -> reports good bad (bind m k).
Proof.
  intros Hm Hk s. unfold bind. specialize (Hm s).
  destruct (m s) as [[a|e] s1]; simpl in *; [| exact Hm].
  specialize (Hk a s1). destruct (k a s1) as [[b|e] s2]; rewrite <- Hm; exact Hk.
Qed.

Lemma reports_try {E} good bad (body : M E bool) catches :
  marks good true body ->
  reports good bad (try_except body catches (emit bad ;; ret false)).
Proof.
  intros Hb s. unfold try_except. specialize (Hb s).
  destruct (body s) as [[b|e] s1].
  - destruct Hb as [-> Hlog]. exact Hlog.
  - destruct (catches e); simpl; [rewrite Hb; reflexivity | exact Hb].
Qed.

Ltac quiet :=
  repeat first
    [ apply silent_returns_nothing | apply silent_returns_element
    | apply silent_returns_text | apply silent_ret | apply silent_raise
    | apply silent_try | apply silent_bind | intro ].

Ltac marked :=
  repeat first [ apply marks_emit | apply marks_bind; [solve [quiet] | intro] ].

Ltac counted :=
  repeat first
    [ apply within_returns_nothing | apply within_returns_element
    | apply within_returns_text | apply within_ret | apply within_raise
    | apply within_emit | eapply within_try | eapply within_bind | intro ].

Lemma welt_before_check_silent u p : silent (DeWelt.before_check u p).
Proof.
  unfold DeWelt.before_check, DeWelt.login_form, DeWelt.accept_cookies,
    get, find_element, until, send_keys, click, switch_to_frame. quiet.
Qed.

Lemma handelsblatt_before_check_silent u p : silent (DeHandelsblatt.before_check u p).
Proof.
  unfold DeHandelsblatt.before_check, DeHandelsblatt.accept_cookies_main,
    DeHandelsblatt.go_to_login, DeHandelsblatt.accept_cookies_if_necessary,
    DeHandelsblatt.login_form, sleep,
    get, find_element, until, send_keys, click, switch_to_frame. quiet.
Qed.

Lemma zeit_before_check_silent u p : silent (DeZeit.before_check u p).
Proof.
  unfold DeZeit.before_check, DeZeit.login_form, DeZeit.accept_cookies,
    get, find_element, until, send_keys, click, switch_to_frame. quiet.
Qed.

(** X23: in Welt's login, once the steps before the check are through, a
    wait of the check that times out raises TimeoutException to the
    caller, with nothing logged; the login returns false, with the
    warning, when looking up the home component raises
    NoSuchElementException. *)
Theorem X23_welt_login_check :
  (forall u p s s1 rest,
      DeWelt.before_check u p s = (Ok tt, s1) ->
      pending (env s1) = Done :: Raises TimeoutException :: rest ->
      exists s',
        DeWelt._selenium_login u p s = (Raise TimeoutException, s') /\
        emitted s' = emitted s1) /\
  (forall u p s s1 home rest,
      DeWelt.before_check u p s = (Ok tt, s1) ->
      pending (env s1) = Done :: Found home :: Raises NoSuchElementException :: rest ->
      exists s',
        DeWelt._selenium_login u p s = (Ok false, s') /\
        emitted s' = emitted s1 ++ [Log WARNING "Login to Welt Plus failed."]).
Proof.
  split.
  - intros u p s [[pend cs] out] rest Hb Hp. simpl in Hp. subst pend.
    unfold DeWelt._selenium_login. rewrite (login_checks _ _ _ _ Hb).
    eexists. split; reflexivity.
  - intros u p s [[pend cs] out] home rest Hb Hp. simpl in Hp. subst pend.
    unfold DeWelt._selenium_login. rewrite (login_checks _ _ _ _ Hb).
    eexists. split; reflexivity.
Qed.

(** X24: the consent block of Handelsblatt's login page never raises
    TimeoutException; when the wait for its frame times out, it makes
    that one call and goes on. *)
Theorem X24_handelsblatt_consent_block_passes_timeouts :
  (forall s r s',
      DeHandelsblatt.accept_cookies_if_necessary s = (r, s') ->
      r <> Raise TimeoutException) /\
  (forall rest cs out,
      DeHandelsblatt.accept_cookies_if_necessary
        (mkState (mkBrowser (Raises TimeoutException :: rest) cs) out)
      = (Ok tt,
         mkState (mkBrowser rest
                    (cs ++ [Until the_driver 10
                              (presence_of_element_located DeHandelsblatt.consent_frame)]))
                 out)).
Proof.
  split.
  - intros s r s'. unfold DeHandelsblatt.accept_cookies_if_necessary, try_except.
    match goal with |- context [match ?body s with _ => _ end] => destruct (body s) as [[a|e] s1] end.
    + intros Hr. inversion Hr. discriminate.
    + destruct e; simpl; intros Hr; inversion Hr; discriminate.
  - intros rest cs out. reflexivity.
Qed.

(** X25: the log of a login tells how it ended, in every session: one
    info record when it returns true, one failure record (a warning for
    Welt, an error for Handelsblatt and Zeit) when it returns false, and
    no record when it raises. *)
Theorem X25_login_log_tells_outcome :
  (forall u p,
      reports (Log INFO "Logged in to Welt Plus.") (Log WARNING "Login to Welt Plus failed.")
              (DeWelt._selenium_login u p)) /\
  (forall u p,
      reports (Log INFO "Logged in to Handelsblatt.")
              (Log ERROR "Login to Handelsblatt failed.")
              (DeHandelsblatt._selenium_login u p)) /\
  (forall u p,
      reports (Log INFO "Logged in to Zeit Plus.") (Log ERROR "Login to Zeit Plus failed.")
              (DeZeit._selenium_login u p)).
Proof.
  repeat apply conj; intros u p.
  - unfold DeWelt._selenium_login.
    apply reports_bind; [apply welt_before_check_silent | intros _].
    unfold DeWelt.check_login, log_warning. apply reports_try.
    unfold get, find_element, until, log_info.
    marked.
  - unfold DeHandelsblatt._selenium_login.
    apply reports_bind; [apply handelsblatt_before_check_silent | intros _].
    unfold DeHandelsblatt.check_login, log_error. apply reports_try.
    unfold until, log_info.
    marked.
  - unfold DeZeit._selenium_login.
    apply reports_bind; [apply zeit_before_check_silent | intros _].
    unfold DeZeit.check_login, log_error, switch_to_default_content.
    apply reports_bind; [quiet | intros _]. apply reports_try.
    unfold until, log_info.
    marked.
Qed.

(** X26: Zeit's premium fetch logs nothing in any session; its first call
    on the browser is the navigation to the url, and at most three calls
    follow. *)
Theorem X26_zeit_premium_fetch_trace url s :
  emitted (snd (DeZeit._selenium_get_html url s)) = emitted s /\
  exists more,
    calls (env (snd (DeZeit._selenium_get_html url s)))
    = calls (env s) ++ Get url :: more /\
    (length more <= 3)%nat.
Proof.
  split.
  - revert s. change (silent (DeZeit._selenium_get_html url)).
    unfold DeZeit._selenium_get_html, get, find_element, page_source. quiet.
  - assert (within 3 (try_except
                        (find_element (DeZeit.full_view_link url) ;;
                         get (url +:+ "/komplettansicht"))
                        (only NoSuchElementException) (ret tt) ;; page_source)) as Hrest.
    { unfold get, find_element, page_source.
      eapply within_more; [| counted]. simpl. lia. }
    unfold DeZeit._selenium_get_html. unfold bind at 1.
    unfold get at 1. unfold returns_nothing, bind at 1. unfold perform.
    destruct s as [[pend cs] out]. simpl.
    destruct pend as [|[| | |] rest]; simpl;
      try (exists []; split; [reflexivity | simpl; lia]).
    destruct (Hrest (mkState (mkBrowser rest (cs ++ [Get url])) out))
      as (more & Hc & Hn & _).
    exists more. simpl in Hc. rewrite Hc, <- app_assoc. split; [reflexivity | exact Hn].
Qed.

(** X27: a login makes a bounded number of calls on the browser, in every
    session and whatever the credentials: at most 19 for Welt, 22 for
    Handelsblatt and 16 for Zeit, each taking at most one of the
    browser's answers. *)
Theorem X27_login_call_bounds :
  (forall u p, within 19 (DeWelt._selenium_login u p)) /\
  (forall u p, within 22 (DeHandelsblatt._selenium_login u p)) /\
  (forall u p, within 16 (DeZeit._selenium_login u p)).
Proof.
  repeat apply conj; intros u p.
  - unfold DeWelt._selenium_login, DeWelt.before_check, DeWelt.login_form,
      DeWelt.accept_cookies, DeWelt.check_login, log_info, log_warning,
      get, find_element, until, send_keys, click, switch_to_frame.
    eapply within_more; [| counted]. simpl. lia.
  - unfold DeHandelsblatt._selenium_login, DeHandelsblatt.before_check,
      DeHandelsblatt.accept_cookies_main, DeHandelsblatt.go_to_login,
      DeHandelsblatt.accept_cookies_if_necessary, DeHandelsblatt.login_form,
      DeHandelsblatt.check_login, sleep, log_info, log_error,
      get, find_element, until, send_keys, click, switch_to_frame.
    eapply within_more; [| counted]. simpl. lia.
  - unfold DeZeit._selenium_login, DeZeit.before_check, DeZeit.login_form,
      DeZeit.accept_cookies, DeZeit.check_login, log_info, log_error,
      get, find_element, until, send_keys, click, switch_to_frame,
      switch_to_default_content.
    eapply within_more; [| counted]. simpl. lia.
Qed.

End LoginTraces.

Section LoginTracesOnTheScripts.
Import Selenium Traces Fixtures.

(** X23, on the scripts: a Welt session whose home component never shows,
    and one in which it is gone when looked up. *)
Lemma X23_welt_login_check_witness :
  (exists s1 s',
      DeWelt.before_check user secret
        (session (welt_steps ++ [Done; Raises TimeoutException])) = (Ok tt, s1)
      /\ DeWelt._selenium_login user secret
           (session (welt_steps ++ [Done; Raises TimeoutException]))
         = (Raise TimeoutException, s')
      /\ emitted s' = emitted s1) /\
  (exists s1 s',
      DeWelt.before_check user secret
        (session (welt_steps ++ [Done; Found (element 6); Raises NoSuchElementException]))
      = (Ok tt, s1)
      /\ DeWelt._selenium_login user secret
           (session (welt_steps ++ [Done; Found (element 6); Raises NoSuchElementException]))
         = (Ok false, s')
      /\ emitted s' = emitted s1 ++ [Log WARNING "Login to Welt Plus failed."]).
Proof.
  pose proof X23_welt_login_check as (Htimeout & Hgone).
  split.
  - assert (exists s1,
               DeWelt.before_check user secret
                 (session (welt_steps ++ [Done; Raises TimeoutException])) = (Ok tt, s1)
               /\ pending (env s1) = [Done; Raises TimeoutException])
      as (s1 & Hb & Hp) by (eexists; split; vm_compute; reflexivity).
    destruct (Htimeout _ _ _ _ _ Hb Hp) as (s' & Hrun & Hlog).
    exists s1, s'. auto.
  - assert (exists s1,
               DeWelt.before_check user secret
                 (session (welt_steps ++ [Done; Found (element 6);
                                          Raises NoSuchElementException])) = (Ok tt, s1)
               /\ pending (env s1)
                  = [Done; Found (element 6); Raises NoSuchElementException])
      as (s1 & Hb & Hp) by (eexists; split; vm_compute; reflexivity).
    destruct (Hgone _ _ _ _ _ _ Hb Hp) as (s' & Hrun & Hlog).
    exists s1, s'. auto.
Defined.

(** X24, on the scripts: a consent frame whose button cannot be clicked. *)
Lemma X24_handelsblatt_consent_block_passes_timeouts_witness :
  DeHandelsblatt.accept_cookies_if_necessary
    (session [Found (element 1); Done; Raises TimeoutException])
  = (Ok tt,
     mkState (mkBrowser []
                [Until the_driver 10 (presence_of_element_located DeHandelsblatt.consent_frame);
                 SwitchToFrame (element 1);
                 Until the_driver 10 (element_to_be_clickable DeHandelsblatt.consent_button)])
             [])
  /\ @Ok unit tt <> Raise TimeoutException.
Proof.
  assert (DeHandelsblatt.accept_cookies_if_necessary
            (session [Found (element 1); Done; Raises TimeoutException])
          = (Ok tt,
             mkState (mkBrowser []
                        [Until the_driver 10
                           (presence_of_element_located DeHandelsblatt.consent_frame);
                         SwitchToFrame (element 1);
                         Until the_driver 10
                           (element_to_be_clickable DeHandelsblatt.consent_button)])
                     [])) as Hrun by (vm_compute; reflexivity).
  split; [exact Hrun |].
  exact (proj1 X24_handelsblatt_consent_block_passes_timeouts _ _ _ Hrun).
Defined.

End LoginTracesOnTheScripts.

(** ** The logins, call by call *)

Section LoginSteps.
Import Selenium Plans.

(** Take a hypothesis on the shape of the answers apart, case by case. *)
Ltac crack H :=
  simpl in H;
  repeat (match type of H with
          | context [match ?x with _ => _ end] => is_var x; destruct x
          end; simpl in H; try discriminate H).

Ltac raised := eexists; split; [vm_compute; reflexivity | split; reflexivity].

Lemma zeit_step_raises u p done e rest cs out :
  part_way zeit_plan done = true ->
  exists s',
    DeZeit._selenium_login u p (about_to (done ++ Raises e :: rest) cs out) = (Raise e, s')
    /\ pending (env s') = rest /\ emitted s' = out.
Proof. unfold zeit_plan. intros Hdone. crack Hdone; raised. Qed.

Lemma zeit_steps_through u p done rest cs out :
  go_through zeit_plan done = true ->
  exists s1,
    DeZeit.before_check u p (about_to (done ++ rest) cs out) = (Ok tt, s1)
    /\ pending (env s1) = rest /\ emitted s1 = out.
Proof. unfold zeit_plan. intros Hdone. crack Hdone; raised. Qed.

Lemma welt_step_raises u p done e rest cs out :
  part_way welt_plan done = true ->
  exists s',
    DeWelt._selenium_login u p (about_to (done ++ Raises e :: rest) cs out) = (Raise e, s')
    /\ pending (env s') = rest /\ emitted s' = out.
Proof. unfold welt_plan. intros Hdone. crack Hdone; raised. Qed.

Lemma welt_steps_through u p done rest cs out :
  go_through welt_plan done = true ->
  exists s1,
    DeWelt.before_check u p (about_to (done ++ rest) cs out) = (Ok tt, s1)
    /\ pending (env s1) = rest /\ emitted s1 = out.
Proof. unfold welt_plan. intros Hdone. crack Hdone; raised. Qed.

Lemma handelsblatt_opening_raises u p done e rest cs out :
  part_way handelsblatt_opening done = true ->
  exists s',
    DeHandelsblatt._selenium_login u p (about_to (done ++ Raises e :: rest) cs out)
    = (Raise e, s')
    /\ pending (env s') = rest /\ emitted s' = out.
Proof. unfold handelsblatt_opening. intros Hdone. crack Hdone; raised. Qed.

Lemma handelsblatt_first_consent_raises u p opening done e rest cs out :
  go_through handelsblatt_opening opening = true ->
  part_way consent_block done = true ->
  e <> TimeoutException ->
  exists s',
    DeHandelsblatt._selenium_login u p
      (about_to (opening ++ done ++ Raises e :: rest) cs out) = (Raise e, s')
    /\ pending (env s') = rest /\ emitted s' = out.
Proof.
  unfold handelsblatt_opening, consent_block. intros Hopening Hdone He.
  crack Hopening; crack Hdone; (destruct e; [..| contradiction He; reflexivity | |]); raised.
Qed.

Lemma handelsblatt_form_raises u p opening consent done e rest cs out :
  go_through handelsblatt_opening opening = true ->
  pass_over consent_block consent = true ->
  part_way handelsblatt_form done = true ->
  exists s',
    DeHandelsblatt._selenium_login u p
      (about_to (opening ++ consent ++ done ++ Raises e :: rest) cs out) = (Raise e, s')
    /\ pending (env s') = rest /\ emitted s' = out.
Proof.
  unfold handelsblatt_opening, consent_block, handelsblatt_form.
  intros Hopening Hconsent Hdone.
  crack Hopening; crack Hconsent; crack Hdone; raised.
Qed.

Lemma handelsblatt_second_consent_raises u p opening consent form done e rest cs out :
  go_through handelsblatt_opening opening = true ->
  pass_over consent_block consent = true ->
  go_through handelsblatt_form form = true ->
  part_way consent_block done = true ->
  e <> TimeoutException ->
  exists s',
    DeHandelsblatt._selenium_login u p
      (about_to (opening ++ consent ++ form ++ done ++ Raises e :: rest) cs out)
    = (Raise e, s')
    /\ pending (env s') = rest /\ emitted s' = out.
Proof.
  unfold handelsblatt_opening, consent_block, handelsblatt_form.
  intros Hopening Hconsent Hform Hdone He.
  crack Hopening; crack Hconsent; crack Hform; crack Hdone;
    (destruct e; [..| contradiction He; reflexivity | |]); raised.
Qed.

Lemma handelsblatt_steps_through u p opening consent form consent' rest cs out :
  go_through handelsblatt_opening opening = true ->
  pass_over consent_block consent = true ->
  go_through handelsblatt_form form = true ->
  pass_over consent_block consent' = true ->
  exists s1,
    DeHandelsblatt.before_check u p
      (about_to (opening ++ consent ++ form ++ consent' ++ rest) cs out) = (Ok tt, s1)
    /\ pending (env s1) = rest /\ emitted s1 = out.
Proof.
  unfold handelsblatt_opening, consent_block, handelsblatt_form.
  intros Hopening Hconsent Hform Hconsent'.
  crack Hopening; crack Hconsent; crack Hform; crack Hconsent'; raised.
Qed.

End LoginSteps.

Section LoginOutcomes.
Import Selenium Plans Fixtures.

(** C4 (as the code has it): in each adapter's login the calls before the
    final check stand outside any try, except the two consent blocks of
    Handelsblatt's login page, which pass over a TimeoutException. When
    the calls so far went through and the next call, still before the
    check, raises an exception, the login raises it to its caller and
    logs nothing; inside a Handelsblatt consent block this holds for every
    exception but TimeoutException. When all the calls before the check
    go through, the login returns true, with an info record, if the
    browser then shows the logged-in marker; Handelsblatt's and Zeit's
    login return false, with an error record, if the wait for the marker
    times out. *)
Theorem C4_login_outcomes :
  (forall u p done e rest cs out,
      part_way welt_plan done = true ->
      exists s',
        DeWelt._selenium_login u p (about_to (done ++ Raises e :: rest) cs out)
        = (Raise e, s')
        /\ pending (env s') = rest /\ emitted s' = out) /\
  (forall u p done rest cs out,
      go_through welt_plan done = true ->
      exists s1,
        DeWelt.before_check u p (about_to (done ++ rest) cs out) = (Ok tt, s1)
        /\ pending (env s1) = rest /\ emitted s1 = out) /\
  (forall u p s s1 home home' greeting rest,
      DeWelt.before_check u p s = (Ok tt, s1) ->
      pending (env s1) = Done :: Found home :: Found home' :: Found greeting :: Done :: rest ->
      exists s',
        DeWelt._selenium_login u p s = (Ok true, s') /\
        emitted s' = emitted s1 ++ [Log INFO "Logged in to Welt Plus."]) /\
  (forall u p done e rest cs out,
      part_way handelsblatt_opening done = true ->
      exists s',
        DeHandelsblatt._selenium_login u p (about_to (done ++ Raises e :: rest) cs out)
        = (Raise e, s')
        /\ pending (env s') = rest /\ emitted s' = out) /\
  (forall u p opening done e rest cs out,
      go_through handelsblatt_opening opening = true ->
      part_way consent_block done = true ->
      e <> TimeoutException ->
      exists s',
        DeHandelsblatt._selenium_login u p
          (about_to (opening ++ done ++ Raises e :: rest) cs out) = (Raise e, s')
        /\ pending (env s') = rest /\ emitted s' = out) /\
  (forall u p opening consent done e rest cs out,
      go_through handelsblatt_opening opening = true ->
      pass_over consent_block consent = true ->
      part_way handelsblatt_form done = true ->
      exists s',
        DeHandelsblatt._selenium_login u p
          (about_to (opening ++ consent ++ done ++ Raises e :: rest) cs out) = (Raise e, s')
        /\ pending (env s') = rest /\ emitted s' = out) /\
  (forall u p opening consent form done e rest cs out,
      go_through handelsblatt_opening opening = true ->
      pass_over consent_block consent = true ->
      go_through handelsblatt_form form = true ->
      part_way consent_block done = true ->
      e <> TimeoutException ->
      exists s',
        DeHandelsblatt._selenium_login u p
          (about_to (opening ++ consent ++ form ++ done ++ Raises e :: rest) cs out)
        = (Raise e, s')
        /\ pending (env s') = rest /\ emitted s' = out) /\
  (forall u p opening consent form consent' rest cs out,
      go_through handelsblatt_opening opening = true ->
      pass_over consent_block consent = true ->
      go_through handelsblatt_form form = true ->
      pass_over consent_block consent' = true ->
      exists s1,
        DeHandelsblatt.before_check u p
          (about_to (opening ++ consent ++ form ++ consent' ++ rest) cs out) = (Ok tt, s1)
        /\ pending (env s1) = rest /\ emitted s1 = out) /\
  (forall u p s s1 marker rest,
      DeHandelsblatt.before_check u p s = (Ok tt, s1) ->
      pending (env s1) = Found marker :: rest ->
      exists s',
        DeHandelsblatt._selenium_login u p s = (Ok true, s') /\
        emitted s' = emitted s1 ++ [Log INFO "Logged in to Handelsblatt."]) /\
  (forall u p s s1 rest,
      DeHandelsblatt.before_check u p s = (Ok tt, s1) ->
      pending (env s1) = Raises TimeoutException :: rest ->
      exists s',
        DeHandelsblatt._selenium_login u p s = (Ok false, s') /\
        emitted s' = emitted s1 ++ [Log ERROR "Login to Handelsblatt failed."]) /\
  (forall u p done e rest cs out,
      part_way zeit_plan done = true ->
      exists s',
        DeZeit._selenium_login u p (about_to (done ++ Raises e :: rest) cs out)
        = (Raise e, s')
        /\ pending (env s') = rest /\ emitted s' = out) /\
  (forall u p done rest cs out,
      go_through zeit_plan done = true ->
      exists s1,
        DeZeit.before_check u p (about_to (done ++ rest) cs out) = (Ok tt, s1)
        /\ pending (env s1) = rest /\ emitted s1 = out) /\
  (forall u p s s1 marker rest,
      DeZeit.before_check u p s = (Ok tt, s1) ->
      pending (env s1) = Done :: Found marker :: rest ->
      exists s',
        DeZeit._selenium_login u p s = (Ok true, s') /\
        emitted s' = emitted s1 ++ [Log INFO "Logged in to Zeit Plus."]) /\
  (forall u p s s1 rest,
      DeZeit.before_check u p s = (Ok tt, s1) ->
      pending (env s1) = Done :: Raises TimeoutException :: rest ->
      exists s',
        DeZeit._selenium_login u p s = (Ok false, s') /\
        emitted s' = emitted s1 ++ [Log ERROR "Login to Zeit Plus failed."]).
Proof.
  repeat apply conj.
  - apply welt_step_raises.
  - apply welt_steps_through.
  - intros u p s [[pend cs] out] home home' greeting rest Hb Hp. simpl in Hp. subst pend.
    unfold DeWelt._selenium_login. rewrite (login_checks _ _ _ _ Hb).
    eexists. split; reflexivity.
  - apply handelsblatt_opening_raises.
  - apply handelsblatt_first_consent_raises.
  - apply handelsblatt_form_raises.
  - apply handelsblatt_second_consent_raises.
  - apply handelsblatt_steps_through.
  - intros u p s [[pend cs] out] marker rest Hb Hp. simpl in Hp. subst pend.
    unfold DeHandelsblatt._selenium_login. rewrite (login_checks _ _ _ _ Hb).
    eexists. split; reflexivity.
  - intros u p s [[pend cs] out] rest Hb Hp. simpl in Hp. subst pend.
    unfold DeHandelsblatt._selenium_login. rewrite (login_checks _ _ _ _ Hb).
    eexists. split; reflexivity.
  - apply zeit_step_raises.
  - apply zeit_steps_through.
  - intros u p s [[pend cs] out] marker rest Hb Hp. simpl in Hp. subst pend.
    unfold DeZeit._selenium_login. rewrite (login_checks _ _ _ _ Hb).
    eexists. split; reflexivity.
  - intros u p s [[pend cs] out] rest Hb Hp. simpl in Hp. subst pend.
    unfold DeZeit._selenium_login. rewrite (login_checks _ _ _ _ Hb).
    eexists. split; reflexivity.
Qed.

(** C4, on the scripts. Welt: the username field never shows; all steps
    go through and the greeting shows. Handelsblatt: the login link cannot
    be clicked; the consent frame of the login page cannot be entered; the
    password field is missing after a consent block that timed out; the
    second consent button cannot be clicked; all steps go through, with
    the marker and without. Zeit: the e-mail field is missing; all steps
    go through, with the marker and without. *)
Lemma C4_login_outcomes_witness :
  (exists s',
      DeWelt._selenium_login user secret
        (about_to ([Done] ++ Raises TimeoutException :: []) [] [])
      = (Raise TimeoutException, s') /\ pending (env s') = [] /\ emitted s' = []) /\
  (exists s1 s',
      DeWelt.before_check user secret
        (about_to (welt_steps ++ [Done; Found (element 6); Found (element 6);
                                  Found (element 7); Done]) [] []) = (Ok tt, s1)
      /\ DeWelt._selenium_login user secret
           (about_to (welt_steps ++ [Done; Found (element 6); Found (element 6);
                                     Found (element 7); Done]) [] []) = (Ok true, s')
      /\ emitted s' = emitted s1 ++ [Log INFO "Logged in to Welt Plus."]) /\
  (exists s',
      DeHandelsblatt._selenium_login user secret
        (about_to ([Done; Found (element 1); Done; Found (element 2); Done; Found (element 3)]
                   ++ Raises WebDriverException :: []) [] [])
      = (Raise WebDriverException, s') /\ pending (env s') = [] /\ emitted s' = []) /\
  (exists s',
      DeHandelsblatt._selenium_login user secret
        (about_to ([Done; Found (element 1); Done; Found (element 2); Done;
                    Found (element 3); Done]
                   ++ [Found (element 4)] ++ Raises WebDriverException :: []) [] [])
      = (Raise WebDriverException, s') /\ pending (env s') = [] /\ emitted s' = []) /\
  (exists s',
      DeHandelsblatt._selenium_login user secret
        (about_to ([Done; Found (element 1); Done; Found (element 2); Done;
                    Found (element 3); Done]
                   ++ [Raises TimeoutException]
                   ++ [Found (element 4); Done] ++ Raises NoSuchElementException :: [])
                  [] [])
      = (Raise NoSuchElementException, s') /\ pending (env s') = [] /\ emitted s' = []) /\
  (exists s',
      DeHandelsblatt._selenium_login user secret
        (about_to ([Done; Found (element 1); Done; Found (element 2); Done;
                    Found (element 3); Done]
                   ++ [Raises TimeoutException]
                   ++ [Found (element 4); Done; Found (element 5); Done;
                       Found (element 6); Done]
                   ++ [Found (element 7); Done; Found (element 8)]
                   ++ Raises WebDriverException :: []) [] [])
      = (Raise WebDriverException, s') /\ pending (env s') = [] /\ emitted s' = []) /\
  (exists s1 s',
      DeHandelsblatt.before_check user secret
        (about_to (handelsblatt_steps ++ [Found (element 7)]) [] []) = (Ok tt, s1)
      /\ DeHandelsblatt._selenium_login user secret
           (about_to (handelsblatt_steps ++ [Found (element 7)]) [] []) = (Ok true, s')
      /\ emitted s' = emitted s1 ++ [Log INFO "Logged in to Handelsblatt."]) /\
  (exists s1 s',
      DeHandelsblatt.before_check user secret
        (about_to (handelsblatt_steps ++ [Raises TimeoutException]) [] []) = (Ok tt, s1)
      /\ DeHandelsblatt._selenium_login user secret
           (about_to (handelsblatt_steps ++ [Raises TimeoutException]) [] []) = (Ok false, s')
      /\ emitted s' = emitted s1 ++ [Log ERROR "Login to Handelsblatt failed."]) /\
  (exists s',
      DeZeit._selenium_login user secret
        (about_to ([Done] ++ Raises NoSuchElementException :: []) [] [])
      = (Raise NoSuchElementException, s') /\ pending (env s') = [] /\ emitted s' = []) /\
  (exists s1 s',
      DeZeit.before_check user secret
        (about_to (zeit_steps ++ [Done; Found (element 7)]) [] []) = (Ok tt, s1)
      /\ DeZeit._selenium_login user secret
           (about_to (zeit_steps ++ [Done; Found (element 7)]) [] []) = (Ok true, s')
      /\ emitted s' = emitted s1 ++ [Log INFO "Logged in to Zeit Plus."]) /\
  (exists s1 s',
      DeZeit.before_check user secret
        (about_to (zeit_steps ++ [Done; Raises TimeoutException]) [] []) = (Ok tt, s1)
      /\ DeZeit._selenium_login user secret
           (about_to (zeit_steps ++ [Done; Raises TimeoutException]) [] []) = (Ok false, s')
      /\ emitted s' = emitted s1 ++ [Log ERROR "Login to Zeit Plus failed."]).
Proof.
  pose proof C4_login_outcomes
    as (Hw_raise & Hw_through & Hw_true &
        Hh_open & Hh_consent & Hh_form & Hh_consent' & Hh_through & Hh_true & Hh_false &
        Hz_raise & Hz_through & Hz_true & Hz_false).
  repeat apply conj.
  - apply Hw_raise. reflexivity.
  - destruct (Hw_through user secret welt_steps
                [Done; Found (element 6); Found (element 6); Found (element 7); Done] [] []
                eq_refl) as (s1 & Hb & Hp & _).
    destruct (Hw_true _ _ _ _ _ _ _ _ Hb Hp) as (s' & Hrun & Hlog).
    exists s1, s'. auto.
  - apply Hh_open. reflexivity.
  - apply Hh_consent; [reflexivity | reflexivity | discriminate].
  - apply Hh_form; reflexivity.
  - apply Hh_consent'; [reflexivity | reflexivity | reflexivity | reflexivity | discriminate].
  - destruct (Hh_through user secret
                [Done; Found (element 1); Done; Found (element 2); Done;
                 Found (element 3); Done]
                [Raises TimeoutException]
                [Found (element 4); Done; Found (element 5); Done; Found (element 6); Done]
                [Raises TimeoutException] [Found (element 7)] [] []
                eq_refl eq_refl eq_refl eq_refl) as (s1 & Hb & Hp & _).
    destruct (Hh_true _ _ _ _ _ _ Hb Hp) as (s' & Hrun & Hlog).
    exists s1, s'. auto.
  - destruct (Hh_through user secret
                [Done; Found (element 1); Done; Found (element 2); Done;
                 Found (element 3); Done]
                [Raises TimeoutException]
                [Found (element 4); Done; Found (element 5); Done; Found (element 6); Done]
                [Raises TimeoutException] [Raises TimeoutException] [] []
                eq_refl eq_refl eq_refl eq_refl) as (s1 & Hb & Hp & _).
    destruct (Hh_false _ _ _ _ _ Hb Hp) as (s' & Hrun & Hlog).
    exists s1, s'. auto.
  - apply Hz_raise. reflexivity.
  - destruct (Hz_through user secret zeit_steps [Done; Found (element 7)] [] [] eq_refl)
      as (s1 & Hb & Hp & _).
    destruct (Hz_true _ _ _ _ _ _ Hb Hp) as (s' & Hrun & Hlog).
    exists s1, s'. auto.
  - destruct (Hz_through user secret zeit_steps [Done; Raises TimeoutException] [] [] eq_refl)
      as (s1 & Hb & Hp & _).
    destruct (Hz_false _ _ _ _ _ Hb Hp) as (s' & Hrun & Hlog).
    exists s1, s'. auto.
Defined.

End LoginOutcomes.

(** ** Zeit's premium fetch, call by call *)

Section PremiumFetch.
Import Selenium Fixtures Traces.

(** C8 (as the code has it): the premium fetch navigates to the url and
    looks for the link to the full view. When the link is there it
    navigates on to the url followed by /komplettansicht; when the search
    raises NoSuchElementException it stays; it then returns the page
    source. Only NoSuchElementException is caught, and only around the
    search and the second navigation: the first navigation raises every
    exception to the caller; the search and the second navigation raise
    every other exception, a timeout included, to the caller; a
    NoSuchElementException out of the second navigation is passed over
    and the page source returned; reading the page source raises every
    exception to the caller. In no session is anything logged. *)
Theorem C8_zeit_premium_fetch :
  (forall url link html rest cs out,
      DeZeit._selenium_get_html url
        (mkState (mkBrowser (Done :: Found link :: Done :: Source html :: rest) cs) out)
      = (Ok html,
         mkState (mkBrowser rest
                    (cs ++ [Get url; FindElement (DeZeit.full_view_link url);
                            Get (url +:+ "/komplettansicht"); PageSource])) out)) /\
  (forall url html rest cs out,
      DeZeit._selenium_get_html url
        (mkState (mkBrowser (Done :: Raises NoSuchElementException :: Source html :: rest) cs) out)
      = (Ok html,
         mkState (mkBrowser rest
                    (cs ++ [Get url; FindElement (DeZeit.full_view_link url); PageSource])) out)) /\
  (forall url e rest cs out,
      DeZeit._selenium_get_html url (mkState (mkBrowser (Raises e :: rest) cs) out)
      = (Raise e, mkState (mkBrowser rest (cs ++ [Get url])) out)) /\
  (forall url e rest cs out,
      e <> NoSuchElementException ->
      DeZeit._selenium_get_html url (mkState (mkBrowser (Done :: Raises e :: rest) cs) out)
      = (Raise e,
         mkState (mkBrowser rest
                    (cs ++ [Get url; FindElement (DeZeit.full_view_link url)])) out)) /\
  (forall url link e rest cs out,
      e <> NoSuchElementException ->
      DeZeit._selenium_get_html url
        (mkState (mkBrowser (Done :: Found link :: Raises e :: rest) cs) out)
      = (Raise e,
         mkState (mkBrowser rest
                    (cs ++ [Get url; FindElement (DeZeit.full_view_link url);
                            Get (url +:+ "/komplettansicht")])) out)) /\
  (forall url link html rest cs out,
      DeZeit._selenium_get_html url
        (mkState (mkBrowser (Done :: Found link :: Raises NoSuchElementException
                               :: Source html :: rest) cs) out)
      = (Ok html,
         mkState (mkBrowser rest
                    (cs ++ [Get url; FindElement (DeZeit.full_view_link url);
                            Get (url +:+ "/komplettansicht"); PageSource])) out)) /\
  (forall url link e rest cs out,
      DeZeit._selenium_get_html url
        (mkState (mkBrowser (Done :: Found link :: Done :: Raises e :: rest) cs) out)
      = (Raise e,
         mkState (mkBrowser rest
                    (cs ++ [Get url; FindElement (DeZeit.full_view_link url);
                            Get (url +:+ "/komplettansicht"); PageSource])) out)) /\
  (forall url e rest cs out,
      DeZeit._selenium_get_html url
        (mkState (mkBrowser (Done :: Raises NoSuchElementException :: Raises e :: rest) cs) out)
      = (Raise e,
         mkState (mkBrowser rest
                    (cs ++ [Get url; FindElement (DeZeit.full_view_link url); PageSource])) out)) /\
  (forall url (s : State Browser),
      emitted (snd (DeZeit._selenium_get_html url s)) = emitted s).
Proof.
  repeat apply conj.
  - intros; cbv -[String.append app]; rewrite <- ?app_assoc; reflexivity.
  - intros; cbv -[String.append app]; rewrite <- ?app_assoc; reflexivity.
  - intros; cbv -[String.append app]; rewrite <- ?app_assoc; reflexivity.
  - intros url e rest cs out He.
    destruct e; try contradiction;
      cbv -[String.append app]; rewrite <- ?app_assoc; reflexivity.
  - intros url link e rest cs out He.
    destruct e; try contradiction;
      cbv -[String.append app]; rewrite <- ?app_assoc; reflexivity.
  - intros; cbv -[String.append app]; rewrite <- ?app_assoc; reflexivity.
  - intros; cbv -[String.append app]; rewrite <- ?app_assoc; reflexivity.
  - intros; cbv -[String.append app]; rewrite <- ?app_assoc; reflexivity.
  - intros url. change (silent (DeZeit._selenium_get_html url)).
    unfold DeZeit._selenium_get_html, get, find_element, page_source.
    repeat first
      [ apply silent_returns_nothing | apply silent_returns_element
      | apply silent_returns_text | apply silent_ret | apply silent_try
      | apply silent_bind | intro ].
Qed.

(** C8, on the scripts: a paged article whose full view is fetched; a
    search for the link that times out; a second navigation that times
    out; a second navigation that raises NoSuchElementException, after
    which the page source is still returned. *)
Lemma C8_zeit_premium_fetch_witness :
  DeZeit._selenium_get_html zeit_paged
    (session [Done; Found (element 1); Done; Source "<html>komplett</html>"])
  = (Ok "<html>komplett</html>"%string,
     mkState (mkBrowser []
                ([] ++ [Get zeit_paged; FindElement (DeZeit.full_view_link zeit_paged);
                        Get (zeit_paged +:+ "/komplettansicht"); PageSource])) [])
  /\ DeZeit._selenium_get_html zeit_paged (session [Done; Raises TimeoutException])
     = (Raise TimeoutException,
        mkState (mkBrowser []
                   ([] ++ [Get zeit_paged; FindElement (DeZeit.full_view_link zeit_paged)])) [])
  /\ DeZeit._selenium_get_html zeit_paged
       (session [Done; Found (element 1); Raises TimeoutException])
     = (Raise TimeoutException,
        mkState (mkBrowser []
                   ([] ++ [Get zeit_paged; FindElement (DeZeit.full_view_link zeit_paged);
                           Get (zeit_paged +:+ "/komplettansicht")])) [])
  /\ DeZeit._selenium_get_html zeit_paged
       (session [Done; Found (element 1); Raises NoSuchElementException;
                 Source "<html>seite 1</html>"])
     = (Ok "<html>seite 1</html>"%string,
        mkState (mkBrowser []
                   ([] ++ [Get zeit_paged; FindElement (DeZeit.full_view_link zeit_paged);
                           Get (zeit_paged +:+ "/komplettansicht"); PageSource])) []).
Proof.
  pose proof C8_zeit_premium_fetch
    as (Hfull & _ & _ & Hsearch & Hsecond & Hpassed & _).
  repeat apply conj.
  - apply (Hfull zeit_paged (element 1) "<html>komplett</html>"%string [] [] []).
  - apply (Hsearch zeit_paged TimeoutException [] [] []). discriminate.
  - apply (Hsecond zeit_paged (element 1) TimeoutException [] [] []). discriminate.
  - apply (Hpassed zeit_paged (element 1) "<html>seite 1</html>"%string [] [] []).
Defined.

End PremiumFetch.

(** ** When the paywall marker cannot be looked up *)

Section LookupError.
Import Bs4 Claims.
Context {W : Type} {NM : NewspaperManager W} {HP : HtmlParser}.

(** Zeit's classification gives the answer without html only after a
    request that gave nothing or after a TypeError: the record written
    last is the warning about the request or the printed traceback. *)
Lemma zeit_fallback_origin fuel : forall url (s s' : State W),
  DeZeit._soup_get_html fuel url s = (Ok (Some (None, false)), s') ->
  (exists u out,
      emitted s' = out ++ [Log WARNING ("Problem requesting: " +:+ u)]) \/
  (exists out, emitted s' = out ++ [Stdout DeZeit.format_exc]).
Proof.
  induction fuel as [|fuel IH]; intros url s s' Hr; simpl in Hr.
  - returned Hr.
  - apply try_except_Ok_inv in Hr as [Hr | (e & s2 & _ & _ & Hr)].
    2:{ right. run_bind Hr. returned Hr. exists (emitted s2).
        unfold print, emit in Hrun. inversion Hrun. reflexivity. }
    run_bind Hr. destruct a as [h|].
    2:{ left. run_bind Hr. returned Hr. exists url, (emitted s0).
        unfold log_warning, emit in Hrun0. inversion Hrun0. reflexivity. }
    run_bind Hr.
    apply try_except_Ok_inv in Hrun0 as [Hp | (e & s2 & _ & _ & Hp)].
    2:{ run_bind Hp. discriminate Hrun0. }
    run_bind Hp. returned Hp.
    destruct (find a0 "a" _) as [link|].
    + eapply IH. exact Hr.
    + apply try_except_Ok_inv in Hr as [Hr | (e & s2 & Hbody & _ & _)].
      * run_bind Hr. returned Hr.
      * unfold bind, DeZeit.premium_icon_lookup, ret in Hbody. discriminate Hbody.
Qed.

(** C3 (as the code has it): Welt's lookup of the premium link raises
    AttributeError exactly when the page has no header of the class
    r-header r-header--default. For such a page, fetched and parsed, the
    method returns no html with the flag false and logs the warning
    Could not identify if article is premium. The flag false is also the
    flag of a page whose header carries the premium link, and the pair of
    no html and false is what Handelsblatt's method returns for every
    article; a page whose header carries no premium link gets the flag
    true. In Zeit's method the lookup of the paywall aside does not
    raise: a fetched and parsed page without a link to a full view is
    returned with its html and its flag, and when the method returns no
    html with the flag false, the record written last is the warning
    about the request or the printed traceback. *)
Theorem C3_lookup_error_gets_the_premium_flag :
  (forall soup (s : State W),
      DeWelt.premium_icon_lookup soup s = (Raise AttributeError, s) <->
      find soup "header" [("class", Value "r-header r-header--default")]%string = None) /\
  (forall url s html s1 soup,
      _request url s = (Ok (Some html), s1) ->
      Str.is_empty html = false ->
      html_parser html = Ok soup ->
      find soup "header" [("class", Value "r-header r-header--default")]%string = None ->
      DeWelt._soup_get_html url s
      = (Ok (None, false),
         mkState (env s1)
                 (emitted s1 ++ [Log WARNING ("Could not identify if article is premium: "
                                              +:+ url +:+ ".")]))) /\
  (forall url s html s1 soup header icon,
      _request url s = (Ok (Some html), s1) ->
      Str.is_empty html = false ->
      html_parser html = Ok soup ->
      find soup "header" [("class", Value "r-header r-header--default")]%string = Some header ->
      find header "a" [("class", Value "is-link c-article-header__premium")]%string = Some icon ->
      DeWelt._soup_get_html url s = (Ok (Some html, false), s1)) /\
  (forall url s html s1 soup header,
      _request url s = (Ok (Some html), s1) ->
      Str.is_empty html = false ->
      html_parser html = Ok soup ->
      find soup "header" [("class", Value "r-header r-header--default")]%string = Some header ->
      find header "a" [("class", Value "is-link c-article-header__premium")]%string = None ->
      DeWelt._soup_get_html url s = (Ok (Some html, true), s1)) /\
  (forall url (s : State W),
      DeHandelsblatt._soup_get_html url s = (Ok (None, false), s)) /\
  (forall fuel url s html s1 soup,
      _request url s = (Ok (Some html), s1) ->
      html_parser html = Ok soup ->
      find soup "a" [("href"%string, Value (url +:+ "/komplettansicht"))] = None ->
      DeZeit._soup_get_html (S fuel) url s
      = (Ok (Some (Some html, negb (truthy (zeit_marker soup)))), s1)) /\
  (forall fuel url (s s' : State W),
      DeZeit._soup_get_html fuel url s = (Ok (Some (None, false)), s') ->
      (exists u out,
          emitted s' = out ++ [Log WARNING ("Problem requesting: " +:+ u)]) \/
      (exists out, emitted s' = out ++ [Stdout DeZeit.format_exc])).
Proof.
  split; [| split; [| split; [| split; [| split; [| split]]]]].
  - intros soup s. unfold DeWelt.premium_icon_lookup, find_on.
    destruct (find soup "header" _) as [header|]; split; intros Hr;
      [discriminate Hr | discriminate Hr | reflexivity | reflexivity].
  - intros url s html s1 soup Hreq Hne Hsoup Hheader.
    unfold DeWelt._soup_get_html. erewrite bind_step by exact Hreq.
    destruct html as [|c h]; [discriminate Hne |].
    erewrite bind_step by (apply BeautifulSoup_parsed; exact Hsoup).
    unfold try_except, bind, DeWelt.premium_icon_lookup, find_on.
    rewrite Hheader. reflexivity.
  - intros url s html s1 soup header icon Hreq Hne Hsoup Hheader Hicon.
    unfold DeWelt._soup_get_html. erewrite bind_step by exact Hreq.
    destruct html as [|c h]; [discriminate Hne |].
    erewrite bind_step by (apply BeautifulSoup_parsed; exact Hsoup).
    unfold try_except, bind, DeWelt.premium_icon_lookup, find_on.
    rewrite Hheader. unfold ret. rewrite Hicon. reflexivity.
  - intros url s html s1 soup header Hreq Hne Hsoup Hheader Hicon.
    unfold DeWelt._soup_get_html. erewrite bind_step by exact Hreq.
    destruct html as [|c h]; [discriminate Hne |].
    erewrite bind_step by (apply BeautifulSoup_parsed; exact Hsoup).
    unfold try_except, bind, DeWelt.premium_icon_lookup, find_on.
    rewrite Hheader. unfold ret. rewrite Hicon. reflexivity.
  - intros url s. reflexivity.
  - intros fuel url s html s1 soup Hreq Hsoup Hlink. simpl.
    unfold try_except at 1. erewrite bind_step by exact Hreq.
    unfold bind at 1. unfold try_except at 1.
    erewrite bind_step by (apply BeautifulSoup_parsed; exact Hsoup).
    unfold ret at 1. rewrite Hlink. reflexivity.
  - intros fuel. apply zeit_fallback_origin.
Qed.

End LookupError.

Section LookupErrorOnThePages.
Import Bs4 Claims Fixtures.

(** C3 fails as stated: the Welt article without the header comes back
    without html and with the flag false, and that flag does not set it
    apart as not premium. False is the flag of the article with the
    premium link, the article without the premium link has the flag true,
    and no html with false is what Handelsblatt's method answers for an
    article it leaves to the browser. *)
Lemma C3_fallback_flag_is_the_marked_flag :
  welt_classify welt_bare start
  = (Ok (None, false),
     mkState tt [Log WARNING ("Could not identify if article is premium: "
                              +:+ welt_bare +:+ ".")])
  /\ (welt_classify welt_plus start = (Ok (Some "welt plus", false), start)
      /\ truthy (welt_marker welt_plus_tree) = true)
  /\ (welt_classify welt_open start = (Ok (Some "welt open", true), start)
      /\ truthy (welt_marker welt_open_tree) = false)
  /\ @DeHandelsblatt._soup_get_html unit welt_bare start = (Ok (None, false), start)
  /\ fst (welt_classify welt_bare start)
     = fst (@DeHandelsblatt._soup_get_html unit welt_bare start)
  /\ ~ (exists html, fst (welt_classify welt_bare start) = Ok (html, true)).
Proof.
  repeat apply conj; try (vm_compute; reflexivity).
  intros (html & Hrun). vm_compute in Hrun. discriminate Hrun.
Qed.

(** C3, on the pages: the Welt article without the header, the one with
    the premium link and the one without it; a Zeit article with the
    paywall aside; a Zeit url that cannot be requested. *)
Lemma C3_lookup_error_gets_the_premium_flag_witness :
  @DeWelt.premium_icon_lookup unit welt_bare_tree start = (Raise AttributeError, start)
  /\ welt_classify welt_bare start
     = (Ok (None, false),
        mkState (env start)
                (emitted start ++ [Log WARNING ("Could not identify if article is premium: "
                                                +:+ welt_bare +:+ ".")]))
  /\ welt_classify welt_plus start = (Ok (Some "welt plus", false), start)
  /\ welt_classify welt_open start = (Ok (Some "welt open", true), start)
  /\ zeit_classify 1 zeit_paywalled start
     = (Ok (Some (Some "zeit paywalled", negb (truthy (zeit_marker zeit_paywalled_tree)))), start)
  /\ ((exists u out,
          emitted (snd (zeit_classify 1 "https://www.zeit.de/2023/01/fehlt" start))
          = out ++ [Log WARNING ("Problem requesting: " +:+ u)]) \/
      (exists out,
          emitted (snd (zeit_classify 1 "https://www.zeit.de/2023/01/fehlt" start))
          = out ++ [Stdout DeZeit.format_exc])).
Proof.
  pose proof (@C3_lookup_error_gets_the_premium_flag unit web parser)
    as (Hraises & Hbare & Hplus & Hopen & _ & Hzeit & Horigin).
  assert (find welt_bare_tree "header" [("class", Value "r-header r-header--default")]%string
          = None) as Hnone by (vm_compute; reflexivity).
  assert (zeit_classify 1 "https://www.zeit.de/2023/01/fehlt" start
          = (Ok (Some (None, false)),
             snd (zeit_classify 1 "https://www.zeit.de/2023/01/fehlt" start))) as Hmissing
    by (vm_compute; reflexivity).
  split; [| split; [| split; [| split; [| split]]]].
  - apply (proj2 (Hraises welt_bare_tree start)). exact Hnone.
  - exact (Hbare welt_bare start "welt bare" start welt_bare_tree
             eq_refl eq_refl eq_refl Hnone).
  - refine (Hplus welt_plus start "welt plus" start welt_plus_tree
              (Element "header" [("class", "r-header r-header--default")]
                 [Element "a" [("class", "is-link c-article-header__premium")] []])
              (Element "a" [("class", "is-link c-article-header__premium")] [])
              eq_refl eq_refl eq_refl _ _); vm_compute; reflexivity.
  - refine (Hopen welt_open start "welt open" start welt_open_tree
              (Element "header" [("class", "r-header r-header--default")] [])
              eq_refl eq_refl eq_refl _ _); vm_compute; reflexivity.
  - refine (Hzeit 0%nat zeit_paywalled start "zeit paywalled" start zeit_paywalled_tree
              eq_refl eq_refl _).
    vm_compute. reflexivity.
  - exact (Horigin 1%nat _ start _ Hmissing).
Defined.

End LookupErrorOnThePages.

(** ** The urls of an index and the links they come from *)

Section IndexUrls.
Import Bs4 Pandas Datetime Claims Reading.
Context {W : Type} {NM : NewspaperManager W} {HP : HtmlParser} {DP : DateParser}.




End IndexUrls.

Section IndexUrlsOnThePages.
Import Bs4 Pandas Datetime Claims Reading Fixtures.


End IndexUrlsOnThePages.

(** ** Handelsblatt: every article is left to the browser *)

Section Deferral.
Import Bs4 Engine.
Context {HP : HtmlParser}.



End Deferral.
